(** * Voice-Training-Script-Generator: the analyzer and the generator

    A shallow embedding of [calculate_wpm.py] and [generate_text.py].

    Conventions of the embedding.
    - A Python [float] is an IEEE 754 double: a [spec_float] of the
      standard library at precision 53 and maximal exponent 1024, with the
      library's correctly rounded sum, difference, product and quotient.
      What Python adds is written out: a division raises
      [ZeroDivisionError] for a zero divisor, [int(x)] truncates toward zero
      and raises on an infinity or a NaN, an int that takes part in float
      arithmetic is first converted (and raises [OverflowError] when it is
      too large), and [round(x, n)] rounds the exact value of [x] to [n]
      decimals, ties to even, and returns the nearest double.
    - A Python [int] is a [Z].
    - [sum] over floats adds from left to right; CPython 3.12 and later
      carry Neumaier's compensation along.  Which of the two the interpreter
      does is part of the surroundings of a run.
    - A Python [str] that the scripts only pass along, join or compare (a
      name, a path, a style, a topic, a prompt) is a [string]; a text whose
      whitespace matters (what the service returns) is a list of Unicode
      code points.
    - A path is the text of a [pathlib.Path]; [a / b] is pathlib's.  There
      are no symbolic links, and [..] is a name like any other.
    - The file system is a set of directory paths and a finite map from
      (directory, name) to file contents; [open(d / n, "w")] followed by a
      write replaces the entry at [(d, n)].  What the scripts only read
      (the environment, the command line as [argparse] understands it, the
      configuration file, the recordings, the clock) comes from a record of
      their surroundings.
    - [sys.exit(n)] and an uncaught exception end a run; the interpreter
      turns an uncaught exception into a traceback and exit status 1.
    - The remote service is a function from requests to responses, [None]
      when a request fails; every request, directory made and file written
      is recorded, in order, in the trace of the run state.
    - The third-party packages are installed, so the guarded imports at
      the top of the scripts pass. *)

From Stdlib Require Import ZArith QArith Qround Lia List Ascii String.
From Stdlib Require Import SpecFloat.
From stdpp Require Import base strings pretty gmap list sorting.

Open Scope Z_scope.

(** ** Exceptions *)

Module PyExn.

Inductive Exn :=
| ZeroDivisionError
| OverflowError
| ValueError
| FileExistsError
| FileNotFoundError
| IsADirectoryError
| NotADirectoryError
| CouldntDecodeError
| APIError.

(** An expression that has a value or raises. *)
Definition result (A : Type) : Type := A + Exn.

Definition and_then {A B} (r : result A) (k : A -> result B) : result B :=
  match r with
  | inl a => k a
  | inr e => inr e
  end.

End PyExn.
Export PyExn.

(** ** Python numerics *)

Module PyNum.

(** The doubles. *)
Definition float : Type := spec_float.

Definition prec : Z := 53.

Definition emax : Z := 1024.

Definition fadd (x y : float) : float := SFadd prec emax x y.

Definition fsub (x y : float) : float := SFsub prec emax x y.

Definition fmul (x y : float) : float := SFmul prec emax x y.

(** The quotient of the C level, which divides by zero too. *)
Definition fdiv (x y : float) : float := SFdiv prec emax x y.

Definition fabs (x : float) : float := SFabs x.

(** [x <= y]; false when either is a NaN. *)
Definition fle (x y : float) : bool := SFleb x y.

(** [x == 0]: either zero, and no NaN. *)
Definition is_zero (x : float) : bool :=
  match x with
  | S754_zero _ => true
  | _ => false
  end.

Definition is_finite (x : float) : bool :=
  match x with
  | S754_zero _ | S754_finite _ _ _ => true
  | _ => false
  end.

(** An integer as an unrounded mantissa. *)
Definition raw (z : Z) : float :=
  match z with
  | Z0 => S754_zero false
  | Zpos p => S754_finite false p 0
  | Zneg p => S754_finite true p 0
  end.

(** The double nearest to [a / b], ties to even: what [float("1.2")] is
    for 12 / 10. *)
Definition nearest (a : Z) (b : positive) : float :=
  fdiv (raw a) (raw (Zpos b)).

(** The double a decimal literal denotes. *)
Definition of_Q (q : Q) : float := nearest (Qnum q) (Qden q).

(** [(double) z]: the nearest double, an infinity beyond the largest. *)
Definition to_float (z : Z) : float := binary_normalize prec emax z 0 false.

(** The conversion of an int operand of a float operation. *)
Definition float_of_int (z : Z) : result float :=
  match to_float z with
  | S754_infinity _ => inr OverflowError
  | x => inl x
  end.

(** The exact value of a finite double. *)
Definition exact (x : float) : Q :=
  match x with
  | S754_finite s m e =>
      let v := match e with
               | Zneg k => Z.pos m # Z.to_pos (2 ^ Z.pos k)
               | _ => inject_Z (Z.pos m * 2 ^ e)
               end in
      if s then Qopp v else v
  | _ => 0%Q
  end.

(** [int(x)] on a float: the integer part, rounding toward zero. *)
Definition int_of_float (x : float) : result Z :=
  match x with
  | S754_nan => inr ValueError
  | S754_infinity _ => inr OverflowError
  | S754_zero _ => inl 0
  | S754_finite s m e =>
      let a := match e with
               | Zneg k => Z.shiftr (Z.pos m) (Z.pos k)
               | _ => Z.pos m * 2 ^ e
               end in
      inl (if s then - a else a)
  end.

(** [a / b] on two floats. *)
Definition float_truediv (a b : float) : result float :=
  if is_zero b then inr ZeroDivisionError else inl (fdiv a b).

(** [a / n] for a float and an int. *)
Definition float_div_int (a : float) (n : Z) : result float :=
  and_then (float_of_int n) (float_truediv a).

(** [n / b] for an int and a float. *)
Definition int_div_float (n : Z) (b : float) : result float :=
  and_then (float_of_int n) (fun a => float_truediv a b).

(** [a * n] for a float and an int. *)
Definition float_mul_int (a : float) (n : Z) : result float :=
  and_then (float_of_int n) (fun b => inl (fmul a b)).

(** [a / b] on two ints, for [b] other than zero: the double nearest to
    the quotient.  The dividends of the scripts are lengths, which are
    below [2^63], so the quotient is never too large for a double. *)
Definition int_truediv (a b : Z) : float :=
  match a with
  | Z0 => S754_zero (b <? 0)
  | _ => fdiv (raw a) (raw b)
  end.

(** The nearest integer, ties to the even one. *)
Definition round_half_even (x : Q) : Z :=
  let n := Qfloor x in
  let r := (x - inject_Z n)%Q in
  match (r ?= 1 # 2)%Q with
  | Lt => n
  | Gt => n + 1
  | Eq => if Z.even n then n else n + 1
  end.

(** [round(x, ndigits)] for a float and [ndigits >= 0]: the exact value
    is rounded to a multiple of [10^-ndigits] and that decimal is read back
    as a double.  Infinities and NaN round to themselves, and a value that
    rounds to nothing keeps its sign. *)
Definition py_round (x : float) (ndigits : nat) : float :=
  match x with
  | S754_finite s _ _ =>
      let scale := Z.to_pos (10 ^ Z.of_nat ndigits) in
      match round_half_even (exact x * inject_Z (Zpos scale)) with
      | Z0 => S754_zero s
      | k => nearest k scale
      end
  | _ => x
  end.

(** A number that is the int [0] or a float: what [calculate_wpm]
    returns, and what [sum] makes of such numbers. *)
Inductive num :=
| Zero
| Flt (x : float).

(** [(double) v] *)
Definition to_double (v : num) : float :=
  match v with
  | Zero => S754_zero false
  | Flt x => x
  end.

(** [round(v, ndigits)]: an int rounds to itself. *)
Definition num_round (v : num) (ndigits : nat) : num :=
  match v with
  | Zero => Zero
  | Flt x => Flt (py_round x ndigits)
  end.

(** The float loop of [sum] before CPython 3.12. *)
Fixpoint sum_plain (f : float) (xs : list num) : float :=
  match xs with
  | [] => f
  | v :: r => sum_plain (fadd f (to_double v)) r
  end.

(** The float loop of [sum] from CPython 3.12 on: [f] is the running sum
    and [c] the running compensation. *)
Fixpoint sum_compensated (f c : float) (xs : list num) : float :=
  match xs with
  | [] => if negb (is_zero c) && is_finite c then fadd f c else f
  | Flt x :: r =>
      let t := fadd f x in
      let d := if fle (fabs x) (fabs f) then fadd (fsub f t) x
               else fadd (fsub x t) f in
      sum_compensated t (fadd c d) r
  | Zero :: r => sum_compensated (fadd f (S754_zero false)) c r
  end.

(** [sum(xs)]: ints are added as ints until the first float, which is
    added to the int so far, here [0]; the float loop takes over from
    there. *)
Fixpoint py_sum (compensated : bool) (xs : list num) : num :=
  match xs with
  | [] => Zero
  | Zero :: r => py_sum compensated r
  | Flt x :: r =>
      let f := fadd (S754_zero false) x in
      Flt (if compensated then sum_compensated f (S754_zero false) r
           else sum_plain f r)
  end.

(** [sum(xs)] over ints. *)
Definition py_sum_int (xs : list Z) : Z := fold_left Z.add xs 0.

End PyNum.
Export PyNum.

(** ** Python strings *)

Module PyStr.

(** A text as its code points. *)
Definition text : Type := list N.

(** A literal of the scripts, which are ASCII. *)
Definition lit (s : string) : text :=
  map N_of_ascii (list_ascii_of_string s).

(** [str.isspace] on one character: the code points whose bidirectional
    class is WS, B or S or whose category is Zs. *)
Definition is_space (c : N) : bool :=
  ((9 <=? c) && (c <=? 13) || (28 <=? c) && (c <=? 32)
   || (c =? 133) || (c =? 160) || (c =? 5760)
   || (8192 <=? c) && (c <=? 8202)
   || (c =? 8232) || (c =? 8233) || (c =? 8239) || (c =? 8287)
   || (c =? 12288))%N.

(** [text.split()]: the maximal runs of non-space characters.  [cur] is
    the word being read, in reverse. *)
Fixpoint split_ws (cur : list N) (s : text) : list text :=
  let flush := match cur with
               | [] => []
               | _ => [rev cur]
               end in
  match s with
  | [] => flush
  | c :: r =>
      if is_space c then flush ++ split_ws [] r
      else split_ws (c :: cur) r
  end.

Definition py_split (s : text) : list text := split_ws [] s.

Fixpoint lstrip (s : text) : text :=
  match s with
  | c :: r => if is_space c then lstrip r else s
  | [] => []
  end.

Definition rstrip (s : text) : text := rev (lstrip (rev s)).

(** [text.strip()] *)
Definition py_strip (s : text) : text := rstrip (lstrip s).

(** [str(n)] for an int. *)
Definition str_int (n : Z) : string := pretty n.

(** [f"{i:02d}"]: decimal, padded with zeros on the left to width two
    (the sign counts toward the width). *)
Definition fmt_02d (i : Z) : string :=
  if (0 <=? i) && (i <? 10) then "0" +:+ pretty i else pretty i.

(** The line feed, [chr(10)]. *)
Definition nl : string := String (ascii_of_nat 10) EmptyString.

(** ["=" * width] *)
Definition rule (width : nat) : string :=
  string_of_list_ascii (repeat "="%char width).

(** [not s] for the result of [os.environ.get] or an optional argument:
    [None] and the empty string are false. *)
Definition str_falsy (s : option string) : bool :=
  match s with
  | None => true
  | Some t => String.eqb t EmptyString
  end.

End PyStr.
Export PyStr.

(** ** The clock *)

Module PyTime.

(** [datetime.now()], to the second. *)
Record DateTime := mkDateTime {
  dt_year : nat;
  dt_month : nat;
  dt_day : nat;
  dt_hour : nat;
  dt_minute : nat;
  dt_second : nat
}.

Definition digit_char (d : nat) : ascii :=
  match d with
  | 0 => "0" | 1 => "1" | 2 => "2" | 3 => "3" | 4 => "4"
  | 5 => "5" | 6 => "6" | 7 => "7" | 8 => "8" | _ => "9"
  end%nat%char.

(** The digit of [n] at the decimal position [k]. *)
Definition digit_at (n k : nat) : ascii :=
  digit_char (Nat.modulo (Nat.div n (Nat.pow 10 k)) 10).

(** [t.strftime("%Y%m%d_%H%M%S")], for the years of four digits. *)
Definition strftime (t : DateTime) : string :=
  String (digit_at (dt_year t) 3) (String (digit_at (dt_year t) 2)
  (String (digit_at (dt_year t) 1) (String (digit_at (dt_year t) 0)
  (String (digit_at (dt_month t) 1) (String (digit_at (dt_month t) 0)
  (String (digit_at (dt_day t) 1) (String (digit_at (dt_day t) 0)
  (String "_"
  (String (digit_at (dt_hour t) 1) (String (digit_at (dt_hour t) 0)
  (String (digit_at (dt_minute t) 1) (String (digit_at (dt_minute t) 0)
  (String (digit_at (dt_second t) 1) (String (digit_at (dt_second t) 0)
  EmptyString)))))))))))))).

End PyTime.
Export PyTime.

(** ** Records written to disk *)

(** One entry of [results] in the analyzer, as dumped under ["files"]. *)
Record FileResult := mkFileResult {
  fr_file : string;
  fr_duration_seconds : float;
  fr_word_count : Z;
  fr_wpm : num;
  fr_transcript : text
}.

(** The analyzer's [output] dictionary. *)
Record Report := mkReport {
  rp_analysis_date : string;
  rp_files_analyzed : Z;
  rp_total_words : Z;
  rp_total_duration_seconds : num;
  rp_average_wpm : float;
  rp_files : list FileResult
}.

(** One element of [generated_texts] in the generator. *)
Record TextData := mkTextData {
  td_text : text;
  td_target_words : Z;
  td_actual_words : Z
}.

(** One element of [metadata["chunks"]]. *)
Record ChunkMeta := mkChunkMeta {
  cm_file : string;
  cm_target_word_count : Z;
  cm_actual_word_count : Z;
  cm_estimated_duration_minutes : float
}.

(** The generator's [metadata] dictionary. *)
Record Metadata := mkMetadata {
  md_generated_at : string;
  md_style : string;
  md_target_duration_minutes : float;
  md_wpm_used : Z;
  md_chunks : list ChunkMeta;
  md_total_words : Z;
  md_estimated_total_duration_minutes : float
}.

(** What a written file holds. *)
Inductive content :=
| Text (s : text)
| ReportJson (r : Report)
| MetadataJson (m : Metadata).

(** ** The run-time: file system, output, remote calls, exits *)

Module Py.

(** How a run ends early. *)
Inductive Stop :=
| Exit (code : Z)
| Uncaught (e : Exn).

(** A printed line: the pieces of an f-string.  Floats are kept as
    values, with the number of decimals when a format asks for them;
    [Usage] stands for what [argparse] writes of itself. *)
Inductive piece :=
| Lit (s : string)
| Float (x : float)
| Fixed (decimals : nat) (x : float)
| Usage.

Definition line := list piece.

(** A request to the remote service. *)
Inductive call :=
| Upload (path : string)
| GenerateContent (model : string) (attachment : option text)
                  (prompt : string).

(** What a run does to the world outside the process, in order. *)
Inductive event :=
| Remote (c : call)
| MadeDir (path : string)
| Wrote (dir name : string).

(** Directories by path; regular files by directory and name, the way
    the scripts build every file path ([dir / name]). *)
Record FS := mkFS {
  dirs : gset string;
  files : gmap (string * string) content
}.

Record St := mkSt {
  st_fs : FS;
  st_out : list line;
  st_trace : list event
}.

Definition M (A : Type) : Type := St -> (A + Stop) * St.

Definition ret {A} (a : A) : M A := fun s => (inl a, s).

Definition bind {A B} (m : M A) (k : A -> M B) : M B :=
  fun s =>
    match m s with
    | (inl a, s') => k a s'
    | (inr e, s') => (inr e, s')
    end.

Definition print (l : line) : M unit :=
  fun s => (inl tt, mkSt (st_fs s) (st_out s ++ [l]) (st_trace s)).

Definition sys_exit {A} (code : Z) : M A := fun s => (inr (Exit code), s).

Definition raise {A} (e : Exn) : M A := fun s => (inr (Uncaught e), s).

(** An expression evaluated in a run: its value, or its exception
    raised. *)
Definition lift {A} (r : result A) : M A :=
  match r with
  | inl a => ret a
  | inr e => raise e
  end.

Definition emit (ev : event) : M unit :=
  fun s => (inl tt, mkSt (st_fs s) (st_out s) (st_trace s ++ [ev])).

(** A remote call: recorded, then answered by the service or failed. *)
Definition remote_call (service : call -> option text) (c : call)
  : M text :=
  fun s =>
    let s' := mkSt (st_fs s) (st_out s) (st_trace s ++ [Remote c]) in
    match service c with
    | Some r => (inl r, s')
    | None => (inr (Uncaught APIError), s')
    end.

Definition get_fs : M FS := fun s => (inl (st_fs s), s).

Definition put_fs (f : FS) : M unit :=
  fun s => (inl tt, mkSt f (st_out s) (st_trace s)).

(** [type(e).__name__] *)
Definition exn_name (e : Exn) : string :=
  match e with
  | ZeroDivisionError => "ZeroDivisionError"
  | OverflowError => "OverflowError"
  | ValueError => "ValueError"
  | FileExistsError => "FileExistsError"
  | FileNotFoundError => "FileNotFoundError"
  | IsADirectoryError => "IsADirectoryError"
  | NotADirectoryError => "NotADirectoryError"
  | CouldntDecodeError => "CouldntDecodeError"
  | APIError => "APIError"
  end.

(** The interpreter around [main()]: the exit status of the process and
    the final state.  A run that ends normally exits with 0, [sys.exit(n)]
    with [n]; an exception nobody caught is reported by a traceback
    (written to the terminal like the printed lines) and exits with 1. *)
Definition run_script (m : M unit) (s : St) : Z * St :=
  match m s with
  | (inl _, s') => (0, s')
  | (inr (Exit c), s') => (c, s')
  | (inr (Uncaught e), s') =>
      (1, mkSt (st_fs s')
               (st_out s' ++ [[Lit "Traceback (most recent call last):"];
                              [Lit (exn_name e)]])
               (st_trace s'))
  end.

End Py.
Export Py.

Notation "'let*' x ':=' m 'in' k" := (Py.bind m (fun x => k))
  (at level 10, x name, m at level 100, k at level 200).
Notation "m '>>' k" := (Py.bind m (fun _ => k))
  (at level 100, k at level 200, right associativity).

(** ** Paths and the file-system calls the scripts make *)

Module Fs.

(** A segment split at its slashes. *)
Fixpoint split_slash (s : string) : list string :=
  match s with
  | EmptyString => [EmptyString]
  | String c r =>
      if Ascii.eqb c "/" then EmptyString :: split_slash r
      else match split_slash r with
           | w :: ws => String c w :: ws
           | [] => [String c EmptyString]
           end
  end.

(** The components pathlib keeps of a segment: what lies between the
    slashes, less the empty names and the dots. *)
Definition components (s : string) : list string :=
  filter (fun c => c <> EmptyString /\ c <> ".") (split_slash s).

Definition is_absolute (s : string) : bool :=
  match s with
  | String c _ => Ascii.eqb c "/"
  | EmptyString => false
  end.

(** The root of an absolute segment: two leading slashes are kept, any
    other number of them is one. *)
Definition root_of (s : string) : string :=
  match s with
  | String _ (String c2 r) =>
      if Ascii.eqb c2 "/" then
        match r with
        | String c3 _ => if Ascii.eqb c3 "/" then "/" else "//"
        | EmptyString => "//"
        end
      else "/"
  | _ => "/"
  end.

Fixpoint ends_with_slash (s : string) : bool :=
  match s with
  | EmptyString => false
  | String c EmptyString => Ascii.eqb c "/"
  | String _ r => ends_with_slash r
  end.

(** Components appended to the text of a path: nothing stands before
    them when the path is the current directory, and no further slash
    after a root. *)
Definition glue (a rest : string) : string :=
  if String.eqb a "." then rest
  else if ends_with_slash a then a +:+ rest
  else a +:+ "/" +:+ rest.

(** [a / b] on a [Path] and a [str]: an absolute [b] replaces [a], and
    the result is written the way pathlib writes a path. *)
Definition join (a b : string) : string :=
  let rest := String.concat "/" (components b) in
  if is_absolute b then root_of b +:+ rest
  else match components b with
       | [] => a
       | _ => glue a rest
       end.

(** A path split at its last slash into [(parent, name)]. *)
Fixpoint split_path (p : string) : option (string * string) :=
  match p with
  | EmptyString => None
  | String c r =>
      match split_path r with
      | Some (q, n) => Some (String c q, n)
      | None => if Ascii.eqb c "/" then Some (EmptyString, r) else None
      end
  end.

(** Every proper prefix of [p] that ends before a slash. *)
Fixpoint ancestors_from (pre p : string) : list string :=
  match p with
  | EmptyString => []
  | String c r =>
      (if Ascii.eqb c "/" then [pre] else [])
        ++ ancestors_from (pre +:+ String c EmptyString) r
  end.

Definition ancestors (p : string) : list string :=
  filter (fun a => a <> EmptyString) (ancestors_from EmptyString p).

Definition is_dir (f : FS) (p : string) : bool := bool_decide (p ∈ dirs f).

Definition is_file (f : FS) (d n : string) : bool :=
  bool_decide (is_Some (files f !! (d, n))).

(** A regular file lies at the path [p]. *)
Definition is_file_path (f : FS) (p : string) : bool :=
  match split_path p with
  | Some (d, n) => is_file f d n
  | None => false
  end.

(** [(d / n).mkdir(exist_ok=True)] *)
Definition mkdir_exist_ok (d n : string) : M unit :=
  let* f := get_fs in
  if is_dir f (join d n) then ret tt
  else if is_file f d n then raise FileExistsError
  else if is_dir f d then
    put_fs (mkFS ({[ join d n ]} ∪ dirs f) (files f)) >>
    emit (MadeDir (join d n))
  else if is_file_path f d then raise NotADirectoryError
  else raise FileNotFoundError.

(** [(d / n).mkdir(parents=True, exist_ok=True)] *)
Definition mkdir_parents_exist_ok (d n : string) : M unit :=
  let* f := get_fs in
  if is_dir f (join d n) then ret tt
  else if is_file f d n then raise FileExistsError
  else if existsb (is_file_path f) (d :: ancestors d)
       then raise NotADirectoryError
  else put_fs (mkFS ({[ join d n ]} ∪ {[ d ]} ∪ list_to_set (ancestors d)
                       ∪ dirs f)
                    (files f)) >>
       emit (MadeDir (join d n)).

(** [with open(d / n, "w") as f: f.write(c)] (and [json.dump(c, f)]): the
    file is created or truncated, then holds [c]. *)
Definition write_file (d n : string) (c : content) : M unit :=
  let* f := get_fs in
  if is_dir f (join d n) then raise IsADirectoryError
  else if is_dir f d then
    put_fs (mkFS (dirs f) (<[ (d, n) := c ]> (files f))) >>
    emit (Wrote d n)
  else if is_file_path f d then raise NotADirectoryError
  else raise FileNotFoundError.

(** The order [sorted] puts names in. *)
Definition str_le (a b : string) : Prop := String.leb a b = true.

#[global] Instance str_le_dec a b : Decision (str_le a b).
Proof. unfold str_le. apply _. Defined.

(** The entries of directory [d]: its files and its sub-directories. *)
Definition entries (f : FS) (d : string) : list string :=
  omap (fun k => if String.eqb (fst k) d then Some (snd k) else None)
       (elements (dom (files f)))
  ++ omap (fun p => match split_path p with
                    | Some (q, n) => if String.eqb q d then Some n else None
                    | None => None
                    end)
          (elements (dirs f)).

(** [sorted(d.iterdir())], as names. *)
Definition sorted_iterdir (f : FS) (d : string) : list string :=
  merge_sort str_le (entries f d).

End Fs.
Export Fs.

(** ** calculate_wpm.py *)

Module Analyzer.

(** What the analyzer reads from its surroundings. *)
Record Env := mkEnv {
  script_dir : string;
  (** [os.environ.get("GEMINI_API_KEY")] *)
  api_key : option string;
  (** [wpm_measure_dir.exists()] *)
  measure_dir_exists : bool;
  (** The names [wpm_measure_dir.glob("*.mp3")] yields, in the order the
      file system yields them. *)
  glob_mp3 : list string;
  (** [len(AudioSegment.from_file(path))], in milliseconds; [None] when
      the file cannot be decoded. *)
  audio_length_ms : string -> option Z;
  (** The remote service. *)
  service : call -> option text;
  (** [datetime.now().isoformat()] *)
  now_iso : string;
  (** The interpreter's [sum] compensates its float loop (CPython 3.12
      and later). *)
  neumaier_sum : bool
}.

(** [get_audio_duration_seconds(file_path)] *)
Definition get_audio_duration_seconds (e : Env) (file_path : string) : M float :=
  match audio_length_ms e file_path with
  | Some ms => lift (int_div_float ms (to_float 1000))
  | None => raise CouldntDecodeError
  end.

(** [transcribe_audio(client, file_path)] *)
Definition transcribe_audio (e : Env) (dir name : string) : M text :=
  print [Lit "  Uploading "; Lit name; Lit "..."] >>
  let* uri := remote_call (service e) (Upload (join dir name)) in
  print [Lit "  Transcribing..."] >>
  let* response := remote_call (service e)
    (GenerateContent "gemini-2.0-flash" (Some uri)
       ("Transcribe this audio exactly as spoken. "
        +:+ "Return ONLY the transcription text, nothing else.")) in
  ret (py_strip response).

(** [count_words(text)] *)
Definition count_words (t : text) : Z :=
  Z.of_nat (length (py_split t)).

(** [calculate_wpm(word_count, duration_seconds)] *)
Definition calculate_wpm (word_count : Z) (duration_seconds : float)
  : result num :=
  let duration_minutes := fdiv duration_seconds (to_float 60) in
  if is_zero duration_minutes then inl Zero
  else and_then (int_div_float word_count duration_minutes)
                (fun r => inl (Flt r)).

(** The record appended to [results] for one file. *)
Definition file_result (name : string) (duration : float) (transcript : text)
    (wpm : num) : FileResult :=
  mkFileResult name (py_round duration 2) (count_words transcript)
               (num_round wpm 1) transcript.

(** The body of [for mp3_file in mp3_files]. *)
Definition process_file (e : Env) (dir name : string) : M FileResult :=
  print [Lit "Processing: "; Lit name] >>
  let* duration := get_audio_duration_seconds e (join dir name) in
  print [Lit "  Duration: "; Fixed 1 duration; Lit " seconds (";
         Fixed 2 (fdiv duration (to_float 60)); Lit " minutes)"] >>
  let* transcript := transcribe_audio e dir name in
  let word_count := count_words transcript in
  print [Lit "  Word count: "; Lit (str_int word_count)] >>
  let* wpm := lift (calculate_wpm word_count duration) in
  print [Lit "  WPM: "; Fixed 1 (to_double wpm); Lit nl] >>
  ret (file_result name duration transcript wpm).

(** The loop: [results] grows by one record per file, in order. *)
Fixpoint process_files (e : Env) (dir : string) (names : list string)
                       (results : list FileResult) : M (list FileResult) :=
  match names with
  | [] => ret results
  | name :: rest =>
      let* r := process_file e dir name in
      process_files e dir rest (results ++ [r])
  end.

(** [v / n] for a sum and a length. *)
Definition num_div_len (v : num) (n : nat) : result float :=
  match n with
  | O => inr ZeroDivisionError
  | _ => inl match v with
             | Zero => int_truediv 0 (Z.of_nat n)
             | Flt x => fdiv x (to_float (Z.of_nat n))
             end
  end.

(** [sum(r["wpm"] for r in results) / len(results)] *)
Definition average_wpm (e : Env) (results : list FileResult) : result float :=
  num_div_len (py_sum (neumaier_sum e) (map fr_wpm results)) (length results).

Definition total_words (results : list FileResult) : Z :=
  py_sum_int (map fr_word_count results).

Definition total_duration (e : Env) (results : list FileResult) : num :=
  py_sum (neumaier_sum e) (map (fun r => Flt (fr_duration_seconds r)) results).

(** The [output] dictionary. *)
Definition build_report (e : Env) (results : list FileResult)
    (average : float) : Report :=
  mkReport (now_iso e) (Z.of_nat (length results)) (total_words results)
           (num_round (total_duration e results) 2)
           (py_round average 1) results.

(** [main()] *)
Definition main (e : Env) : M unit :=
  let wpm_measure_dir := join (script_dir e) "wpm-measure" in
  let user_context_dir := join (script_dir e) "user-context" in
  let output_file := join user_context_dir "wpm-analysis.json" in
  (if str_falsy (api_key e) then
     print [Lit "Error: GEMINI_API_KEY environment variable not set."] >>
     print [Lit "Get your API key from: https://aistudio.google.com/apikey"] >>
     sys_exit 1
   else ret tt) >>
  (if negb (measure_dir_exists e) then
     print [Lit "Error: Directory not found: "; Lit wpm_measure_dir] >>
     sys_exit 1
   else ret tt) >>
  let mp3_files := glob_mp3 e in
  (match mp3_files with
   | [] => print [Lit "Error: No MP3 files found in "; Lit wpm_measure_dir] >>
           sys_exit 1
   | _ => ret tt
   end) >>
  print [Lit "Found "; Lit (str_int (Z.of_nat (length mp3_files)));
         Lit " MP3 file(s) to analyze."; Lit nl] >>
  let* results := process_files e wpm_measure_dir mp3_files [] in
  let* average := lift (average_wpm e results) in
  let output := build_report e results average in
  mkdir_exist_ok (script_dir e) "user-context" >>
  write_file user_context_dir "wpm-analysis.json" (ReportJson output) >>
  print [Lit (rule 50)] >>
  print [Lit "SUMMARY"] >>
  print [Lit (rule 50)] >>
  print [Lit "Files analyzed: "; Lit (str_int (Z.of_nat (length results)))] >>
  print [Lit "Total words: "; Lit (str_int (total_words results))] >>
  print [Lit "Total duration: ";
         Fixed 1 (to_double (total_duration e results));
         Lit " seconds (";
         Fixed 2 (fdiv (to_double (total_duration e results)) (to_float 60));
         Lit " minutes)"] >>
  print [Lit "Average WPM: "; Fixed 1 average] >>
  print [Lit nl; Lit "Results saved to: "; Lit output_file].

End Analyzer.

(** ** generate_text.py *)

Module Generator.

(** A well-typed [config.json]: each recognized key is present or not. *)
Record Config := mkConfig {
  cfg_wpm : option Z;
  cfg_default_style : option string;
  cfg_available_styles : option (list string);
  cfg_output_directory : option string
}.

(** The namespace [parser.parse_args()] returns. *)
Record Args := mkArgs {
  duration : float;
  style : option string;
  chunks : Z;
  chunk_duration : option float;
  topic : string;
  wpm : option Z
}.

(** What [argparse] makes of the command line: [-h] or [--help], a
    command line it rejects (no [--duration], a value that is no number, an
    option it does not know), or the namespace of the options. *)
Inductive CommandLine :=
| Help
| UsageError (message : string)
| Parsed (a : Args).

(** What the generator reads from its surroundings. *)
Record Env := mkEnv {
  script_dir : string;
  (** The parsed [config.json]; [None] when the file does not exist. *)
  config_file : option Config;
  (** [os.environ.get("GEMINI_API_KEY")] *)
  api_key : option string;
  (** The remote service. *)
  service : call -> option text;
  (** [datetime.now()] in [save_output], for the name of the session. *)
  session_time : DateTime;
  (** [datetime.now().isoformat()], for the metadata. *)
  now_iso : string
}.

(** [datetime.now().strftime("%Y%m%d_%H%M%S")] *)
Definition timestamp (e : Env) : string := strftime (session_time e).

(** [parser.parse_args()]: help is printed and the run ends with status
    0; a rejected command line ends it with status 2. *)
Definition parse_args (cl : CommandLine) : M Args :=
  match cl with
  | Help => print [Usage] >> sys_exit 0
  | UsageError message => print [Usage; Lit message] >> sys_exit 2
  | Parsed a => ret a
  end.

(** [load_config(config_path)] *)
Definition load_config (e : Env) (config_path : string) : M Config :=
  match config_file e with
  | None =>
      print [Lit "Error: Config file not found: "; Lit config_path] >>
      sys_exit 1
  | Some c => ret c
  end.

(** [calculate_word_count(duration_minutes, wpm)] *)
Definition calculate_word_count (duration_minutes : float) (wpm : Z)
  : result Z :=
  and_then (float_mul_int duration_minutes wpm) int_of_float.

(** The items of the dictionary literal [style_prompts]. *)
Definition style_prompts_items : list (string * string) :=
  [
    ("conversational",
     "Write in a natural, conversational tone as if speaking to a friend. "
     +:+ "Include occasional filler words, natural pauses, and casual language. "
     +:+ "Topics can range widely - anecdotes, observations, musings.");
    ("narrative",
     "Write engaging narrative prose suitable for an audiobook. "
     +:+ "Include descriptive passages, varied sentence structures, "
     +:+ "and compelling storytelling. Can be fiction or creative non-fiction.");
    ("technical",
     "Write clear technical explanations or tutorials. "
     +:+ "Include precise terminology but maintain readability for narration. "
     +:+ "Topics can include technology, science, programming, or engineering.");
    ("news_anchor",
     "Write in a professional news broadcast style. "
     +:+ "Clear, authoritative tone with good pacing for broadcast delivery. "
     +:+ "Include varied news topics - current events, features, human interest.");
    ("storytelling",
     "Write immersive short stories or story excerpts. "
     +:+ "Include dialogue, scene descriptions, and emotional moments. "
     +:+ "Vary between action, reflection, and character development.");
    ("educational",
     "Write informative educational content suitable for a documentary. "
     +:+ "Include interesting facts, clear explanations, and engaging delivery. "
     +:+ "Topics can span history, nature, culture, science.");
    ("podcast",
     "Write in an engaging podcast monologue style. "
     +:+ "Include rhetorical questions, audience engagement phrases, "
     +:+ "and natural transitions between topics.")
  ].

(** The dictionary [style_prompts]. *)
Definition style_prompts : gmap string string :=
  list_to_map style_prompts_items.

(** [get_style_prompt(style)]:
    [style_prompts.get(style, style_prompts["conversational"])] *)
Definition get_style_prompt (style : string) : string :=
  default (style_prompts !!! "conversational") (style_prompts !! style).

(** The text of the request for one chunk. *)
Definition chunk_prompt (word_count : Z) (style : string)
    (chunk_number total_chunks : Z) (topic_hint : string) : string :=
  let style_prompt := get_style_prompt style in
  let chunk_context :=
    if 1 <? total_chunks then
      "This is part " +:+ str_int chunk_number +:+ " of "
        +:+ str_int total_chunks +:+ ". "
        +:+ (if chunk_number =? 1 then
               "Start fresh with an engaging opening. "
             else if chunk_number =? total_chunks then
               "This is the final part - provide a satisfying conclusion. "
             else "Continue naturally from a previous section. ")
    else EmptyString in
  let topic_context :=
    if String.eqb topic_hint EmptyString then EmptyString
    else "Focus on this topic area: " +:+ topic_hint +:+ ". " in
  String.concat nl [
    "Generate text for voice recording/narration.";
    "";
    "Target word count: approximately " +:+ str_int word_count
      +:+ " words (very important - aim for this count)";
    "";
    "Style requirements:";
    style_prompt;
    "";
    chunk_context +:+ topic_context;
    "";
    "Requirements:";
    "- Generate ONLY the text to be read aloud";
    "- No headers, titles, or metadata";
    "- No stage directions or notes";
    "- Natural flow suitable for continuous narration";
    "- Varied sentence lengths for natural rhythm";
    "- Avoid tongue-twisters or overly complex words";
    "- Include natural breathing points (commas, periods)";
    "";
    "Generate the text now:"
  ].

(** [generate_text_chunk(client, word_count, style, chunk_number,
    total_chunks, topic_hint)] *)
Definition generate_text_chunk (e : Env) (word_count : Z) (style : string)
    (chunk_number total_chunks : Z) (topic_hint : string) : M text :=
  let* response := remote_call (service e)
    (GenerateContent "gemini-2.0-flash" None
       (chunk_prompt word_count style chunk_number total_chunks topic_hint)) in
  ret (py_strip response).

(** [enumerate(xs, start)] *)
Fixpoint enumerate {A} (start : Z) (xs : list A) : list (Z * A) :=
  match xs with
  | [] => []
  | x :: r => (start, x) :: enumerate (start + 1) r
  end.

(** [range(1, n + 1)] *)
Definition range_1 (n : Z) : list Z :=
  map Z.of_nat (seq 1 (Z.to_nat n)).

(** The name a text is written under in [save_output]:
    ["script.txt"] if [len(texts) == 1], else [f"chunk_{i:02d}.txt"]. *)
Definition text_filename (count : nat) (i : Z) : string :=
  if Nat.eqb count 1 then "script.txt"
  else "chunk_" +:+ fmt_02d i +:+ ".txt".

(** The name recorded in the metadata:
    [f"chunk_{i:02d}.txt" if len(texts) > 1 else "script.txt"]. *)
Definition meta_filename (count : nat) (i : Z) : string :=
  if Nat.ltb 1 count then "chunk_" +:+ fmt_02d i +:+ ".txt"
  else "script.txt".

(** [len(t["text"].split())] *)
Definition word_count (t : text) : Z :=
  Z.of_nat (length (py_split t)).

(** The loop [for i, text_data in enumerate(texts, 1)]. *)
Fixpoint write_texts (session_dir : string) (count : nat)
                     (its : list (Z * TextData)) : M unit :=
  match its with
  | [] => ret tt
  | (i, text_data) :: rest =>
      write_file session_dir (text_filename count i)
                 (Text (td_text text_data)) >>
      write_texts session_dir count rest
  end.

(** The [metadata] dictionary, for a rate that is not zero. *)
Definition build_metadata (generated_at : string) (texts : list TextData)
    (style : string) (total_duration : float) (wpm : Z) : Metadata :=
  let count := length texts in
  let total := py_sum_int (map (fun t => word_count (td_text t)) texts) in
  mkMetadata generated_at style total_duration wpm
    (map (fun it : Z * TextData =>
            let (i, t) := it in
            mkChunkMeta (meta_filename count i) (td_target_words t)
              (word_count (td_text t))
              (py_round (int_truediv (word_count (td_text t)) wpm) 2))
         (enumerate 1 texts))
    total
    (py_round (int_truediv total wpm) 2).

(** [save_output(output_dir, texts, style, total_duration, wpm)].  The
    divisions by [wpm] in the metadata raise when [wpm] is zero. *)
Definition save_output (e : Env) (output_dir : string)
    (texts : list TextData) (style : string) (total_duration : float)
    (wpm : Z) : M string :=
  let session_name := "session_" +:+ timestamp e in
  let session_dir := join output_dir session_name in
  mkdir_parents_exist_ok output_dir session_name >>
  write_texts session_dir (length texts) (enumerate 1 texts) >>
  let* metadata :=
    (if wpm =? 0 then raise ZeroDivisionError
     else ret (build_metadata (now_iso e) texts style total_duration wpm)) in
  write_file session_dir "metadata.json" (MetadataJson metadata) >>
  ret session_dir.

(** [args.wpm or config.get("wpm", 150)] *)
Definition effective_wpm (a : Args) (c : Config) : Z :=
  match wpm a with
  | Some w => if w =? 0 then default 150 (cfg_wpm c) else w
  | None => default 150 (cfg_wpm c)
  end.

(** [args.style or config.get("default_style", "conversational")] *)
Definition effective_style (a : Args) (c : Config) : string :=
  if str_falsy (style a)
  then default "conversational" (cfg_default_style c)
  else default EmptyString (style a).

(** [if args.chunk_duration:] is the truth value of an optional float:
    [None] and the zeros are false, a NaN is true. *)
Definition float_truthy (x : option float) : bool :=
  match x with
  | None => false
  | Some q => negb (is_zero q)
  end.

(** The [# Calculate chunks] step. *)
Definition num_chunks_of (a : Args) : result Z :=
  if float_truthy (chunk_duration a)
  then and_then (int_of_float
                   (fdiv (duration a)
                         (default (S754_zero false) (chunk_duration a))))
                (fun q => inl (Z.max 1 q))
  else inl (chunks a).

(** [args.duration / num_chunks] *)
Definition chunk_duration_of (a : Args) (num_chunks : Z) : M float :=
  lift (float_div_int (duration a) num_chunks).

(** The body of [for i in range(1, num_chunks + 1)]. *)
Definition generate_one (e : Env) (style : string) (chunk_duration : float)
    (wpm num_chunks : Z) (topic_hint : string) (i : Z) : M TextData :=
  let* target_words := lift (calculate_word_count chunk_duration wpm) in
  print [Lit "Generating chunk "; Lit (str_int i); Lit "/";
         Lit (str_int num_chunks); Lit " (~"; Lit (str_int target_words);
         Lit " words)..."] >>
  let* response := generate_text_chunk e target_words style i num_chunks
                     topic_hint in
  let actual_words := word_count response in
  print [Lit "  Generated "; Lit (str_int actual_words); Lit " words"] >>
  ret (mkTextData response target_words actual_words).

(** The loop: [generated_texts] grows by one record per chunk. *)
Fixpoint generate_all (e : Env) (style : string) (chunk_duration : float)
    (wpm num_chunks : Z) (topic_hint : string) (idxs : list Z)
    (generated_texts : list TextData) : M (list TextData) :=
  match idxs with
  | [] => ret generated_texts
  | i :: rest =>
      let* t := generate_one e style chunk_duration wpm num_chunks
                  topic_hint i in
      generate_all e style chunk_duration wpm num_chunks topic_hint rest
                   (generated_texts ++ [t])
  end.

Fixpoint print_names (names : list string) : M unit :=
  match names with
  | [] => ret tt
  | n :: rest => print [Lit "  - "; Lit n] >> print_names rest
  end.

(** [main()] *)
Definition main (e : Env) (cl : CommandLine) : M unit :=
  let* args := parse_args cl in
  let* config := load_config e (join (script_dir e) "config.json") in
  let wpm := effective_wpm args config in
  let style := effective_style args config in
  (if bool_decide (style ∈ default [style] (cfg_available_styles config))
   then ret tt
   else print [Lit "Warning: Style '"; Lit style;
               Lit "' not in available styles. Using anyway."]) >>
  let* num_chunks := lift (num_chunks_of args) in
  let* chunk_duration := chunk_duration_of args num_chunks in
  (if str_falsy (api_key e) then
     print [Lit "Error: GEMINI_API_KEY environment variable not set."] >>
     print [Lit "Get your API key from: https://aistudio.google.com/apikey"] >>
     sys_exit 1
   else ret tt) >>
  print [Lit (rule 60)] >>
  print [Lit "TEXT GENERATION PLAN"] >>
  print [Lit (rule 60)] >>
  print [Lit "Total duration: "; Float (duration args); Lit " minutes"] >>
  print [Lit "Style: "; Lit style] >>
  print [Lit "WPM: "; Lit (str_int wpm)] >>
  print [Lit "Chunks: "; Lit (str_int num_chunks)] >>
  print [Lit "Duration per chunk: "; Fixed 1 chunk_duration;
         Lit " minutes"] >>
  let* per_chunk := lift (calculate_word_count chunk_duration wpm) in
  print [Lit "Words per chunk: ~"; Lit (str_int per_chunk)] >>
  let* in_all := lift (calculate_word_count (duration args) wpm) in
  print [Lit "Total words: ~"; Lit (str_int in_all)] >>
  (if String.eqb (topic args) EmptyString then ret tt
   else print [Lit "Topic hint: "; Lit (topic args)]) >>
  print [Lit (rule 60)] >>
  print [] >>
  let* generated_texts :=
    generate_all e style chunk_duration wpm num_chunks (topic args)
                 (range_1 num_chunks) [] in
  let output_dir :=
    join (script_dir e) (default "output" (cfg_output_directory config)) in
  let* session_dir :=
    save_output e output_dir generated_texts style (duration args) wpm in
  let total_actual := py_sum_int (map td_actual_words generated_texts) in
  print [] >>
  print [Lit (rule 60)] >>
  print [Lit "GENERATION COMPLETE"] >>
  print [Lit (rule 60)] >>
  print [Lit "Total words generated: "; Lit (str_int total_actual)] >>
  print [Lit "Estimated reading time: ";
         Fixed 1 (int_truediv total_actual wpm); Lit " minutes"] >>
  print [Lit "Output saved to: "; Lit session_dir] >>
  print [] >>
  print [Lit "Files created:"] >>
  let* f := get_fs in
  print_names (sorted_iterdir f session_dir).

End Generator.

(** ** The formulas of the specification *)

Module Spec.

(** Chunk-duration-driven planning:
    [num_chunks = max(1, floor(T / chunk_duration))], on the numbers the
    two doubles stand for. *)
Definition num_chunks (T chunk_duration : float) : Z :=
  Z.max 1 (Qfloor (exact T / exact chunk_duration)).

(** Each chunk's target: [floor((T / C) * wpm)], on the number the double
    stands for. *)
Definition target_words (T : float) (C wpm : Z) : Z :=
  Qfloor (exact T / inject_Z C * inject_Z wpm).

(** The recognized style keys. *)
Definition style_keys : list string :=
  ["conversational"; "narrative"; "technical"; "news_anchor";
   "storytelling"; "educational"; "podcast"].

End Spec.

(** The same invocation with [--chunk-duration] left out. *)
Definition without_chunk_duration (a : Generator.Args) : Generator.Args :=
  Generator.mkArgs (Generator.duration a) (Generator.style a)
    (Generator.chunks a) None (Generator.topic a) (Generator.wpm a).

(** ** States a run passes through *)

(** The state after the style check: at most one warning was printed. *)
Definition after_style_check (c : Generator.Config) (a : Generator.Args) (s : St) : St :=
  let style := Generator.effective_style a c in
  if bool_decide (style ∈ default [style] (Generator.cfg_available_styles c)) then s
  else mkSt (st_fs s)
            (st_out s ++ [[Lit "Warning: Style '"; Lit style;
                           Lit "' not in available styles. Using anyway."]])
            (st_trace s).

(** ** Concrete surroundings for the examples *)

Module Scenario.

(** A service that stores every upload and answers every request. *)
Definition service (c : call) : option text :=
  match c with
  | Upload p => Some (lit ("files/" +:+ p))
  | GenerateContent _ None _ =>
      Some (lit "  Hello and welcome back to the show.  ")
  | GenerateContent _ (Some _) _ => Some (lit "one two three four five")
  end.

Definition config : Generator.Config :=
  Generator.mkConfig (Some 150) (Some "conversational") None (Some "output").

(** Noon on the first day of 2025. *)
Definition noon : DateTime := mkDateTime 2025 1 1 12 0 0.

(** The generator's surroundings, with and without the key. *)
Definition generator_env (key : option string) : Generator.Env :=
  Generator.mkEnv "/app" (Some config) key service noon
    "2025-01-01T12:00:00".

(** [--duration 10 --chunks n --wpm 150] *)
Definition args_chunks (n : Z) : Generator.Args :=
  Generator.mkArgs (of_Q 10) None n None "" (Some 150).

(** A file system holding the script's directory and nothing else. *)
Definition fs_app : FS := mkFS {[ "/app" ]} ∅.

Definition start : St := mkSt fs_app [] [].

(** The analyzer's surroundings: two recordings of five words each, one
    minute and two minutes long. *)
Definition analyzer_env (key : option string) : Analyzer.Env :=
  Analyzer.mkEnv "/app" key true ["a.mp3"; "b.mp3"]
    (fun p => if String.eqb p "/app/wpm-measure/a.mp3" then Some 60000
              else if String.eqb p "/app/wpm-measure/b.mp3" then Some 120000
              else None)
    service "2025-01-01T12:00:00" true.

End Scenario.

(** ** What the session persister leaves behind *)

(** The files a trace wrote, in order. *)
Definition written (tr : list event) : list (string * string) :=
  omap (fun ev => match ev with
                  | Wrote d n => Some (d, n)
                  | _ => None
                  end) tr.

(** The name and content of each text file, in the order of the loop. *)
Definition text_writes (texts : list TextData) : list (string * content) :=
  map (fun it : Z * TextData =>
         (Generator.text_filename (length texts) (fst it),
          Text (td_text (snd it))))
      (Generator.enumerate 1 texts).

(** Writing [ws] into directory [d], one after the other. *)
Definition write_all (d : string) (ws : list (string * content))
    (m : gmap (string * string) content) : gmap (string * string) content :=
  fold_left (fun acc w => <[ (d, fst w) := snd w ]> acc) ws m.

(** [session_dir] for an output directory. *)
Definition session_dir_of (e : Generator.Env) (output_dir : string) : string :=
  join output_dir ("session_" +:+ Generator.timestamp e).

(** The directories [mkdir(parents=True)] leaves when the session
    directory was not there. *)
Definition dirs_with_session (e : Generator.Env) (output_dir : string)
    (ds : gset string) : gset string :=
  {[ session_dir_of e output_dir ]} ∪ {[ output_dir ]}
    ∪ list_to_set (ancestors output_dir) ∪ ds.

(** The decimal digit [d]. *)
Definition digit (d : Z) : ascii := ascii_of_N (48 + Z.to_N d).

(** A number below one hundred in exactly two digits. *)
Definition two_digits (i : Z) : string :=
  String (digit (i / 10)) (String (digit (i mod 10)) EmptyString).

(** The state once the session directory is there: as it was if the
    directory existed, else with the directory and its parents made. *)
Definition made_session (e : Generator.Env) (output_dir : string) (s : St)
  : St :=
  if is_dir (st_fs s) (session_dir_of e output_dir) then s
  else mkSt (mkFS (dirs_with_session e output_dir (dirs (st_fs s)))
                  (files (st_fs s)))
            (st_out s)
            (st_trace s ++ [MadeDir (session_dir_of e output_dir)]).

(** The state once the text files are written. *)
Definition texts_saved (e : Generator.Env) (output_dir : string)
    (texts : list TextData) (s : St) : St :=
  let s1 := made_session e output_dir s in
  let sd := session_dir_of e output_dir in
  mkSt (mkFS (dirs (st_fs s1))
             (write_all sd (text_writes texts) (files (st_fs s1))))
       (st_out s1)
       (st_trace s1 ++ map (fun w => Wrote sd (fst w)) (text_writes texts)).

(** The state once [metadata.json] is written too. *)
Definition session_saved (e : Generator.Env) (output_dir : string)
    (texts : list TextData) (style : string) (total_duration : float)
    (wpm : Z) (s : St) : St :=
  let s2 := texts_saved e output_dir texts s in
  let sd := session_dir_of e output_dir in
  mkSt (mkFS (dirs (st_fs s2))
             (<[ (sd, "metadata.json") :=
                   MetadataJson (Generator.build_metadata
                                   (Generator.now_iso e) texts style
                                   total_duration wpm) ]>
                (files (st_fs s2))))
       (st_out s2)
       (st_trace s2 ++ [Wrote sd "metadata.json"]).

(** The session directory exists, or nothing stands in the way of making
    it: no file has its path and no file lies on the way to it. *)
Definition session_can_be_made (f : FS) (e : Generator.Env)
    (output_dir : string) : Prop :=
  session_dir_of e output_dir ∈ dirs f
  \/ (is_file f output_dir ("session_" +:+ Generator.timestamp e) = false
      /\ existsb (is_file_path f) (output_dir :: ancestors output_dir)
         = false).

(** No directory has the path of a file the persister writes. *)
Definition session_names_free (f : FS) (e : Generator.Env)
    (output_dir : string) (texts : list TextData) : Prop :=
  forall n : string,
    n ∈ map fst (text_writes texts) ++ ["metadata.json"] ->
    join (session_dir_of e output_dir) n ∉ dirs f.

(** Two runs of the persister within one second: the state the first run
    leaves, and the result of the second run from there. *)
Definition first_take : list TextData := [mkTextData (lit "first take") 2 2].

Definition second_take : list TextData := [mkTextData (lit "second take") 2 2].

Definition after_first_take : St :=
  snd (Generator.save_output (Scenario.generator_env (Some "key"))
         "/app/output" first_take "conversational" (of_Q 1) 150
         Scenario.start).

Definition second_take_run : (string + Stop) * St :=
  Generator.save_output (Scenario.generator_env (Some "key"))
    "/app/output" second_take "conversational" (of_Q 1) 150 after_first_take.

(** ** What the remote service makes of a plan *)

(** The request sent for chunk [i] of [n]. *)
Definition chunk_request (target : Z) (style : string) (i n : Z)
    (topic_hint : string) : call :=
  GenerateContent "gemini-2.0-flash" None
    (Generator.chunk_prompt target style i n topic_hint).

(** The service answers the request of every chunk in [idxs]. *)
Definition service_answers (e : Generator.Env) (target : Z) (style : string)
    (n : Z) (topic_hint : string) (idxs : list Z) : Prop :=
  forall i, i ∈ idxs ->
    is_Some (Generator.service e (chunk_request target style i n topic_hint)).

(** The target word counts recorded in a session's [metadata.json]. *)
Definition recorded_targets (f : FS) (session_dir : string) : list Z :=
  match files f !! (session_dir, "metadata.json") with
  | Some (MetadataJson m) => map cm_target_word_count (md_chunks m)
  | _ => []
  end.

(** [--duration -1 --chunks 3 --wpm 100], run to the end. *)
Definition negative_duration_run : (unit + Stop) * St :=
  Generator.main (Scenario.generator_env (Some "key"))
    (Generator.Parsed
       (Generator.mkArgs (of_Q (-1)) None 3 None "" (Some 100)))
    Scenario.start.

(** [--duration 7 --chunks 5 --wpm 180], run to the end. *)
Definition seven_minutes_run : (unit + Stop) * St :=
  Generator.main (Scenario.generator_env (Some "key"))
    (Generator.Parsed
       (Generator.mkArgs (of_Q 7) None 5 None "" (Some 180)))
    Scenario.start.

(** ** What the analyzer measures *)

(** The instruction sent with every recording. *)
Definition transcribe_request (uri : text) : call :=
  GenerateContent "gemini-2.0-flash" (Some uri)
    ("Transcribe this audio exactly as spoken. "
     +:+ "Return ONLY the transcription text, nothing else.").

(** The duration in seconds, the transcript and the rate of one
    recording, when it decodes, the service answers and the rate can be
    computed. *)
Definition sample (e : Analyzer.Env) (dir name : string)
  : option (float * text * num) :=
  match Analyzer.audio_length_ms e (join dir name) with
  | Some ms =>
      match int_div_float ms (to_float 1000) with
      | inl d =>
          match Analyzer.service e (Upload (join dir name)) with
          | Some uri =>
              match Analyzer.service e (transcribe_request uri) with
              | Some response =>
                  let t := py_strip response in
                  match Analyzer.calculate_wpm (Analyzer.count_words t) d with
                  | inl w => Some (d, t, w)
                  | inr _ => None
                  end
              | None => None
              end
          | None => None
          end
      | inr _ => None
      end
  | None => None
  end.

(** The record the loop appends for a recording. *)
Definition measured (e : Analyzer.Env) (dir name : string) (r : FileResult)
  : Prop :=
  exists d t w, sample e dir name = Some (d, t, w)
                /\ r = Analyzer.file_result name d t w.

(** The mean the specification words: of the rates as computed from word
    count and duration, rounded once at the end. *)
Definition spec_average_wpm (compensated : bool) (rates : list num)
  : result float :=
  and_then (Analyzer.num_div_len (py_sum compensated rates) (length rates))
           (fun m => inl (py_round m 1)).

(** The rate of one recording as [calculate_wpm] computes it; the int
    [0] stands in where it raises. *)
Definition rate (words : Z) (seconds : float) : num :=
  match Analyzer.calculate_wpm words seconds with
  | inl v => v
  | inr _ => Zero
  end.

(** The mean weighted by duration: all words over all minutes. *)
Definition weighted_wpm (samples : list (Z * float)) : float :=
  fdiv (to_float (py_sum_int (map fst samples)))
       (fdiv (to_double (py_sum false (map (fun s => Flt (snd s)) samples)))
             (to_float 60)).

(** The report the analyzer's run left, if any. *)
Definition report_of (s : St) (script_dir : string) : option Report :=
  match files (st_fs s) !! (join script_dir "user-context",
                            "wpm-analysis.json") with
  | Some (ReportJson r) => Some r
  | _ => None
  end.

(** The directory [user-context] exists, or can be made. *)
Definition user_context_ready (f : FS) (script_dir : string) : Prop :=
  (join script_dir "user-context" ∈ dirs f
   \/ (is_file f script_dir "user-context" = false /\ script_dir ∈ dirs f))
  /\ join (join script_dir "user-context") "wpm-analysis.json" ∉ dirs f.

(** Three recordings of four and a half seconds, with one, one and four
    words. *)
Definition three_clips_service (c : call) : option text :=
  match c with
  | Upload p => Some (lit p)
  | GenerateContent _ (Some uri) _ =>
      if bool_decide (uri = lit "/app/wpm-measure/c.mp3")
      then Some (lit "one two three four") else Some (lit "one")
  | GenerateContent _ None _ => None
  end.

Definition three_clips_env (compensated : bool) : Analyzer.Env :=
  Analyzer.mkEnv "/app" (Some "key") true ["a.mp3"; "b.mp3"; "c.mp3"]
    (fun _ => Some 4500) three_clips_service "2025-01-01T12:00:00"
    compensated.

Definition three_clips_run (compensated : bool) : (unit + Stop) * St :=
  Analyzer.main (three_clips_env compensated) Scenario.start.

(** The rates of the three recordings as computed. *)
Definition three_clips_rates : list num :=
  [rate 1 (of_Q 4.5); rate 1 (of_Q 4.5); rate 4 (of_Q 4.5)].

(** The mean the run over the three recordings reports. *)
Definition three_clips_average (compensated : bool) : option float :=
  match report_of (snd (three_clips_run compensated)) "/app" with
  | Some r => Some (rp_average_wpm r)
  | None => None
  end.

(** The two recordings of [Scenario.analyzer_env], as the loop records
    them. *)
Definition two_clips_results : list FileResult :=
  [Analyzer.file_result "a.mp3" (of_Q 60) (lit "one two three four five")
     (Flt (of_Q 5));
   Analyzer.file_result "b.mp3" (of_Q 120) (lit "one two three four five")
     (Flt (of_Q 2.5))].

(** ** The end-to-end scenarios of the specification *)

(** A transcript of [n] words. *)
Definition words (n : nat) : text :=
  lit (String.concat " " (repeat "word" n)).

(** Two recordings, 60 s with 150 words and 120 s with 300 words. *)
Definition spec_analyzer_env (compensated : bool) : Analyzer.Env :=
  Analyzer.mkEnv "/app" (Some "key") true ["a.mp3"; "b.mp3"]
    (fun p => if String.eqb p "/app/wpm-measure/a.mp3" then Some 60000
              else Some 120000)
    (fun c => match c with
              | Upload p => Some (lit p)
              | GenerateContent _ (Some uri) _ =>
                  if bool_decide (uri = lit "/app/wpm-measure/a.mp3")
                  then Some (words 150) else Some (words 300)
              | GenerateContent _ None _ => None
              end)
    "2025-01-01T12:00:00" compensated.

Definition spec_analyzer_report (compensated : bool) : option Report :=
  report_of (snd (Analyzer.main (spec_analyzer_env compensated)
                    Scenario.start)) "/app".

(** [--duration 10 --chunks 2 --wpm 150], run to the end. *)
Definition spec_generator_run : (unit + Stop) * St :=
  Generator.main (Scenario.generator_env (Some "key"))
    (Generator.Parsed (Scenario.args_chunks 2)) Scenario.start.

(** [wpm_used] in a session's [metadata.json]. *)
Definition recorded_wpm_used (f : FS) (session_dir : string) : option Z :=
  match files f !! (session_dir, "metadata.json") with
  | Some (MetadataJson m) => Some (md_wpm_used m)
  | _ => None
  end.

(** ** Plans the formulas get wrong *)

(** [--duration 0.5 --chunk-duration 0.05] *)
Definition args_half_minute : Generator.Args :=
  Generator.mkArgs (of_Q 0.5) None 1 (Some (of_Q 0.05)) "" None.

(** [--duration 10 --chunks 5 --chunk-duration 0] *)
Definition args_chunk_duration_zero : Generator.Args :=
  Generator.mkArgs (of_Q 10) None 5 (Some (S754_zero false)) "" None.

(** [--duration 10 --chunk-duration nan] *)
Definition args_chunk_duration_nan : Generator.Args :=
  Generator.mkArgs (of_Q 10) None 1 (Some S754_nan) "" None.

(** [--duration 10 --chunk-duration 3] *)
Definition args_chunk_duration_3 : Generator.Args :=
  Generator.mkArgs (of_Q 10) None 1 (Some (of_Q 3)) "" None.

(** The state after the key was found missing. *)
Definition key_missing (s : St) : St :=
  mkSt (st_fs s)
       (st_out s
        ++ [[Lit "Error: GEMINI_API_KEY environment variable not set."]]
        ++ [[Lit "Get your API key from: https://aistudio.google.com/apikey"]])
       (st_trace s).

(** [main] from the plan on: what follows the check of the key, for the
    configuration, the chunk count and the chunk duration found before
    it. *)
Definition plan_and_generate (e : Generator.Env) (args : Generator.Args)
    (config : Generator.Config) (num_chunks : Z) (chunk_duration : float)
  : M unit :=
  let wpm := Generator.effective_wpm args config in
  let style := Generator.effective_style args config in
  print [Lit (rule 60)] >>
  print [Lit "TEXT GENERATION PLAN"] >>
  print [Lit (rule 60)] >>
  print [Lit "Total duration: "; Float (Generator.duration args);
         Lit " minutes"] >>
  print [Lit "Style: "; Lit style] >>
  print [Lit "WPM: "; Lit (str_int wpm)] >>
  print [Lit "Chunks: "; Lit (str_int num_chunks)] >>
  print [Lit "Duration per chunk: "; Fixed 1 chunk_duration;
         Lit " minutes"] >>
  let* per_chunk := lift (Generator.calculate_word_count chunk_duration wpm) in
  print [Lit "Words per chunk: ~"; Lit (str_int per_chunk)] >>
  let* in_all :=
    lift (Generator.calculate_word_count (Generator.duration args) wpm) in
  print [Lit "Total words: ~"; Lit (str_int in_all)] >>
  (if String.eqb (Generator.topic args) EmptyString then ret tt
   else print [Lit "Topic hint: "; Lit (Generator.topic args)]) >>
  print [Lit (rule 60)] >>
  print [] >>
  let* generated_texts :=
    Generator.generate_all e style chunk_duration wpm num_chunks
      (Generator.topic args) (Generator.range_1 num_chunks) [] in
  let output_dir :=
    join (Generator.script_dir e)
         (default "output" (Generator.cfg_output_directory config)) in
  let* session_dir :=
    Generator.save_output e output_dir generated_texts style
      (Generator.duration args) wpm in
  let total_actual := py_sum_int (map td_actual_words generated_texts) in
  print [] >>
  print [Lit (rule 60)] >>
  print [Lit "GENERATION COMPLETE"] >>
  print [Lit (rule 60)] >>
  print [Lit "Total words generated: "; Lit (str_int total_actual)] >>
  print [Lit "Estimated reading time: ";
         Fixed 1 (int_truediv total_actual wpm); Lit " minutes"] >>
  print [Lit "Output saved to: "; Lit session_dir] >>
  print [] >>
  print [Lit "Files created:"] >>
  let* f := get_fs in
  Generator.print_names (sorted_iterdir f session_dir).

(** [generate_text.py --help] without the key. *)
Definition help_run : Z * St :=
  run_script (Generator.main (Scenario.generator_env None) Generator.Help)
             Scenario.start.

(** ** Names *)

Fixpoint no_slash (s : string) : bool :=
  match s with
  | EmptyString => true
  | String c r => negb (Ascii.eqb c "/") && no_slash r
  end.

(** A name: a single component, as pathlib reads it. *)
Definition is_name (s : string) : bool :=
  no_slash s && negb (String.eqb s "") && negb (String.eqb s ".").

(** A name of two characters or more. *)
Definition long_name (s : string) : Prop :=
  is_name s = true /\ (2 <= String.length s)%nat.

(** One hundred texts, and the persister's run on them. *)
Definition hundred_texts : list TextData :=
  repeat (mkTextData (lit "text") 1 1) 100.

Definition hundred_texts_run : (string + Stop) * St :=
  Generator.save_output (Scenario.generator_env (Some "key"))
    "/app/output" hundred_texts "conversational" (of_Q 100) 150
    Scenario.start.

(** ** Quantities the further properties speak of *)

(** The integer part of a rational: rounding toward zero. *)
Definition int_part (q : Q) : Z := Z.quot (Qnum q) (Z.pos (Qden q)).

(** Only whitespace, or nothing. *)
Definition all_space (t : text) : bool := forallb is_space t.

(** Whitespace somewhere. *)
Definition has_space (t : text) : bool := existsb is_space t.

Definition starts_with_space (t : text) : bool :=
  match t with
  | c :: _ => is_space c
  | [] => false
  end.

Definition ends_with_space (t : text) : bool :=
  starts_with_space (rev t).

(** The same invocation with [--wpm] left out. *)
Definition without_wpm (a : Generator.Args) : Generator.Args :=
  Generator.mkArgs (Generator.duration a) (Generator.style a)
    (Generator.chunks a) (Generator.chunk_duration a) (Generator.topic a)
    None.

(** The same invocation with [--style] left out. *)
Definition without_style (a : Generator.Args) : Generator.Args :=
  Generator.mkArgs (Generator.duration a) None
    (Generator.chunks a) (Generator.chunk_duration a) (Generator.topic a)
    (Generator.wpm a).

(** The record the loop makes of chunk [i], when the service answers. *)
Definition chunk_of (e : Generator.Env) (target : Z) (style : string)
    (n : Z) (topic_hint : string) (i : Z) : option TextData :=
  match Generator.service e (chunk_request target style i n topic_hint) with
  | Some raw =>
      Some (mkTextData (py_strip raw) target
              (Generator.word_count (py_strip raw)))
  | None => None
  end.

(** [script_dir / config.get("output_directory", "output")] *)
Definition output_dir_of (e : Generator.Env) (c : Generator.Config) : string :=
  join (Generator.script_dir e)
       (default "output" (Generator.cfg_output_directory c)).

(** The state once the requests [cs] were sent, one after the other. *)
Definition after_requests (s : St) (cs : list call) : St :=
  mkSt (st_fs s) (st_out s) (st_trace s ++ map Remote cs).

(** The requests the analyzer's loop makes for one recording: none if it
    cannot be decoded or its length is beyond the doubles; else the upload,
    and the transcription if the upload succeeded. *)
Definition attempted (e : Analyzer.Env) (dir name : string) : list call :=
  match Analyzer.audio_length_ms e (join dir name) with
  | None => []
  | Some ms =>
      match int_div_float ms (to_float 1000) with
      | inr _ => []
      | inl _ =>
          Upload (join dir name)
          :: match Analyzer.service e (Upload (join dir name)) with
             | Some uri => [transcribe_request uri]
             | None => []
             end
      end
  end.

(** ** Surroundings in which something is missing *)

(** The analyzer with its key, next to an empty [wpm-measure]. *)
Definition no_recordings_env : Analyzer.Env :=
  Analyzer.mkEnv "/app" (Some "key") true [] (fun _ => None)
    Scenario.service "2025-01-01T12:00:00" true.

(** The analyzer with two recordings, the second of which does not
    decode. *)
Definition corrupt_clip_env : Analyzer.Env :=
  Analyzer.mkEnv "/app" (Some "key") true ["a.mp3"; "b.mp3"]
    (fun p => if String.eqb p "/app/wpm-measure/a.mp3" then Some 60000
              else None)
    Scenario.service "2025-01-01T12:00:00" true.

(** The generator with its key and no [config.json]. *)
Definition no_config_env : Generator.Env :=
  Generator.mkEnv "/app" None (Some "key") Scenario.service
    Scenario.noon "2025-01-01T12:00:00".

(** The generator with its key and its configuration, and a service that
    answers nothing. *)
Definition silent_env : Generator.Env :=
  Generator.mkEnv "/app" (Some Scenario.config) (Some "key") (fun _ => None)
    Scenario.noon "2025-01-01T12:00:00".

(** [--duration 10 --chunks 2 --wpm 0] *)
Definition args_wpm_zero : Generator.Args :=
  Generator.mkArgs (of_Q 10) None 2 None "" (Some 0).

(** [--duration 1e308 --chunks 2 --wpm 150] *)
Definition args_huge_duration : Generator.Args :=
  Generator.mkArgs (of_Q (inject_Z (10 ^ 308))) None 2 None "" (Some 150).

(** * Properties *)

(** ** The embedding on small inputs *)

Example py_split_ex :
  py_split (lit "  the quick
 brown	fox ") = [lit "the"; lit "quick"; lit "brown"; lit "fox"].
Proof. reflexivity. Qed.

(** A no-break space (U+00A0) and an em space (U+2003) part words as the
    space does. *)
Example py_split_unicode_ex :
  py_split (lit "a" ++ [160%N] ++ lit "b" ++ [8195%N] ++ lit "c")
  = [lit "a"; lit "b"; lit "c"].
Proof. reflexivity. Qed.

Example py_strip_ex : py_strip (lit "  a b
") = lit "a b".
Proof. reflexivity. Qed.

Example fmt_02d_ex :
  fmt_02d 1 = "01" /\ fmt_02d 12 = "12" /\ fmt_02d 100 = "100".
Proof. repeat split; reflexivity. Qed.

Example join_ex :
  join "/app" "output" = "/app/output"
  /\ join "/app" "out//put/" = "/app/out/put"
  /\ join "/app" "./output" = "/app/output"
  /\ join "/app" "/tmp/out" = "/tmp/out"
  /\ join "/app" "" = "/app"
  /\ join "/" "output" = "/output"
  /\ join "." "output" = "output".
Proof. repeat split; vm_compute; reflexivity. Qed.

Example split_path_ex :
  split_path "a/b/c.txt" = Some ("a/b", "c.txt") /\ split_path "c.txt" = None.
Proof. split; reflexivity. Qed.

Example ancestors_ex : ancestors "/srv/app/output" = ["/srv"; "/srv/app"].
Proof. vm_compute. reflexivity. Qed.

Example strftime_ex :
  strftime (mkDateTime 2025 1 1 12 0 0) = "20250101_120000".
Proof. vm_compute. reflexivity. Qed.

Example get_style_prompt_podcast :
  Generator.get_style_prompt "podcast" =
  "Write in an engaging podcast monologue style. Include rhetorical questions, audience engagement phrases, and natural transitions between topics.".
Proof. vm_compute. reflexivity. Qed.

(** Doubles behave as the interpreter's: [1.2 / 0.4] is just below 3 and
    [0.5 / 0.05] is 10; [7 / 5 * 180] is just below 252; [1e308 * 150]
    overflows; the least double divided by 60 is zero. *)
Example float_ex :
  int_of_float (fdiv (of_Q 1.2) (of_Q 0.4)) = inl 2
  /\ int_of_float (fdiv (of_Q 0.5) (of_Q 0.05)) = inl 10
  /\ Generator.calculate_word_count (fdiv (of_Q 7) (to_float 5)) 180
     = inl 251
  /\ Generator.calculate_word_count (of_Q 1e308) 150 = inr OverflowError
  /\ fdiv (S754_finite false 1 (-1074)) (to_float 60) = S754_zero false
  /\ float_of_int (2 ^ 1024) = inr OverflowError.
Proof. repeat split; vm_compute; reflexivity. Qed.

(** [round] works on the double, not on the decimal it was written as:
    2.675 lies below its name and rounds down, 0.75 is exact and goes to
    the even neighbour, and the mean of 150.0 and 150.1 rounds up. *)
Example py_round_ex :
  py_round (of_Q 2.675) 2 = of_Q 2.67
  /\ py_round (of_Q 0.75) 1 = of_Q 0.8
  /\ py_round (of_Q 0.125) 2 = of_Q 0.12
  /\ py_round (fdiv (fadd (of_Q 150) (of_Q 150.1)) (to_float 2)) 1
     = of_Q 150.1
  /\ py_round (of_Q (-0.04)) 1 = S754_zero true.
Proof. repeat split; vm_compute; reflexivity. Qed.

(** The two ways of [sum] differ: from 3.12 on, [sum([0.1] * 10)] is
    1.0. *)
Example py_sum_ex :
  py_sum true (repeat (Flt (of_Q 0.1)) 10) = Flt (of_Q 1)
  /\ py_sum false (repeat (Flt (of_Q 0.1)) 10) <> Flt (of_Q 1).
Proof. split; vm_compute; [reflexivity | discriminate]. Qed.

(** The analyzer scenario of the specification: both rates are 150.0,
    so is their mean; 450 words and 180.0 seconds in all. *)
Example spec_analyzer_scenario (compensated : bool) :
  match spec_analyzer_report compensated with
  | Some r =>
      map fr_wpm (rp_files r) = [Flt (of_Q 150); Flt (of_Q 150)]
      /\ rp_average_wpm r = of_Q 150
      /\ rp_total_words r = 450
      /\ rp_total_duration_seconds r = Flt (of_Q 180)
  | None => False
  end.
Proof. destruct compensated; vm_compute; repeat split. Qed.

(** The generator scenario of the specification: two chunks of 750 target
    words, and a session of [chunk_01.txt], [chunk_02.txt] and
    [metadata.json] with [wpm_used] 150. *)
Example spec_generator_scenario :
  let sd := "/app/output/session_20250101_120000" in
  fst spec_generator_run = inl tt
  /\ recorded_targets (st_fs (snd spec_generator_run)) sd = [750; 750]
  /\ recorded_wpm_used (st_fs (snd spec_generator_run)) sd = Some 150
  /\ sorted_iterdir (st_fs (snd spec_generator_run)) sd
     = ["chunk_01.txt"; "chunk_02.txt"; "metadata.json"].
Proof. repeat split; vm_compute; reflexivity. Qed.

(** ** Numerics *)

Section Conversion.

Lemma digits2_size (p : positive) : digits2_pos p = Pos.size p.
Proof. induction p; simpl; congruence. Qed.

Lemma digits2_bounds (p : positive) :
  2 ^ (Zpos (digits2_pos p) - 1) <= Zpos p < 2 ^ Zpos (digits2_pos p).
Proof.
  rewrite digits2_size. split.
  - pose proof (Pos.size_le p) as H.
    assert (E : 2 ^ Zpos (Pos.size p) = 2 * 2 ^ (Zpos (Pos.size p) - 1)).
    { rewrite <- Z.pow_succ_r by lia. f_equal. lia. }
    assert (H' : 2 ^ Zpos (Pos.size p) <= Zpos p~0).
    { rewrite <- Pos2Z.inj_pow. apply Pos2Z.pos_le_pos. exact H. }
    rewrite E in H'. lia.
  - pose proof (Pos.size_gt p) as H.
    rewrite <- Pos2Z.inj_pow. apply Pos2Z.pos_lt_pos. exact H.
Qed.

Lemma shr_1_m (mrs : shr_record) :
  0 <= shr_m mrs -> shr_m (shr_1 mrs) = Z.div2 (shr_m mrs).
Proof.
  destruct mrs as [m r s]. simpl. intros H.
  destruct m as [|[p|p|]|p]; try reflexivity; lia.
Qed.

Lemma iter_shr_m (p : positive) (mrs : shr_record) :
  0 <= shr_m mrs ->
  shr_m (SpecFloat.iter_pos shr_1 p mrs) = Z.shiftr (shr_m mrs) (Zpos p).
Proof.
  revert mrs. induction p as [p IH | p IH |]; intros mrs H; simpl.
  - assert (H1 : 0 <= shr_m (shr_1 mrs)).
    { rewrite shr_1_m by exact H. apply Z.div2_nonneg. exact H. }
    assert (H2 : 0 <= shr_m (SpecFloat.iter_pos shr_1 p (shr_1 mrs))).
    { rewrite IH by exact H1. apply Z.shiftr_nonneg. exact H1. }
    rewrite IH by exact H2. rewrite IH by exact H1.
    rewrite shr_1_m by exact H. rewrite Z.div2_spec.
    rewrite !Z.shiftr_shiftr by lia. f_equal. lia.
  - assert (H2 : 0 <= shr_m (SpecFloat.iter_pos shr_1 p mrs)).
    { rewrite IH by exact H. apply Z.shiftr_nonneg. exact H. }
    rewrite IH by exact H2. rewrite IH by exact H.
    rewrite Z.shiftr_shiftr by lia. f_equal. lia.
  - rewrite shr_1_m by exact H. apply Z.div2_spec.
Qed.

(** Shifting to the exponent the format asks for leaves a mantissa of at
    least one, when the exponent is not below the least one. *)
Lemma shr_fexp_pos (m : positive) (e : Z) (l : location) :
  emin prec emax <= e ->
  0 < shr_m (fst (shr_fexp prec emax (Zpos m) e l))
  /\ emin prec emax <= snd (shr_fexp prec emax (Zpos m) e l).
Proof.
  intros He. unfold shr_fexp, shr. 
  pose proof (digits2_bounds m) as [Hlo Hhi].
  set (d := Zpos (digits2_pos m)) in *.
  assert (Hd : 1 <= d) by (subst d; lia).
  change (Zdigits2 (Zpos m)) with d.
  destruct (fexp prec emax (d + e) - e) as [|n|n] eqn:En.
  - split; [destruct l as [|[]]; simpl; lia | exact He].
  - cbn [fst snd]. split.
    + rewrite iter_shr_m by (destruct l as [|[]]; simpl; lia).
      assert (Em : shr_m (shr_record_of_loc (Zpos m) l) = Zpos m)
        by (destruct l as [|[]]; reflexivity).
      rewrite Em. rewrite Z.shiftr_div_pow2 by lia.
      assert (Hn : Zpos n <= d - 1).
      { unfold fexp, emin, prec, emax in *. lia. }
      assert (Hp : 2 ^ Zpos n <= 2 ^ (d - 1)) by (apply Z.pow_le_mono_r; lia).
      assert (0 < 2 ^ Zpos n) by (apply Z.pow_pos_nonneg; lia).
      apply Z.div_str_pos. lia.
    + lia.
  - split; [destruct l as [|[]]; simpl; lia | exact He].
Qed.

Lemma round_nearest_even_pos (m : Z) (l : location) :
  0 < m -> 0 < round_nearest_even m l.
Proof.
  intros H. destruct l as [|[]]; simpl; try lia.
  destruct (Z.even m); lia.
Qed.

(** Rounding a mantissa that is not zero never gives a zero. *)
Lemma binary_round_aux_not_zero (sx : bool) (m : positive) (e : Z)
    (l : location) :
  emin prec emax <= e ->
  is_zero (binary_round_aux prec emax sx (Zpos m) e l) = false.
Proof.
  intros He. unfold binary_round_aux.
  pose proof (shr_fexp_pos m e l He) as [H1 He1].
  destruct (shr_fexp prec emax (Zpos m) e l) as [mrs' e'].
  cbn [fst snd] in H1, He1.
  pose proof (round_nearest_even_pos (shr_m mrs') (loc_of_shr_record mrs') H1)
    as H2.
  destruct (round_nearest_even (shr_m mrs') (loc_of_shr_record mrs'))
    as [|m2|m2]; try lia.
  pose proof (shr_fexp_pos m2 e' loc_Exact He1) as [H3 _].
  destruct (shr_fexp prec emax (Zpos m2) e' loc_Exact) as [mrs'' e''].
  cbn [fst] in H3.
  destruct (shr_m mrs'') as [|m3|m3]; try lia.
  destruct (e'' <=? emax - prec); reflexivity.
Qed.

Lemma binary_round_not_zero (sx : bool) (m : positive) :
  is_zero (binary_round prec emax sx m 0) = false.
Proof.
  unfold binary_round.
  destruct (shl_align m 0 (fexp prec emax (Zpos (digits2_pos m) + 0)))
    as [mz ez] eqn:E.
  apply binary_round_aux_not_zero.
  unfold shl_align in E.
  destruct (fexp prec emax (Zpos (digits2_pos m) + 0) - 0) eqn:F;
    injection E as <- <-; unfold fexp, emin, prec, emax in *; lia.
Qed.

(** The double of an int other than zero is not zero. *)
Lemma to_float_not_zero (z : Z) : z <> 0 -> is_zero (to_float z) = false.
Proof.
  intros H. destruct z as [|p|p]; [contradiction | |];
    apply binary_round_not_zero.
Qed.

Lemma float_of_int_not_zero (z : Z) (x : float) :
  z <> 0 -> float_of_int z = inl x -> is_zero x = false.
Proof.
  intros Hz. unfold float_of_int.
  pose proof (to_float_not_zero z Hz) as H.
  destruct (to_float z); intros E; try discriminate; injection E as <-;
    exact H.
Qed.

(** Rounding keeps the sign: a mantissa above zero gives a finite double
    or an infinity of the sign given. *)
Lemma binary_round_aux_sign (sx : bool) (m : positive) (e : Z)
    (l : location) :
  emin prec emax <= e ->
  match binary_round_aux prec emax sx (Zpos m) e l with
  | S754_finite s _ _ | S754_infinity s => s = sx
  | _ => False
  end.
Proof.
  intros He. unfold binary_round_aux.
  pose proof (shr_fexp_pos m e l He) as [H1 He1].
  destruct (shr_fexp prec emax (Zpos m) e l) as [mrs' e'].
  cbn [fst snd] in H1, He1.
  pose proof (round_nearest_even_pos (shr_m mrs') (loc_of_shr_record mrs') H1)
    as H2.
  destruct (round_nearest_even (shr_m mrs') (loc_of_shr_record mrs'))
    as [|m2|m2]; try lia.
  pose proof (shr_fexp_pos m2 e' loc_Exact He1) as [H3 _].
  destruct (shr_fexp prec emax (Zpos m2) e' loc_Exact) as [mrs'' e''].
  cbn [fst] in H3.
  destruct (shr_m mrs'') as [|m3|m3]; try lia.
  destruct (e'' <=? emax - prec); reflexivity.
Qed.

Lemma to_float_pos_sign (p : positive) :
  match to_float (Zpos p) with
  | S754_finite s _ _ | S754_infinity s => s = false
  | _ => False
  end.
Proof.
  unfold to_float, binary_normalize, binary_round.
  destruct (shl_align p 0 (fexp prec emax (Zpos (digits2_pos p) + 0)))
    as [mz ez] eqn:E.
  apply binary_round_aux_sign.
  unfold shl_align in E.
  destruct (fexp prec emax (Zpos (digits2_pos p) + 0) - 0) eqn:F;
    injection E as <- <-; unfold fexp, emin, prec, emax in *; lia.
Qed.

(** Zero divided by a count is zero. *)
Lemma zero_div_count (n : nat) :
  fdiv (S754_zero false) (to_float (Z.of_nat (S n))) = S754_zero false.
Proof.
  change (Z.of_nat (S n)) with (Zpos (Pos.of_succ_nat n)).
  pose proof (to_float_pos_sign (Pos.of_succ_nat n)) as H.
  destruct (to_float (Zpos (Pos.of_succ_nat n))); try contradiction;
    subst; reflexivity.
Qed.

End Conversion.

(** ** The analyzer's rate *)

Section Rate.

Import Analyzer.

Lemma to_float_60 : to_float 60 = S754_finite false 8444249301319680 (-47).
Proof. vm_compute. reflexivity. Qed.

(** A zero duration is zero minutes. *)
Lemma duration_minutes_zero (D : float) :
  is_zero D = true -> is_zero (fdiv D (to_float 60)) = true.
Proof. rewrite to_float_60. destruct D; try discriminate. reflexivity. Qed.

Lemma calculate_wpm_zero (W : Z) (D : float) :
  is_zero (fdiv D (to_float 60)) = true -> calculate_wpm W D = inl Zero.
Proof. intros H. unfold calculate_wpm. now rewrite H. Qed.

Lemma calculate_wpm_nonzero (W : Z) (D : float) :
  is_zero (fdiv D (to_float 60)) = false ->
  calculate_wpm W D
  = and_then (float_of_int W)
             (fun w => inl (Flt (fdiv w (fdiv D (to_float 60))))).
Proof.
  intros H. unfold calculate_wpm, int_div_float, float_truediv.
  rewrite H. destruct (float_of_int W); reflexivity.
Qed.

(** The least doubles: [k] times [2^-1074]. *)
Lemma tiny_durations_vanish :
  forallb (fun k => is_zero (fdiv (S754_finite false k (-1074)) (to_float 60)))
          (map Pos.of_nat (seq 1 30)) = true
  /\ is_zero (fdiv (S754_finite false 31 (-1074)) (to_float 60)) = false.
Proof. split; vm_compute; reflexivity. Qed.

(** C3, as amended. [calculate_wpm] returns the int 0 when the duration
    is zero, and also whenever the double [D / 60.0] is zero, which it is
    for the positive durations up to [30 * 2^-1074]; in every other case it
    returns the double [W / (D / 60.0)], each division rounded to the
    nearest double (and it raises [OverflowError] for a word count too
    large for a double). *)
Theorem calculate_wpm_spec (W : Z) (D : float) :
  (is_zero D = true -> calculate_wpm W D = inl Zero)
  /\ (is_zero (fdiv D (to_float 60)) = true -> calculate_wpm W D = inl Zero)
  /\ (is_zero (fdiv D (to_float 60)) = false ->
      calculate_wpm W D
      = and_then (float_of_int W)
                 (fun w => inl (Flt (fdiv w (fdiv D (to_float 60))))))
  /\ (forall k : positive, (k <= 30)%positive ->
        calculate_wpm W (S754_finite false k (-1074)) = inl Zero).
Proof.
  split; [|split; [|split]].
  - intros H. apply calculate_wpm_zero. now apply duration_minutes_zero.
  - apply calculate_wpm_zero.
  - apply calculate_wpm_nonzero.
  - intros k Hk. apply calculate_wpm_zero.
    destruct tiny_durations_vanish as [Hall _].
    rewrite forallb_forall in Hall. apply Hall.
    apply in_map_iff. exists (Pos.to_nat k). split.
    + apply Pos2Nat.id.
    + apply in_seq. lia.
Qed.

End Rate.

Lemma calculate_wpm_spec_witness :
  Analyzer.calculate_wpm 150 (of_Q 60) = inl (Flt (of_Q 150))
  /\ Analyzer.calculate_wpm 150 (S754_zero false) = inl Zero.
Proof.
  destruct (calculate_wpm_spec 150 (of_Q 60)) as [_ [_ [Hpos _]]].
  destruct (calculate_wpm_spec 150 (S754_zero false)) as [Hzero _].
  split.
  - rewrite Hpos by reflexivity. vm_compute. reflexivity.
  - apply Hzero. reflexivity.
Defined.

(** C3, as stated, fails for the least positive double, 5e-324: sixty
    times smaller is nothing a double can hold, so the duration in minutes
    is 0.0 and the rate returned is 0, not the quotient. *)
Lemma calculate_wpm_tiny_duration :
  let D := S754_finite false 1 (-1074) in
  (0 < exact D)%Q
  /\ Analyzer.calculate_wpm 150 D = inl Zero
  /\ ~ (inject_Z 150 / (exact D / 60) == 0)%Q.
Proof.
  split; [reflexivity|]. split; [vm_compute; reflexivity|].
  vm_compute. discriminate.
Qed.

(** ** The chunk planner *)

Section Planner.

Import Generator.

Lemma pow2_pos (k : positive) : Z.pos (Z.to_pos (2 ^ Z.pos k)) = 2 ^ Z.pos k.
Proof. apply Z2Pos.id. apply Z.pow_pos_nonneg; lia. Qed.

(** [int] of a finite double is the floor of its value when that is not
    negative, and not above zero when it is. *)
Lemma int_of_float_finite (x : float) :
  is_finite x = true ->
  exists k, int_of_float x = inl k
            /\ Z.max 1 k = Z.max 1 (Qfloor (exact x)).
Proof.
  destruct x as [s | s | | s m e]; try discriminate; intros _.
  - exists 0. split; reflexivity.
  - unfold int_of_float, exact. eexists. split; [reflexivity|].
    destruct e as [|p|k].
    + set (z := Z.pos m * 2 ^ 0). destruct s.
      * change (Qopp (inject_Z z)) with (inject_Z (- z)).
        now rewrite Qfloor_Z.
      * now rewrite Qfloor_Z.
    + set (z := Z.pos m * 2 ^ Z.pos p). destruct s.
      * change (Qopp (inject_Z z)) with (inject_Z (- z)).
        now rewrite Qfloor_Z.
      * now rewrite Qfloor_Z.
    + rewrite Z.shiftr_div_pow2 by lia.
      assert (Hp : 0 < 2 ^ Z.pos k) by (apply Z.pow_pos_nonneg; lia).
      destruct s.
      * unfold Qfloor, Qopp. cbn [Qnum Qden]. rewrite pow2_pos.
        assert (0 <= Z.pos m / 2 ^ Z.pos k) by (apply Z.div_pos; lia).
        assert (- Z.pos m / 2 ^ Z.pos k <= 0).
        { apply Z.div_le_upper_bound; lia. }
        lia.
      * unfold Qfloor. cbn [Qnum Qden]. now rewrite pow2_pos.
Qed.

Lemma num_chunks_of_truthy (a : Args) (cd : float) :
  chunk_duration a = Some cd -> is_zero cd = false ->
  num_chunks_of a
  = and_then (int_of_float (fdiv (duration a) cd)) (fun q => inl (Z.max 1 q)).
Proof.
  intros Hcd Hnz. unfold num_chunks_of, float_truthy. rewrite Hcd, Hnz.
  reflexivity.
Qed.

Lemma num_chunks_of_falsy (a : Args) :
  float_truthy (chunk_duration a) = false -> num_chunks_of a = inl (chunks a).
Proof. intros H. unfold num_chunks_of. now rewrite H. Qed.

Lemma float_truthy_zero (q : float) :
  is_zero q = true -> float_truthy (Some q) = false.
Proof. intros H. simpl. now rewrite H. Qed.

(** C4, as amended. When [--chunk-duration] is given and is not zero, the
    number of chunks is [max(1, floor(q))] for the double [q] that
    [T / chunk_duration] gives, which is the quotient rounded to the nearest
    double and may have gone up to the next whole number; a [q] that is no
    number ends the run with [ValueError], an infinite one with
    [OverflowError]. *)
Theorem num_chunks_from_chunk_duration (a : Args) (cd : float) :
  chunk_duration a = Some cd -> is_zero cd = false ->
  let q := fdiv (duration a) cd in
  (is_finite q = true -> num_chunks_of a = inl (Z.max 1 (Qfloor (exact q))))
  /\ (q = S754_nan -> num_chunks_of a = inr ValueError)
  /\ (forall s, q = S754_infinity s -> num_chunks_of a = inr OverflowError).
Proof.
  intros Hcd Hnz q. rewrite (num_chunks_of_truthy a cd Hcd Hnz). fold q.
  split; [|split].
  - intros Hfin. destruct (int_of_float_finite q Hfin) as [k [Hk Hmax]].
    rewrite Hk. simpl. now rewrite Hmax.
  - intros ->. reflexivity.
  - intros s ->. reflexivity.
Qed.

(** C10. [--chunk-duration 0.0] is the same run as no [--chunk-duration]:
    the chunk count is [--chunks], and [main] does the same from any
    state. *)
Theorem chunk_duration_zero_is_absent (e : Env) (a : Args) (q : float)
    (s : St) :
  chunk_duration a = Some q -> is_zero q = true ->
  num_chunks_of a = inl (chunks a)
  /\ main e (Parsed a) s = main e (Parsed (without_chunk_duration a)) s.
Proof.
  intros Hcd Hq.
  assert (Hn : num_chunks_of a = inl (chunks a)).
  { apply num_chunks_of_falsy. rewrite Hcd. now apply float_truthy_zero. }
  split; [exact Hn|].
  destruct a as [T st ch cd tp w]. cbn [chunk_duration] in Hcd. subst cd.
  destruct q; try discriminate. reflexivity.
Qed.

End Planner.

Lemma num_chunks_from_chunk_duration_witness :
  Generator.num_chunks_of args_chunk_duration_3 = inl 3
  /\ Spec.num_chunks (of_Q 10) (of_Q 3) = 3.
Proof.
  destruct (num_chunks_from_chunk_duration args_chunk_duration_3 (of_Q 3)
              eq_refl eq_refl) as [H _].
  split.
  - rewrite H by reflexivity. vm_compute. reflexivity.
  - vm_compute. reflexivity.
Defined.

(** C4, as stated, fails in three ways.  A chunk duration of zero is no
    chunk duration: the count is whatever [--chunks] says, 5 here.  The
    double quotient is rounded before it is floored: for 0.5 minutes in
    chunks of 0.05 the quotient of the two doubles is below 10 and its
    floor is 9, while the run plans 10 chunks.  And a chunk duration that is
    no number ends the run. *)
Lemma num_chunks_differs_from_floor :
  Generator.num_chunks_of args_chunk_duration_zero = inl 5
  /\ Spec.num_chunks (of_Q 10) (S754_zero false) = 1
  /\ Generator.num_chunks_of args_half_minute = inl 10
  /\ Spec.num_chunks (of_Q 0.5) (of_Q 0.05) = 9
  /\ Generator.num_chunks_of args_chunk_duration_nan = inr ValueError.
Proof. repeat split; vm_compute; reflexivity. Qed.

Lemma chunk_duration_zero_is_absent_witness :
  let a := Generator.mkArgs (of_Q 10) None 4 (Some (S754_zero false)) ""
             (Some 150) in
  Generator.num_chunks_of a = inl 4
  /\ Generator.main (Scenario.generator_env (Some "key"))
       (Generator.Parsed a) Scenario.start
     = Generator.main (Scenario.generator_env (Some "key"))
         (Generator.Parsed (without_chunk_duration a)) Scenario.start.
Proof.
  intros a.
  exact (chunk_duration_zero_is_absent
           (Scenario.generator_env (Some "key")) a (S754_zero false)
           Scenario.start eq_refl eq_refl).
Defined.

(** ** The style resolver *)

Section Styles.

Import Generator.

Lemma style_prompts_keys : style_prompts_items.*1 = Spec.style_keys.
Proof. reflexivity. Qed.

Lemma style_prompts_unknown (style : string) :
  style ∉ Spec.style_keys -> style_prompts !! style = None.
Proof.
  intros H. unfold style_prompts.
  apply not_elem_of_list_to_map_1. rewrite style_prompts_keys. exact H.
Qed.

Lemma get_style_prompt_conversational :
  get_style_prompt "conversational" = style_prompts !!! "conversational".
Proof. vm_compute. reflexivity. Qed.

(** C7. A style keyword outside the seven recognized ones resolves to the
    fragment of ["conversational"]; the resolver is a total function, so
    no keyword makes it fail. *)
Theorem get_style_prompt_unknown (style : string) :
  style ∉ Spec.style_keys ->
  get_style_prompt style = get_style_prompt "conversational".
Proof.
  intros H. rewrite get_style_prompt_conversational.
  unfold get_style_prompt. now rewrite (style_prompts_unknown style H).
Qed.

End Styles.

Lemma get_style_prompt_unknown_witness :
  Generator.get_style_prompt "sarcastic" =
  Generator.get_style_prompt "conversational".
Proof.
  apply get_style_prompt_unknown.
  unfold Spec.style_keys. rewrite !elem_of_cons, elem_of_nil.
  intros H. repeat (destruct H as [H | H]; [discriminate H |]). exact H.
Defined.

(** ** Runs that stop before any work is done *)

Section EarlyStops.

Import Generator.

Lemma after_style_check_fs c a s : st_fs (after_style_check c a s) = st_fs s.
Proof. unfold after_style_check. now case_bool_decide. Qed.

Lemma after_style_check_trace c a s :
  st_trace (after_style_check c a s) = st_trace s.
Proof. unfold after_style_check. now case_bool_decide. Qed.

Lemma after_style_check_out c a s :
  (length (st_out s) <= length (st_out (after_style_check c a s)))%nat.
Proof.
  unfold after_style_check. case_bool_decide; simpl; [lia|].
  rewrite length_app. simpl. lia.
Qed.

(** Without a configuration file the run stops in [load_config]. *)
Lemma main_no_config (e : Env) (a : Args) (s : St) :
  config_file e = None ->
  main e (Parsed a) s =
    (inr (Exit 1),
     mkSt (st_fs s)
          (st_out s ++ [[Lit "Error: Config file not found: ";
                         Lit (join (script_dir e) "config.json")]])
          (st_trace s)).
Proof. intros H. unfold main, load_config. rewrite H. reflexivity. Qed.

(** [main] for parsed arguments and a configuration, up to the check of
    the key: the style check, the chunk count, the chunk duration, the
    key. *)
Lemma main_to_key (e : Env) (a : Args) (c : Config) (s : St) :
  config_file e = Some c ->
  main e (Parsed a) s =
    let s1 := after_style_check c a s in
    match num_chunks_of a with
    | inr x => (inr (Uncaught x), s1)
    | inl n =>
        match float_div_int (duration a) n with
        | inr x => (inr (Uncaught x), s1)
        | inl cd =>
            if str_falsy (api_key e) then (inr (Exit 1), key_missing s1)
            else plan_and_generate e a c n cd s1
        end
    end.
Proof.
  intros Hc. unfold main, parse_args, load_config, after_style_check,
    chunk_duration_of, plan_and_generate, key_missing.
  rewrite Hc. unfold bind at 1. unfold ret at 1.
  unfold bind at 1. unfold ret at 1. cbn beta iota zeta.
  unfold bind at 1.
  case_bool_decide;
    [unfold ret at 1 | unfold print at 1]; cbn beta iota;
    (unfold bind at 1;
     destruct (num_chunks_of a) as [n | x];
     [|reflexivity];
     unfold lift at 1, ret at 1; cbn beta iota;
     unfold bind at 1;
     destruct (float_div_int (duration a) n) as [cd | x];
     [|reflexivity];
     unfold lift at 1, ret at 1; cbn beta iota;
     unfold bind at 1;
     destruct (str_falsy (api_key e));
     [unfold bind, print, sys_exit; cbn [st_fs st_out st_trace];
      rewrite <- app_assoc; reflexivity
     | unfold ret at 1; cbn beta iota; reflexivity]).
Qed.

(** A chunk count of zero stops the run at [args.duration / num_chunks]. *)
Lemma main_zero_chunks (e : Env) (a : Args) (c : Config) (s : St) :
  config_file e = Some c -> num_chunks_of a = inl 0 ->
  main e (Parsed a) s
  = (inr (Uncaught ZeroDivisionError), after_style_check c a s).
Proof.
  intros Hc Hn. rewrite (main_to_key e a c s Hc). cbv zeta. rewrite Hn.
  reflexivity.
Qed.

End EarlyStops.

Section MissingPrerequisites.

(** The analyzer checks the key before anything else. *)
Lemma analyzer_main_no_key (e : Analyzer.Env) (s : St) :
  str_falsy (Analyzer.api_key e) = true ->
  Analyzer.main e s = (inr (Exit 1), key_missing s).
Proof.
  intros Hk. unfold Analyzer.main, key_missing. rewrite Hk.
  unfold bind. simpl. rewrite <- app_assoc. reflexivity.
Qed.

(** The quotient of a duration by a chunk count of at least one. *)
Lemma float_div_int_pos (T : float) (n : Z) :
  1 <= n ->
  float_div_int T n
  = match float_of_int n with
    | inl x => inl (fdiv T x)
    | inr x => inr x
    end.
Proof.
  intros Hn. unfold float_div_int, and_then.
  destruct (float_of_int n) as [x | x] eqn:E; [|reflexivity].
  unfold float_truediv.
  now rewrite (float_of_int_not_zero n x) by (lia || exact E).
Qed.

(** C9. [args.duration / num_chunks] does not divide by zero for any
    chunk count of at least one (it is the quotient by the count as a
    double, or [OverflowError] for a count no double can hold), and nothing
    checks [--chunks]: with [--chunks 0] and no [--chunk-duration] a run
    that has loaded its configuration dies of [ZeroDivisionError] (exit
    status 1), having called nothing and written nothing. *)
Theorem chunks_zero_divides_by_zero
    (e : Generator.Env) (a : Generator.Args) (c : Generator.Config) (s : St) :
  Generator.config_file e = Some c ->
  Generator.chunks a = 0%Z -> Generator.chunk_duration a = None ->
  (exists s',
      Generator.main e (Generator.Parsed a) s
      = (inr (Uncaught ZeroDivisionError), s')
      /\ st_fs s' = st_fs s /\ st_trace s' = st_trace s)
  /\ fst (run_script (Generator.main e (Generator.Parsed a)) s) = 1%Z
  /\ (forall n : Z, (1 <= n)%Z ->
        Generator.chunk_duration_of a n s
        = match float_of_int n with
          | inl x => (inl (fdiv (Generator.duration a) x), s)
          | inr x => (inr (Uncaught x), s)
          end).
Proof.
  intros Hc Hn Hcd.
  assert (H0 : Generator.num_chunks_of a = inl 0%Z).
  { rewrite num_chunks_of_falsy; [now rewrite Hn | now rewrite Hcd]. }
  pose proof (main_zero_chunks e a c s Hc H0) as Hm.
  repeat split.
  - eexists. split; [exact Hm|].
    split; [apply after_style_check_fs | apply after_style_check_trace].
  - unfold run_script. rewrite Hm. reflexivity.
  - intros n Hn1. unfold Generator.chunk_duration_of.
    rewrite (float_div_int_pos _ n Hn1).
    destruct (float_of_int n); reflexivity.
Qed.

Lemma key_missing_out (s : St) :
  (length (st_out s) < length (st_out (key_missing s)))%nat.
Proof. unfold key_missing. cbn. rewrite !length_app. cbn. lia. Qed.

(** C8, as amended. Without [GEMINI_API_KEY] (unset or empty) neither
    tool touches the file system: no remote call, no directory made, no file
    written, and something is printed.  The analyzer ends with exit status
    1.  The generator ends with status 1 when its command line parses and
    with status 2 when it does not; asked for [--help] it ends with status
    0. *)
Theorem missing_api_key_stops_both_tools
    (ge : Generator.Env) (cl : Generator.CommandLine) (ae : Analyzer.Env)
    (s : St) :
  str_falsy (Generator.api_key ge) = true ->
  str_falsy (Analyzer.api_key ae) = true ->
  (let r := run_script (Generator.main ge cl) s in
   fst r = match cl with
           | Generator.Help => 0
           | Generator.UsageError _ => 2
           | Generator.Parsed _ => 1
           end%Z
   /\ st_fs (snd r) = st_fs s /\ st_trace (snd r) = st_trace s
   /\ (length (st_out s) < length (st_out (snd r)))%nat)
  /\
  (let r := run_script (Analyzer.main ae) s in
   fst r = 1%Z /\ st_fs (snd r) = st_fs s /\ st_trace (snd r) = st_trace s
   /\ (length (st_out s) < length (st_out (snd r)))%nat).
Proof.
  intros Hg Ha. split.
  - unfold run_script. destruct cl as [| message | a].
    + cbn. rewrite length_app. cbn. repeat split. lia.
    + cbn. rewrite length_app. cbn. repeat split. lia.
    + destruct (Generator.config_file ge) as [c|] eqn:Hc.
      * pose proof (after_style_check_fs c a s) as Hfs.
        pose proof (after_style_check_trace c a s) as Htr.
        pose proof (after_style_check_out c a s) as Hout.
        rewrite (main_to_key ge a c s Hc). cbv zeta. rewrite Hg.
        destruct (Generator.num_chunks_of a) as [n | x].
        -- destruct (float_div_int (Generator.duration a) n) as [cd | x].
           ++ pose proof (key_missing_out (after_style_check c a s)).
              cbn [fst snd].
              split; [reflexivity|]. split; [exact Hfs|].
              split; [exact Htr | lia].
           ++ cbn. rewrite length_app. cbn. repeat split; try assumption.
              lia.
        -- cbn. rewrite length_app. cbn. repeat split; try assumption. lia.
      * rewrite (main_no_config ge a s Hc). simpl.
        rewrite length_app. simpl. repeat split. lia.
  - unfold run_script. rewrite (analyzer_main_no_key ae s Ha).
    pose proof (key_missing_out s). cbn [fst snd]. repeat split. exact H.
Qed.

End MissingPrerequisites.

Lemma chunks_zero_divides_by_zero_witness :
  fst (Generator.main (Scenario.generator_env (Some "key"))
         (Generator.Parsed (Scenario.args_chunks 0)) Scenario.start)
  = inr (Uncaught ZeroDivisionError).
Proof.
  destruct (chunks_zero_divides_by_zero
              (Scenario.generator_env (Some "key")) (Scenario.args_chunks 0)
              Scenario.config Scenario.start eq_refl eq_refl eq_refl)
    as [[s' [Hm _]] _].
  rewrite Hm. reflexivity.
Defined.

Lemma missing_api_key_stops_both_tools_witness :
  fst (run_script (Generator.main (Scenario.generator_env None)
                     (Generator.Parsed (Scenario.args_chunks 2)))
         Scenario.start) = 1
  /\ fst (run_script (Analyzer.main (Scenario.analyzer_env (Some "")))
            Scenario.start) = 1.
Proof.
  destruct (missing_api_key_stops_both_tools
              (Scenario.generator_env None)
              (Generator.Parsed (Scenario.args_chunks 2))
              (Scenario.analyzer_env (Some "")) Scenario.start
              eq_refl eq_refl) as [[Hg _] [Ha _]].
  split; assumption.
Defined.

(** C8, as stated, fails for the generator: [--help] without the key
    prints the help and exits with status 0.  No file is made. *)
Lemma help_without_key_exits_zero :
  str_falsy (Generator.api_key (Scenario.generator_env None)) = true
  /\ fst help_run = 0
  /\ st_fs (snd help_run) = st_fs Scenario.start.
Proof. repeat split. Qed.

(** ** Paths *)

Section Paths.

Lemma append_nil (b : string) : "" +:+ b = b.
Proof. reflexivity. Qed.

Lemma append_cons (x : ascii) (a b : string) :
  String x a +:+ b = String x (a +:+ b).
Proof. reflexivity. Qed.

Lemma length_append (a b : string) :
  String.length (a +:+ b) = (String.length a + String.length b)%nat.
Proof. induction a as [|c a IH]; simpl; [reflexivity | now rewrite IH]. Qed.

Lemma no_slash_app (a b : string) :
  no_slash (a +:+ b) = no_slash a && no_slash b.
Proof.
  induction a as [|c a IH]; [reflexivity|].
  rewrite append_cons. cbn [no_slash]. rewrite IH. now rewrite andb_assoc.
Qed.

Lemma split_slash_name (b : string) : no_slash b = true -> split_slash b = [b].
Proof.
  induction b as [|c b IH]; [reflexivity|]. cbn [no_slash split_slash].
  intros H. apply andb_prop in H as [Hc Hb].
  apply negb_true_iff in Hc. rewrite Hc, (IH Hb). reflexivity.
Qed.

Lemma components_name (b : string) : is_name b = true -> components b = [b].
Proof.
  unfold is_name, components. intros H.
  apply andb_prop in H as [H Hdot]. apply andb_prop in H as [Hs He].
  rewrite (split_slash_name b Hs).
  apply negb_true_iff, String.eqb_neq in Hdot, He.
  rewrite filter_cons_True by (split; assumption). reflexivity.
Qed.

Lemma is_absolute_name (b : string) : is_name b = true -> is_absolute b = false.
Proof.
  unfold is_name. destruct b as [|c b]; [reflexivity|].
  cbn [no_slash is_absolute]. intros H.
  apply andb_prop in H as [H _]. apply andb_prop in H as [H _].
  apply andb_prop in H as [H _]. now apply negb_true_iff in H.
Qed.

(** Joining a name: the name is put after the path. *)
Lemma join_name (a b : string) : is_name b = true -> join a b = glue a b.
Proof.
  intros H. unfold join.
  rewrite (is_absolute_name b H), (components_name b H). reflexivity.
Qed.

Lemma glue_longer (a b : string) :
  (2 <= String.length b)%nat ->
  (String.length a < String.length (glue a b))%nat.
Proof.
  intros Hb. unfold glue. destruct (String.eqb_spec a ".") as [-> | _].
  - simpl. lia.
  - destruct (ends_with_slash a); rewrite !length_append; simpl; lia.
Qed.

(** A path with a long name joined to it is longer, so another path. *)
Lemma join_longer (a b : string) :
  long_name b -> (String.length a < String.length (join a b))%nat.
Proof. intros [Hn Hl]. rewrite (join_name a b Hn). now apply glue_longer. Qed.

Lemma join_neq_left (a b : string) : long_name b -> join a b <> a.
Proof.
  intros Hb H. pose proof (join_longer a b Hb) as Hl. rewrite H in Hl. lia.
Qed.

Lemma digit_char_no_slash (d : nat) : Ascii.eqb (digit_char d) "/" = false.
Proof. do 9 (destruct d as [|d]; [reflexivity|]). reflexivity. Qed.

(** The name of a session directory is a name. *)
Lemma session_name_long (e : Generator.Env) :
  long_name ("session_" +:+ Generator.timestamp e).
Proof.
  unfold long_name, is_name, Generator.timestamp, strftime, digit_at.
  rewrite no_slash_app. cbn [no_slash]. rewrite !digit_char_no_slash.
  split; [reflexivity|]. rewrite length_append. simpl. lia.
Qed.

Lemma pretty_N_char_no_slash (x : N) :
  Ascii.eqb (pretty_N_char x) "/" = false.
Proof. unfold pretty_N_char. repeat case_match; reflexivity. Qed.

Lemma pretty_N_go_no_slash (x : N) (s : string) :
  no_slash s = true -> no_slash (pretty_N_go x s) = true.
Proof.
  revert s. induction (N.lt_wf_0 x) as [x _ IH]; intros s Hs.
  destruct (N.eq_dec x 0%N) as [-> | Hx].
  - now rewrite pretty_N_go_0.
  - rewrite pretty_N_go_step by lia. apply IH.
    + apply N.div_lt; lia.
    + cbn [no_slash]. now rewrite pretty_N_char_no_slash.
Qed.

Lemma pretty_Z_no_slash (z : Z) : no_slash (pretty z) = true.
Proof.
  assert (HN : forall p, no_slash (pretty (Npos p)) = true).
  { intros p. unfold pretty, pretty_N. case_decide; [reflexivity|].
    now apply pretty_N_go_no_slash. }
  destruct z as [|p|p]; [reflexivity | apply HN |].
  change (pretty (Z.neg p)) with ("-" +:+ pretty (Npos p)).
  rewrite no_slash_app, HN. reflexivity.
Qed.

Lemma fmt_02d_no_slash (i : Z) : no_slash (fmt_02d i) = true.
Proof.
  unfold fmt_02d. destruct ((0 <=? i) && (i <? 10)).
  - rewrite no_slash_app, pretty_Z_no_slash. reflexivity.
  - apply pretty_Z_no_slash.
Qed.

(** The name of a text file is a name. *)
Lemma text_filename_long (count : nat) (i : Z) :
  long_name (Generator.text_filename count i).
Proof.
  unfold Generator.text_filename. destruct (Nat.eqb count 1).
  - split; [reflexivity | simpl; lia].
  - split.
    + unfold is_name. rewrite !no_slash_app, fmt_02d_no_slash. reflexivity.
    + rewrite !length_append. simpl. lia.
Qed.

Lemma ancestors_from_shorter (pre p x : string) :
  x ∈ ancestors_from pre p ->
  (String.length x < String.length pre + String.length p)%nat.
Proof.
  revert pre. induction p as [|c r IH]; intros pre Hx; simpl in Hx.
  - now apply elem_of_nil in Hx.
  - apply elem_of_app in Hx as [Hx | Hx].
    + destruct (Ascii.eqb c "/"); [|now apply elem_of_nil in Hx].
      apply list_elem_of_singleton in Hx. subst x. simpl. lia.
    + apply IH in Hx. rewrite length_append in Hx. simpl in *. lia.
Qed.

Lemma ancestors_shorter (p x : string) :
  x ∈ ancestors p -> (String.length x < String.length p)%nat.
Proof.
  unfold ancestors. intros Hx. apply list_elem_of_filter in Hx as [_ Hx].
  apply ancestors_from_shorter in Hx. simpl in Hx. exact Hx.
Qed.

(** A file of the session directory is none of the directories that
    making the session directory creates. *)
Lemma session_file_not_made (e : Generator.Env) (out n : string)
    (ds : gset string) :
  long_name n ->
  join (session_dir_of e out) n ∉ ds ->
  join (session_dir_of e out) n ∉ dirs_with_session e out ds.
Proof.
  intros Hlong Hn. unfold dirs_with_session.
  pose proof (join_longer (session_dir_of e out) n Hlong) as H1.
  pose proof (join_longer out _ (session_name_long e)) as H2.
  fold (session_dir_of e out) in H2.
  rewrite !elem_of_union, !elem_of_singleton, elem_of_list_to_set.
  intros [[[H | H] | H] | H].
  - rewrite H in H1. lia.
  - rewrite H in H1. lia.
  - apply ancestors_shorter in H. lia.
  - contradiction.
Qed.

End Paths.

(** ** The session persister, step by step *)

Section Persister.

Import Generator.

Lemma write_file_ok (d n : string) (c : content) (s : St) :
  join d n ∉ dirs (st_fs s) -> d ∈ dirs (st_fs s) ->
  write_file d n c s =
    (inl tt,
     mkSt (mkFS (dirs (st_fs s)) (<[ (d, n) := c ]> (files (st_fs s))))
          (st_out s) (st_trace s ++ [Wrote d n])).
Proof.
  intros Hn Hd. unfold write_file, bind, get_fs, is_dir.
  rewrite bool_decide_eq_false_2 by assumption.
  rewrite bool_decide_eq_true_2 by assumption. reflexivity.
Qed.

Lemma write_texts_ok (sd : string) (count : nat) (its : list (Z * TextData))
    (s : St) :
  sd ∈ dirs (st_fs s) ->
  (forall it, it ∈ its -> join sd (text_filename count (fst it)) ∉ dirs (st_fs s)) ->
  let ws := map (fun it : Z * TextData =>
                   (text_filename count (fst it), Text (td_text (snd it))))
                its in
  write_texts sd count its s =
    (inl tt,
     mkSt (mkFS (dirs (st_fs s)) (write_all sd ws (files (st_fs s))))
          (st_out s)
          (st_trace s ++ map (fun w => Wrote sd (fst w)) ws)).
Proof.
  revert s. induction its as [|[i t] rest IH]; intros s Hd Hfree; simpl.
  - unfold ret. rewrite app_nil_r. now destruct s as [[? ?] ? ?].
  - unfold bind. rewrite write_file_ok;
      [| apply (Hfree (i, t)); now left | assumption].
    rewrite IH; simpl; [| assumption |].
    + rewrite <- app_assoc. reflexivity.
    + intros it Hit. apply Hfree. now right.
Qed.

Lemma mkdir_session (e : Env) (out : string) (s : St) :
  session_can_be_made (st_fs s) e out ->
  mkdir_parents_exist_ok out ("session_" +:+ timestamp e) s
  = (inl tt, made_session e out s).
Proof.
  intros Hcan. unfold mkdir_parents_exist_ok, made_session, bind, get_fs.
  fold (session_dir_of e out).
  destruct (is_dir (st_fs s) (session_dir_of e out)) eqn:Hdir;
    [reflexivity|].
  destruct Hcan as [Hin | [Hfile Hanc]].
  - unfold is_dir in Hdir. now rewrite bool_decide_eq_true_2 in Hdir.
  - rewrite Hfile, Hanc. reflexivity.
Qed.

Lemma made_session_dir (e : Env) (out : string) (s : St) :
  session_can_be_made (st_fs s) e out ->
  session_dir_of e out ∈ dirs (st_fs (made_session e out s)).
Proof.
  intros Hcan. unfold made_session.
  destruct (is_dir (st_fs s) (session_dir_of e out)) eqn:Hdir.
  - unfold is_dir in Hdir. now apply bool_decide_eq_true_1 in Hdir.
  - simpl. unfold dirs_with_session. set_solver.
Qed.

Lemma made_session_free (e : Env) (out n : string) (s : St) :
  long_name n ->
  join (session_dir_of e out) n ∉ dirs (st_fs s) ->
  join (session_dir_of e out) n ∉ dirs (st_fs (made_session e out s)).
Proof.
  intros Hlong Hn. unfold made_session.
  destruct (is_dir (st_fs s) (session_dir_of e out)); [assumption|].
  simpl. now apply session_file_not_made.
Qed.

Lemma metadata_name_long : long_name "metadata.json".
Proof. split; [reflexivity | simpl; lia]. Qed.

(** The files of a session have names. *)
Lemma session_file_names_long (texts : list TextData) (n : string) :
  n ∈ map fst (text_writes texts) ++ ["metadata.json"] -> long_name n.
Proof.
  intros Hn. apply elem_of_app in Hn as [Hn | Hn].
  - unfold text_writes in Hn. rewrite map_map in Hn.
    apply list_elem_of_fmap in Hn as [it [-> _]]. apply text_filename_long.
  - apply list_elem_of_singleton in Hn. subst n. apply metadata_name_long.
Qed.

(** [save_output] in closed form: it makes the directory, writes the
    texts, then either dies on the division by a zero rate or writes the
    metadata and returns the directory. *)
Lemma save_output_run (e : Env) (out : string) (texts : list TextData)
    (style : string) (T : float) (wpm : Z) (s : St) :
  session_can_be_made (st_fs s) e out ->
  session_names_free (st_fs s) e out texts ->
  save_output e out texts style T wpm s =
    if wpm =? 0
    then (inr (Uncaught ZeroDivisionError), texts_saved e out texts s)
    else (inl (session_dir_of e out),
          session_saved e out texts style T wpm s).
Proof.
  intros Hcan Hfree. unfold save_output. fold (session_dir_of e out).
  unfold bind at 1. rewrite (mkdir_session e out s Hcan).
  unfold bind at 1.
  rewrite (write_texts_ok (session_dir_of e out) (length texts)
             (enumerate 1 texts) (made_session e out s)).
  - fold (text_writes texts). cbv zeta.
    fold (texts_saved e out texts s).
    destruct (wpm =? 0) eqn:Hw.
    + reflexivity.
    + unfold bind, ret. rewrite write_file_ok.
      * reflexivity.
      * simpl. apply made_session_free; [apply metadata_name_long|].
        apply Hfree. apply elem_of_app. right. now left.
      * simpl. now apply made_session_dir.
  - now apply made_session_dir.
  - intros it Hit. apply made_session_free; [apply text_filename_long|].
    apply Hfree.
    apply elem_of_app. left. unfold text_writes. rewrite map_map. simpl.
    apply (list_elem_of_fmap_2 (fun x : Z * TextData =>
             text_filename (length texts) (fst x))). exact Hit.
Qed.

Lemma write_all_other (d : string) (ws : list (string * content))
    (m : gmap (string * string) content) (k : string * string) :
  (forall w, w ∈ ws -> (d, fst w) <> k) ->
  write_all d ws m !! k = m !! k.
Proof.
  revert m. induction ws as [|w ws IH]; intros m Hk; simpl; [reflexivity|].
  unfold write_all in *. simpl. rewrite IH.
  - apply lookup_insert_ne. apply Hk. now left.
  - intros w' Hw'. apply Hk. now right.
Qed.

(** The last write under a name is what the file holds. *)
Lemma write_all_written (d : string) (ws : list (string * content))
    (m : gmap (string * string) content) (n : string) :
  n ∈ map fst ws ->
  exists c, (n, c) ∈ ws /\ write_all d ws m !! (d, n) = Some c.
Proof.
  revert m. induction ws as [|[n0 c0] ws IH]; intros m Hn; simpl in *.
  - now apply elem_of_nil in Hn.
  - destruct (decide (n ∈ map fst ws)) as [Hin | Hout].
    + destruct (IH (<[ (d, n0) := c0 ]> m) Hin) as [c [Hc Hl]].
      exists c. split; [now right | exact Hl].
    + apply elem_of_cons in Hn as [-> | Hn]; [|contradiction].
      exists c0. split; [now left|].
      unfold write_all. simpl. fold (write_all d ws (<[ (d, n0) := c0 ]> m)).
      rewrite write_all_other.
      * apply lookup_insert_eq.
      * intros w Hw E. apply Hout. injection E as <-.
        apply (list_elem_of_fmap_2 fst). exact Hw.
Qed.

(** Under names that differ, every write is what its file holds. *)
Lemma write_all_lookup (d : string) (ws : list (string * content))
    (m : gmap (string * string) content) (k : nat) (n : string)
    (c : content) :
  NoDup (map fst ws) -> ws !! k = Some (n, c) ->
  write_all d ws m !! (d, n) = Some c.
Proof.
  revert m k. induction ws as [|[n0 c0] ws IH]; intros m k Hnd Hk.
  - discriminate.
  - apply NoDup_cons in Hnd as [Hout Hnd]. destruct k as [|k]; simpl in Hk.
    + injection Hk as -> ->. unfold write_all. simpl.
      fold (write_all d ws (<[ (d, n) := c ]> m)).
      rewrite write_all_other; [apply lookup_insert_eq|].
      intros w Hw E. apply Hout. injection E as E. cbn [fst]. rewrite <- E.
      apply (list_elem_of_fmap_2 fst). exact Hw.
    + unfold write_all. simpl. apply (IH _ k Hnd Hk).
Qed.

End Persister.

(** ** The names of the session's files *)

Section SessionNames.

Import Generator.

Lemma enumerate_indices {A} (k : nat) (xs : list A) :
  map fst (enumerate (Z.of_nat k) xs) = map Z.of_nat (seq k (length xs)).
Proof.
  revert k. induction xs as [|x xs IH]; intros k; simpl; [reflexivity|].
  f_equal. replace (Z.of_nat k + 1) with (Z.of_nat (S k)) by lia. apply IH.
Qed.

Lemma enumerate_lookup {A} (i : Z) (xs : list A) (k : nat) (x : A) :
  xs !! k = Some x -> enumerate i xs !! k = Some (i + Z.of_nat k, x).
Proof.
  revert i k. induction xs as [|y xs IH]; intros i k Hk; [discriminate|].
  destruct k as [|k]; simpl in *.
  - injection Hk as ->. now rewrite Z.add_0_r.
  - rewrite (IH (i + 1) k Hk). do 2 f_equal. lia.
Qed.

Lemma text_writes_names (texts : list TextData) :
  map fst (text_writes texts) =
  map (text_filename (length texts)) (range_1 (Z.of_nat (length texts))).
Proof.
  unfold text_writes, range_1. rewrite map_map. simpl.
  rewrite <- (map_map fst (text_filename (length texts))).
  pose proof (enumerate_indices 1 texts) as E.
  change (Z.of_nat 1) with 1 in E. rewrite E, Nat2Z.id. reflexivity.
Qed.

Lemma text_writes_lookup (texts : list TextData) (k : nat) (t : TextData) :
  texts !! k = Some t ->
  text_writes texts !! k
  = Some (text_filename (length texts) (Z.of_nat k + 1), Text (td_text t)).
Proof.
  intros Hk. unfold text_writes. rewrite list_lookup_fmap.
  rewrite (enumerate_lookup 1 texts k t Hk). simpl.
  now rewrite (Z.add_comm 1).
Qed.

Lemma fmt_02d_two_digits (i : Z) : 1 <= i <= 99 -> fmt_02d i = two_digits i.
Proof.
  intros Hi.
  assert (Hall : forallb (fun n => String.eqb (fmt_02d (Z.of_nat n))
                                     (two_digits (Z.of_nat n)))
                   (seq 1 99) = true) by (vm_compute; reflexivity).
  rewrite forallb_forall in Hall.
  specialize (Hall (Z.to_nat i)). rewrite Z2Nat.id in Hall by lia.
  apply String.eqb_eq. apply Hall. apply in_seq. lia.
Qed.

(** The first digit of a number that is not zero is not a zero. *)
Lemma pretty_N_go_head (x : N) (s : string) :
  (0 < x)%N ->
  exists c r, pretty_N_go x s = String c r /\ c <> "0"%char.
Proof.
  revert s. induction (N.lt_wf_0 x) as [x _ IH]; intros s Hx.
  rewrite pretty_N_go_step by assumption.
  destruct (N.eq_dec (x `div` 10)%N 0%N) as [Hq | Hq].
  - rewrite Hq, pretty_N_go_0.
    eexists _, _. split; [reflexivity|].
    apply N.div_small_iff in Hq; [|lia].
    rewrite N.mod_small by assumption.
    assert (x = 1 \/ x = 2 \/ x = 3 \/ x = 4 \/ x = 5 \/ x = 6
            \/ x = 7 \/ x = 8 \/ x = 9)%N as H by lia.
    destruct H as [-> | [-> | [-> | [-> | [-> | [-> | [-> | [-> | ->]]]]]]]];
      discriminate.
  - apply IH; [apply N.div_lt; lia | now apply N.neq_0_lt_0].
Qed.

Lemma pretty_Z_head (z : Z) :
  z <> 0 -> exists c r, pretty z = String c r /\ c <> "0"%char.
Proof.
  intros Hz.
  assert (HN : forall p, exists c r,
               pretty (Npos p) = String c r /\ c <> "0"%char).
  { intros p. unfold pretty, pretty_N. case_decide; [discriminate|].
    apply pretty_N_go_head. lia. }
  destruct z as [|p|p]; [contradiction | apply HN |].
  exists "-"%char, (pretty (Npos p)). split; [reflexivity | discriminate].
Qed.

(** Numbers that differ are written differently. *)
Lemma fmt_02d_inj (i j : Z) : fmt_02d i = fmt_02d j -> i = j.
Proof.
  assert (Hmixed : forall a b, 0 <= a < 10 -> ~ 0 <= b < 10 ->
                     "0" +:+ pretty a <> pretty b).
  { intros a b Ha Hb E.
    destruct (pretty_Z_head b) as [c [r [Hp Hc]]]; [lia|].
    rewrite Hp in E. injection E as E _. congruence. }
  unfold fmt_02d.
  destruct ((0 <=? i) && (i <? 10)) eqn:Hi;
    destruct ((0 <=? j) && (j <? 10)) eqn:Hj; intros E.
  - injection E as E. now apply (inj pretty).
  - exfalso. apply (Hmixed i j); [lia | lia | exact E].
  - exfalso. apply (Hmixed j i); [lia | lia | now symmetry].
  - now apply (inj pretty).
Qed.

Lemma append_inj_r (a b c : string) : a +:+ c = b +:+ c -> a = b.
Proof.
  revert b. induction a as [|x a IH]; intros [|y b] E.
  - reflexivity.
  - apply (f_equal String.length) in E.
    rewrite append_nil, append_cons in E. simpl in E.
    rewrite length_append in E. lia.
  - apply (f_equal String.length) in E.
    rewrite append_nil, append_cons in E. simpl in E.
    rewrite length_append in E. lia.
  - rewrite !append_cons in E. injection E as -> E. f_equal. now apply IH.
Qed.

(** The text files of a session have names that differ. *)
Lemma text_writes_NoDup (texts : list TextData) :
  NoDup (map fst (text_writes texts)).
Proof.
  rewrite text_writes_names. unfold text_filename.
  destruct (Nat.eqb_spec (length texts) 1) as [H1 | H1].
  - rewrite H1. simpl. apply NoDup_singleton.
  - apply NoDup_fmap_2_strong.
    + intros i j _ _ E. apply fmt_02d_inj.
      apply (append_inj_r _ _ ".txt").
      change ("chunk_" +:+ fmt_02d i +:+ ".txt"
              = "chunk_" +:+ fmt_02d j +:+ ".txt") in E.
      now apply (inj (String.app "chunk_")) in E.
    + unfold range_1. apply NoDup_fmap_2; [apply Nat2Z.inj'|].
      apply NoDup_seq.
Qed.

Lemma written_app (a b : list event) : written (a ++ b) = written a ++ written b.
Proof. unfold written. apply omap_app. Qed.

Lemma written_wrote (d : string) (ws : list (string * content)) :
  written (map (fun w => Wrote d (fst w)) ws) = map (pair d) (map fst ws).
Proof. induction ws as [|w ws IH]; simpl; [reflexivity | now rewrite <- IH]. Qed.

Lemma written_made_session (e : Env) (out : string) (s : St) :
  written (st_trace (made_session e out s)) = written (st_trace s).
Proof.
  unfold made_session. destruct (is_dir _ _); [reflexivity|].
  simpl. rewrite written_app. simpl. apply app_nil_r.
Qed.

Lemma text_filename_not_metadata (count : nat) (i : Z) :
  text_filename count i <> "metadata.json".
Proof. unfold text_filename. destruct (Nat.eqb count 1); discriminate. Qed.

Lemma text_writes_not_metadata (texts : list TextData) :
  "metadata.json" ∉ map fst (text_writes texts).
Proof.
  unfold text_writes. rewrite map_map. simpl. intros H.
  apply list_elem_of_fmap in H as [it [E _]].
  symmetry in E. now apply text_filename_not_metadata in E.
Qed.

(** C6, as amended. For a non-empty list of texts the persister leaves
    each text in a file of the session directory: the one text in
    [script.txt], or, when there are several, the k-th text (counting
    from 1) in [chunk_NN.txt] with NN the number k in the format [02d].
    It writes these files in this order and then [metadata.json] (unless
    the rate is zero, when it dies before the metadata), and it returns
    the session directory.  The format [02d] gives every number from 1 to
    99 exactly two digits, and every number from 10 on all its digits and
    no more: from the hundredth chunk on the number has three digits or
    more. *)
Theorem save_output_file_names (e : Env) (out : string)
    (texts : list TextData) (style : string) (T : float) (wpm : Z) (s : St) :
  texts <> [] ->
  session_can_be_made (st_fs s) e out ->
  session_names_free (st_fs s) e out texts ->
  let sd := session_dir_of e out in
  let r := save_output e out texts style T wpm s in
  let name (k : nat) : string :=
    if Nat.eqb (length texts) 1 then "script.txt"
    else "chunk_" +:+ fmt_02d (Z.of_nat k + 1) +:+ ".txt" in
  (forall k t, texts !! k = Some t ->
     files (st_fs (snd r)) !! (sd, name k) = Some (Text (td_text t)))
  /\ written (st_trace (snd r)) =
       written (st_trace s)
       ++ map (fun k => (sd, name k)) (seq 0 (length texts))
       ++ (if wpm =? 0 then [] else [(sd, "metadata.json")])
  /\ (wpm <> 0 -> fst r = inl sd)
  /\ (forall i : Z, 1 <= i <= 99 -> fmt_02d i = two_digits i)
  /\ (forall i : Z, 10 <= i -> fmt_02d i = pretty i).
Proof.
  intros Hne Hcan Hfree sd r name. subst r.
  rewrite (save_output_run e out texts style T wpm s Hcan Hfree).
  assert (Hname : forall k, name k = text_filename (length texts) (Z.of_nat k + 1))
    by reflexivity.
  assert (Hnames : map (fun k => (sd, name k)) (seq 0 (length texts))
                   = map (pair sd) (map fst (text_writes texts))).
  { rewrite text_writes_names. unfold range_1. rewrite Nat2Z.id, !map_map.
    rewrite <- seq_shift, map_map. apply map_ext. intros k.
    rewrite Hname. do 2 f_equal. lia. }
  split; [|split; [|split; [|split]]].
  - intros k t Hk.
    assert (Hl : write_all sd (text_writes texts)
                   (files (st_fs (made_session e out s))) !! (sd, name k)
                 = Some (Text (td_text t))).
    { apply (write_all_lookup sd _ _ k).
      - apply text_writes_NoDup.
      - rewrite Hname. now apply text_writes_lookup. }
    destruct (wpm =? 0); simpl; [exact Hl|].
    rewrite lookup_insert_ne; [exact Hl|].
    intros E. injection E as E. rewrite Hname in E.
    symmetry in E. now apply text_filename_not_metadata in E.
  - rewrite Hnames.
    destruct (wpm =? 0); simpl;
      rewrite ?written_app, written_wrote, written_made_session; simpl;
      rewrite ?app_nil_r, <- ?app_assoc; reflexivity.
  - intros Hw. apply Z.eqb_neq in Hw. now rewrite Hw.
  - intros i Hi. now apply fmt_02d_two_digits.
  - intros i Hi. unfold fmt_02d.
    replace (i <? 10) with false by (symmetry; apply Z.ltb_ge; lia).
    now rewrite andb_false_r.
Qed.

End SessionNames.

Lemma save_output_file_names_witness :
  files (st_fs (snd (Generator.save_output
                       (Scenario.generator_env (Some "key"))
                       "/app/output"
                       [mkTextData (lit "one") 750 1;
                        mkTextData (lit "two") 750 1]
                       "conversational" (of_Q 10) 150 Scenario.start)))
    !! ("/app/output/session_20250101_120000", "chunk_02.txt")
  = Some (Text (lit "two")).
Proof.
  refine (proj1 (save_output_file_names
                   (Scenario.generator_env (Some "key")) "/app/output"
                   [mkTextData (lit "one") 750 1;
                    mkTextData (lit "two") 750 1]
                   "conversational" (of_Q 10) 150 Scenario.start _ _ _)
            1%nat (mkTextData (lit "two") 750 1) eq_refl).
  - discriminate.
  - right. split; vm_compute; reflexivity.
  - intros n Hn Hin. apply session_file_names_long in Hn.
    unfold Scenario.start, Scenario.fs_app in Hin.
    cbn [dirs st_fs] in Hin. apply elem_of_singleton in Hin.
    pose proof (join_longer
                  (session_dir_of (Scenario.generator_env (Some "key"))
                     "/app/output") n Hn) as Hl.
    rewrite Hin in Hl.
    vm_compute in Hl. lia.
Defined.

(** C6, as stated, fails from the hundredth chunk on: its file is
    [chunk_100.txt], with a number of three digits. *)
Lemma hundredth_chunk_name :
  let sd := "/app/output/session_20250101_120000" in
  fst hundred_texts_run = inl sd
  /\ written (st_trace (snd hundred_texts_run)) !! 99%nat
     = Some (sd, "chunk_100.txt")
  /\ files (st_fs (snd hundred_texts_run)) !! (sd, "chunk_100.txt")
     = Some (Text (lit "text"))
  /\ fmt_02d 100 = "100".
Proof. repeat split; vm_compute; reflexivity. Qed.

(** ** Saving into a session directory that is already there *)

Section ExistingSession.

Import Generator.

Lemma text_writes_content (texts : list TextData) (n : string) (c : content) :
  (n, c) ∈ text_writes texts -> exists t, t ∈ texts /\ c = Text (td_text t).
Proof.
  unfold text_writes. intros H.
  apply list_elem_of_fmap in H as [[i t] [E Hin]]. simpl in E.
  exists t. split; [|congruence].
  clear E. revert Hin. generalize 1. induction texts as [|t0 rest IH];
    intros k Hin; simpl in Hin.
  - now apply elem_of_nil in Hin.
  - apply elem_of_cons in Hin as [E | Hin].
    + injection E as _ ->. now left.
    + right. now apply (IH (k + 1)).
Qed.

(** C1, as amended. When the session directory is already there, the
    persister goes on and writes into it: the run returns the directory,
    [metadata.json] holds the new metadata, every text file named by this
    run holds one of the new texts, whatever these files held before, and
    every other file is as it was. *)
Theorem save_output_into_existing_session (e : Env) (out : string)
    (texts : list TextData) (style : string) (T : float) (wpm : Z) (s : St) :
  session_dir_of e out ∈ dirs (st_fs s) ->
  session_names_free (st_fs s) e out texts ->
  wpm <> 0 ->
  let sd := session_dir_of e out in
  exists s',
    save_output e out texts style T wpm s = (inl sd, s')
    /\ dirs (st_fs s') = dirs (st_fs s)
    /\ files (st_fs s') !! (sd, "metadata.json")
       = Some (MetadataJson (build_metadata (now_iso e) texts style T wpm))
    /\ (forall n, n ∈ map fst (text_writes texts) ->
          exists t, t ∈ texts
                    /\ files (st_fs s') !! (sd, n) = Some (Text (td_text t)))
    /\ (forall d n,
          (d = sd -> n ∉ map fst (text_writes texts) ++ ["metadata.json"]) ->
          files (st_fs s') !! (d, n) = files (st_fs s) !! (d, n)).
Proof.
  intros Hdir Hfree Hw sd.
  assert (Hmade : made_session e out s = s).
  { unfold made_session, is_dir. now rewrite bool_decide_eq_true_2. }
  exists (session_saved e out texts style T wpm s).
  rewrite (save_output_run e out texts style T wpm s (or_introl Hdir) Hfree).
  apply Z.eqb_neq in Hw. rewrite Hw.
  unfold session_saved, texts_saved. rewrite Hmade. simpl. fold sd.
  repeat split.
  - apply lookup_insert_eq.
  - intros n Hn.
    destruct (write_all_written sd (text_writes texts) (files (st_fs s)) n Hn)
      as [c [Hc Hl]].
    destruct (text_writes_content texts n c Hc) as [t [Ht ->]].
    exists t. split; [exact Ht|].
    rewrite lookup_insert_ne; [exact Hl|].
    intros E. injection E as <-. now apply (text_writes_not_metadata texts).
  - intros d n Hother.
    destruct (decide (d = sd)) as [-> | Hd].
    + specialize (Hother eq_refl).
      rewrite lookup_insert_ne.
      * apply write_all_other. intros w Hw' E. injection E as <-.
        apply Hother. apply elem_of_app. left.
        apply (list_elem_of_fmap_2 fst). exact Hw'.
      * intros E. injection E as <-. apply Hother.
        apply elem_of_app. right. now left.
    + rewrite lookup_insert_ne by congruence.
      apply write_all_other. intros w _ E. congruence.
Qed.

End ExistingSession.

(** C1, as stated, fails: a second run within the same second finds the
    session directory of the first, is not stopped, and replaces the
    script the first run wrote. *)
Lemma second_take_replaces_first :
  let sd := "/app/output/session_20250101_120000" in
  is_dir (st_fs after_first_take) sd = true
  /\ files (st_fs after_first_take) !! (sd, "script.txt")
     = Some (Text (lit "first take"))
  /\ fst second_take_run = inl sd
  /\ files (st_fs (snd second_take_run)) !! (sd, "script.txt")
     = Some (Text (lit "second take")).
Proof. repeat split; vm_compute; reflexivity. Qed.

Lemma save_output_into_existing_session_witness :
  exists s',
    second_take_run = (inl "/app/output/session_20250101_120000", s')
    /\ files (st_fs s') !! ("/app/output/session_20250101_120000",
                            "script.txt")
       = Some (Text (lit "second take")).
Proof.
  destruct (save_output_into_existing_session
              (Scenario.generator_env (Some "key")) "/app/output"
              second_take "conversational" (of_Q 1) 150 after_first_take)
    as [s' [Hrun [_ [_ [Htexts _]]]]].
  - assert (H : is_dir (st_fs after_first_take)
                  "/app/output/session_20250101_120000" = true)
      by (vm_compute; reflexivity).
    unfold is_dir in H. now apply bool_decide_eq_true_1 in H.
  - intros n Hn.
    change (dirs (st_fs after_first_take))
      with (dirs_with_session (Scenario.generator_env (Some "key"))
              "/app/output" (dirs (st_fs Scenario.start))).
    apply session_file_not_made; [now apply session_file_names_long in Hn|].
    apply session_file_names_long in Hn.
    unfold Scenario.start, Scenario.fs_app. cbn [dirs st_fs].
    intros Hin. apply elem_of_singleton in Hin.
    pose proof (join_longer
                  (session_dir_of (Scenario.generator_env (Some "key"))
                     "/app/output") n Hn) as Hl.
    rewrite Hin in Hl.
    vm_compute in Hl. lia.
  - discriminate.
  - exists s'. split; [exact Hrun|].
    destruct (Htexts "script.txt") as [t [Ht Hl]]; [now left|].
    apply list_elem_of_singleton in Ht. now subst t.
Defined.

(** ** The generation loop *)

Section Generation.

Import Generator.

Lemma int_part_nonneg (q : Q) : (0 <= q)%Q -> int_part q = Qfloor q.
Proof.
  intros H. unfold int_part, Qfloor. destruct q as [n d]. cbn [Qnum Qden].
  apply Z.quot_div_nonneg; [|lia].
  unfold Qle in H. cbn in H. lia.
Qed.

(** [int] of a finite double is the integer part of its value. *)
Lemma int_of_float_int_part (x : float) :
  is_finite x = true -> int_of_float x = inl (int_part (exact x)).
Proof.
  destruct x as [s | s | | s m e]; try discriminate; intros _.
  - reflexivity.
  - unfold int_of_float, exact, int_part. f_equal.
    destruct e as [|p|k].
    + destruct s; cbn [Qnum Qden Qopp inject_Z]; now rewrite Z.quot_1_r.
    + destruct s; cbn [Qnum Qden Qopp inject_Z]; now rewrite Z.quot_1_r.
    + rewrite Z.shiftr_div_pow2 by lia.
      assert (Hp : 0 < 2 ^ Z.pos k) by (apply Z.pow_pos_nonneg; lia).
      destruct s; cbn [Qnum Qden Qopp]; rewrite pow2_pos.
      * change (- Z.pos m) with (Z.opp (Z.pos m)).
        rewrite Z.quot_opp_l by lia.
        rewrite Z.quot_div_nonneg by lia. reflexivity.
      * rewrite Z.quot_div_nonneg by lia. reflexivity.
Qed.

Lemma calculate_word_count_finite (cd : float) (wpm : Z) (w : float) :
  float_of_int wpm = inl w -> is_finite (fmul cd w) = true ->
  calculate_word_count cd wpm = inl (int_part (exact (fmul cd w))).
Proof.
  intros Hw Hfin. unfold calculate_word_count, float_mul_int.
  rewrite Hw. simpl. now apply int_of_float_int_part.
Qed.

(** One pass of the loop, when the target can be computed, sends one
    request and touches no file. *)
Lemma generate_one_run (e : Env) (st : string) (cd : float) (w n : Z)
    (topic_hint : string) (i : Z) (s : St) (target : Z) :
  calculate_word_count cd w = inl target ->
  let r := generate_one e st cd w n topic_hint i s in
  st_fs (snd r) = st_fs s
  /\ st_trace (snd r)
     = st_trace s ++ [Remote (chunk_request target st i n topic_hint)]
  /\ fst r = match chunk_of e target st n topic_hint i with
             | Some t => inl t
             | None => inr (Uncaught APIError)
             end.
Proof.
  intros Ht. unfold generate_one. rewrite Ht.
  unfold generate_text_chunk, chunk_of, chunk_request, lift,
    bind, print, remote_call, ret.
  cbn [st_fs st_out st_trace].
  destruct (service e _); cbn; auto.
Qed.


Lemma generate_all_answered (e : Env) (st : string) (cd : float) (w n : Z)
    (topic_hint : string) (idxs : list Z) (acc : list TextData) (s : St)
    (target : Z) :
  calculate_word_count cd w = inl target ->
  service_answers e target st n topic_hint idxs ->
  exists ts s',
    generate_all e st cd w n topic_hint idxs acc s = (inl (acc ++ ts), s')
    /\ Forall2 (fun i t => chunk_of e target st n topic_hint i = Some t)
               idxs ts
    /\ st_fs s' = st_fs s
    /\ st_trace s'
       = st_trace s
         ++ map (fun i => Remote (chunk_request target st i n topic_hint))
                idxs.
Proof.
  intros Htarget. revert acc s.
  induction idxs as [|i rest IH]; intros acc s Hans; simpl.
  - exists [], s. rewrite !app_nil_r. repeat split. constructor.
  - pose proof (generate_one_run e st cd w n topic_hint i s target Htarget)
      as [Hfs1 [Htr1 Hres1]].
    assert (Hi : is_Some (chunk_of e target st n topic_hint i)).
    { unfold chunk_of. destruct (Hans i) as [raw Hraw]; [now left|].
      rewrite Hraw. now eexists. }
    destruct Hi as [t Ht]. rewrite Ht in Hres1.
    unfold bind.
    destruct (generate_one e st cd w n topic_hint i s) as [r1 s1].
    cbn [fst snd] in Hfs1, Htr1, Hres1. subst r1.
    destruct (IH (acc ++ [t]) s1) as [ts [s2 [Hall [Hts [Hfs2 Htr2]]]]].
    { intros j Hj. apply Hans. now right. }
    exists (t :: ts), s2. rewrite Hall, <- app_assoc. cbn [app].
    repeat split.
    + now constructor.
    + congruence.
    + rewrite Htr2, Htr1, <- app_assoc. reflexivity.
Qed.

Lemma generate_all_stops (e : Env) (st : string) (cd : float) (w n : Z)
    (topic_hint : string) (pre : list Z) (i : Z) (post : list Z)
    (acc : list TextData) (s : St) (target : Z) :
  calculate_word_count cd w = inl target ->
  service_answers e target st n topic_hint pre ->
  service e (chunk_request target st i n topic_hint) = None ->
  exists s',
    generate_all e st cd w n topic_hint (pre ++ i :: post) acc s
    = (inr (Uncaught APIError), s')
    /\ st_fs s' = st_fs s
    /\ st_trace s'
       = st_trace s
         ++ map (fun j => Remote (chunk_request target st j n topic_hint))
                (pre ++ [i]).
Proof.
  intros Htarget. revert acc s.
  induction pre as [|j rest IH]; intros acc s Hans Hfail; simpl.
  - pose proof (generate_one_run e st cd w n topic_hint i s target Htarget)
      as [Hfs1 [Htr1 Hres1]].
    unfold chunk_of in Hres1.
    rewrite Hfail in Hres1. unfold bind.
    destruct (generate_one e st cd w n topic_hint i s) as [r1 s1].
    cbn [fst snd] in Hfs1, Htr1, Hres1. subst r1.
    exists s1. auto.
  - pose proof (generate_one_run e st cd w n topic_hint j s target Htarget)
      as [Hfs1 [Htr1 Hres1]].
    assert (Hj : is_Some (chunk_of e target st n topic_hint j)).
    { unfold chunk_of. destruct (Hans j) as [raw Hraw]; [now left|].
      rewrite Hraw. now eexists. }
    destruct Hj as [t Ht]. rewrite Ht in Hres1.
    unfold bind.
    destruct (generate_one e st cd w n topic_hint j s) as [r1 s1].
    cbn [fst snd] in Hfs1, Htr1, Hres1. subst r1.
    destruct (IH (acc ++ [t]) s1) as [s2 [Hall [Hfs2 Htr2]]].
    { intros k Hk. apply Hans. now right. }
    { exact Hfail. }
    exists s2. rewrite Hall. repeat split.
    + congruence.
    + rewrite Htr2, Htr1, <- app_assoc. reflexivity.
Qed.


Lemma length_range_1 (n : Z) : length (range_1 n) = Z.to_nat n.
Proof. unfold range_1. now rewrite length_map, length_seq. Qed.

Lemma chunk_of_target (e : Env) (target : Z) (st : string) (n : Z)
    (topic_hint : string) (i : Z) (t : TextData) :
  chunk_of e target st n topic_hint i = Some t -> td_target_words t = target.
Proof.
  unfold chunk_of. destruct (service e _); [|discriminate].
  intros E. injection E as <-. reflexivity.
Qed.

(** C5, as amended. For a plan of [C >= 1] chunks over [T] minutes at
    rate [wpm], where [C] and [wpm] are within the range of the doubles,
    the duration of every chunk is the double [T / C]: the quotient rounded
    to the nearest double.  Every target is [int(T / C * wpm)] on doubles:
    the product of that duration and the rate, rounded to the nearest
    double, without its fraction; and when the service answers, the loop
    makes [C] chunks with that target.  The target is
    [floor((T / C) * wpm)] when the quotient and the product are exact
    and neither [T] nor [wpm] is negative. *)
Theorem chunk_targets (e : Env) (a : Args) (style : string) (wpm C : Z)
    (c w : float) (s : St) :
  1 <= C ->
  float_of_int C = inl c -> float_of_int wpm = inl w ->
  let T := duration a in
  let cd := fdiv T c in
  let target := int_part (exact (fmul cd w)) in
  is_finite (fmul cd w) = true ->
  service_answers e target style C (topic a) (range_1 C) ->
  chunk_duration_of a C s = (inl cd, s)
  /\ calculate_word_count cd wpm = inl target
  /\ (exists texts s',
        generate_all e style cd wpm C (topic a) (range_1 C) [] s
        = (inl texts, s')
        /\ length texts = Z.to_nat C
        /\ Forall (fun t => td_target_words t = target) texts)
  /\ ((exact cd == exact T / inject_Z C)%Q ->
      (exact (fmul cd w) == exact cd * inject_Z wpm)%Q ->
      (0 <= exact T)%Q -> 0 <= wpm ->
      target = Spec.target_words T C wpm).
Proof.
  intros HC Hc Hw T cd target Hfin Hans.
  assert (Htarget : calculate_word_count cd wpm = inl target)
    by now apply calculate_word_count_finite.
  split; [|split; [exact Htarget | split]].
  - unfold chunk_duration_of, float_div_int. rewrite Hc. simpl.
    unfold float_truediv.
    rewrite (float_of_int_not_zero C c) by (lia || assumption).
    reflexivity.
  - destruct (generate_all_answered e style cd wpm C (topic a)
                (range_1 C) [] s target Htarget Hans)
      as [ts [s' [Hall [Hts _]]]].
    exists ts, s'. split; [exact Hall | split].
    + rewrite <- (Forall2_length _ _ _ Hts). apply length_range_1.
    + clear Hall Hans. revert Hts. generalize (range_1 C). intros l Hts.
      induction Hts as [|i t is' ts' Hit _ IH]; constructor; [|exact IH].
      now apply chunk_of_target in Hit.
  - intros Hq Hp HT Hwpm. unfold target, Spec.target_words.
    assert (Heq : (exact (fmul cd w)
                   == exact T / inject_Z C * inject_Z wpm)%Q)
      by now rewrite Hp, Hq.
    rewrite int_part_nonneg.
    + now apply Qfloor_comp.
    + rewrite Heq. apply Qmult_le_0_compat.
      * apply Qle_shift_div_l; [unfold Qlt; simpl; lia|].
        now rewrite Qmult_0_l.
      * unfold Qle. simpl. lia.
Qed.

End Generation.

Lemma chunk_targets_witness :
  exists texts s',
    Generator.generate_all (Scenario.generator_env (Some "key"))
      "conversational" (of_Q 5) 150 2 "" (Generator.range_1 2) []
      Scenario.start = (inl texts, s')
    /\ Forall (fun t => td_target_words t = 750) texts.
Proof.
  destruct (chunk_targets (Scenario.generator_env (Some "key"))
              (Scenario.args_chunks 2) "conversational" 150 2
              (to_float 2) (to_float 150) Scenario.start)
    as [_ [_ [[texts [s' [Hall [_ Hts]]]] _]]].
  - lia.
  - reflexivity.
  - reflexivity.
  - reflexivity.
  - intros i _. simpl. eexists. reflexivity.
  - exists texts, s'. split; [exact Hall | exact Hts].
Defined.

(** C5, as stated, fails in two ways.  The quotient is rounded before it
    is multiplied: for [--duration 7 --chunks 5 --wpm 180] the double
    7 / 5 times 180 is just below 252, so every chunk gets the target 251,
    and the floor of (7 / 5) * 180 is 252.  And [int] rounds toward zero:
    [--duration -1 --chunks 3 --wpm 100] records the target -33 for each
    chunk, and the floor of -100 / 3 is -34. *)
Lemma chunk_targets_differ_from_floor :
  fst seven_minutes_run = inl tt
  /\ recorded_targets (st_fs (snd seven_minutes_run))
       "/app/output/session_20250101_120000" = [251; 251; 251; 251; 251]
  /\ Spec.target_words (of_Q 7) 5 180 = 252
  /\ fst negative_duration_run = inl tt
  /\ recorded_targets (st_fs (snd negative_duration_run))
       "/app/output/session_20250101_120000" = [-33; -33; -33]
  /\ Spec.target_words (of_Q (-1)) 3 100 = -34.
Proof. repeat split; vm_compute; reflexivity. Qed.

(** ** The analyzer's report *)

Section Report.

Import Analyzer.

Lemma process_file_ok (e : Env) (dir name : string) (s : St) (d : float)
    (t : text) (w : num) :
  sample e dir name = Some (d, t, w) ->
  exists s',
    process_file e dir name s = (inl (file_result name d t w), s')
    /\ st_fs s' = st_fs s.
Proof.
  unfold sample, process_file, get_audio_duration_seconds, transcribe_audio.
  destruct (audio_length_ms e (join dir name)) as [ms|]; [|discriminate].
  destruct (int_div_float ms (to_float 1000)) as [d0|]; [|discriminate].
  destruct (service e (Upload (join dir name))) as [uri|] eqn:Hup;
    [|discriminate].
  destruct (service e (transcribe_request uri)) as [response|] eqn:Htr;
    [|discriminate].
  destruct (calculate_wpm (count_words (py_strip response)) d0)
    as [w0|] eqn:Hw; [|discriminate].
  intros E. injection E as <- <- <-.
  unfold bind, print, ret, remote_call, lift. simpl. rewrite Hup.
  unfold transcribe_request in Htr. simpl. rewrite Htr. simpl.
  rewrite Hw. eexists. split; reflexivity.
Qed.

Lemma process_files_ok (e : Env) (dir : string) (names : list string)
    (results acc : list FileResult) (s : St) :
  Forall2 (measured e dir) names results ->
  exists s',
    process_files e dir names acc s = (inl (acc ++ results), s')
    /\ st_fs s' = st_fs s.
Proof.
  intros H. revert acc s.
  induction H as [|name r names results [d [t [w [Hs ->]]]] _ IH];
    intros acc s; simpl.
  - exists s. now rewrite app_nil_r.
  - destruct (process_file_ok e dir name s d t w Hs) as [s1 [Hone Hfs1]].
    destruct (IH (acc ++ [file_result name d t w]) s1) as [s2 [Hall Hfs2]].
    exists s2. unfold bind. rewrite Hone, Hall, <- app_assoc.
    split; [reflexivity | congruence].
Qed.

Lemma mkdir_exist_ok_ready (d n : string) (s : St) :
  (join d n ∈ dirs (st_fs s)
   \/ (is_file (st_fs s) d n = false /\ d ∈ dirs (st_fs s))) ->
  exists s',
    mkdir_exist_ok d n s = (inl tt, s')
    /\ files (st_fs s') = files (st_fs s)
    /\ join d n ∈ dirs (st_fs s')
    /\ (forall p, p ∉ dirs (st_fs s) -> p <> join d n -> p ∉ dirs (st_fs s')).
Proof.
  intros H. unfold mkdir_exist_ok, bind, get_fs.
  destruct (is_dir (st_fs s) (join d n)) eqn:Hdir.
  - exists s. unfold is_dir in Hdir. apply bool_decide_eq_true_1 in Hdir.
    repeat split; auto.
  - destruct H as [Hin | [Hfile Hd]].
    + unfold is_dir in Hdir. now rewrite bool_decide_eq_true_2 in Hdir.
    + rewrite Hfile. unfold is_dir. rewrite bool_decide_eq_true_2 by exact Hd.
      eexists. split; [reflexivity|]. simpl. repeat split.
      * apply elem_of_union. left. now apply elem_of_singleton.
      * intros p Hp Hne. rewrite elem_of_union, elem_of_singleton.
        intros [E | E]; [now apply Hne | now apply Hp].
Qed.

(** The mean of a list that is not empty is a number. *)
Lemma average_wpm_ok (e : Env) (results : list FileResult) :
  results <> [] -> exists m, average_wpm e results = inl m.
Proof.
  intros Hne. unfold average_wpm, num_div_len.
  destruct results as [|r rest]; [contradiction|]. simpl. now eexists.
Qed.

Lemma report_name_long : long_name "wpm-analysis.json".
Proof. split; [reflexivity | simpl; lia]. Qed.

(** A run that finds recordings, measures them all and can write its
    report ends normally and leaves the report of these results. *)
Lemma main_report (e : Env) (s : St) (results : list FileResult) :
  str_falsy (api_key e) = false ->
  measure_dir_exists e = true ->
  glob_mp3 e <> [] ->
  Forall2 (measured e (join (script_dir e) "wpm-measure")) (glob_mp3 e)
          results ->
  user_context_ready (st_fs s) (script_dir e) ->
  exists s' m,
    main e s = (inl tt, s')
    /\ average_wpm e results = inl m
    /\ report_of s' (script_dir e) = Some (build_report e results m).
Proof.
  intros Hkey Hdir Hglob Hres [Hmk Hfree].
  assert (Hne : results <> []).
  { intros ->. apply Forall2_nil_inv_r in Hres. contradiction. }
  destruct (average_wpm_ok e results Hne) as [m Hm].
  unfold main.
  rewrite Hkey, Hdir. simpl.
  destruct (glob_mp3 e) as [|n0 names] eqn:Hg; [contradiction|].
  unfold bind at 1. unfold ret at 1.
  unfold bind at 1. unfold ret at 1.
  unfold bind at 1. unfold ret at 1.
  unfold bind at 1. unfold print at 1.
  unfold bind at 1.
  match goal with
  | |- context [process_files e ?dir ?ns [] ?st] =>
      destruct (process_files_ok e dir ns results [] st Hres)
        as [s1 [Hrun Hfs1]]
  end.
  rewrite Hrun. simpl in Hfs1. simpl app.
  unfold bind at 1. rewrite Hm. unfold lift at 1. unfold ret at 1.
  unfold bind at 1.
  destruct (mkdir_exist_ok_ready (script_dir e) "user-context" s1)
    as [s2 [Hmkdir [Hfiles [Hin Hout]]]].
  { now rewrite Hfs1. }
  rewrite Hmkdir. unfold bind at 1.
  rewrite write_file_ok; [| | exact Hin].
  - eexists. exists m. split; [reflexivity|]. split; [reflexivity|].
    unfold report_of. simpl. now rewrite lookup_insert_eq.
  - apply Hout; [now rewrite Hfs1 |].
    apply join_neq_left. apply report_name_long.
Qed.

End Report.

Section ReportAverage.

Import Analyzer.

(** C2, as amended. When the analyzer has measured a non-empty list of
    recordings and written its report, [average_wpm] is the unweighted
    mean of the per-file rates as the report records them, rounded to one
    decimal place: their sum as [sum] adds doubles, divided by their
    number.  Each recorded rate is the file's words per minute, from its
    word count and its duration as [calculate_wpm] gives it, already
    rounded to one decimal place. *)
Theorem report_average_wpm (e : Env) (s : St) (results : list FileResult) :
  str_falsy (api_key e) = false ->
  measure_dir_exists e = true ->
  glob_mp3 e <> [] ->
  Forall2 (measured e (join (script_dir e) "wpm-measure")) (glob_mp3 e)
          results ->
  user_context_ready (st_fs s) (script_dir e) ->
  exists s' r,
    main e s = (inl tt, s')
    /\ report_of s' (script_dir e) = Some r
    /\ rp_files r = results
    /\ rp_average_wpm r
       = py_round
           (fdiv (to_double (py_sum (neumaier_sum e)
                               (map fr_wpm (rp_files r))))
                 (to_float (Z.of_nat (length (rp_files r)))))
           1
    /\ Forall2 (fun name f =>
                  exists d t w,
                    sample e (join (script_dir e) "wpm-measure") name
                    = Some (d, t, w)
                    /\ fr_word_count f = count_words t
                    /\ calculate_wpm (fr_word_count f) d = inl w
                    /\ fr_wpm f = num_round w 1)
               (glob_mp3 e) (rp_files r).
Proof.
  intros Hkey Hdir Hglob Hres Hready.
  destruct (main_report e s results Hkey Hdir Hglob Hres Hready)
    as [s' [m [Hmain [Hm Hrep]]]].
  exists s', (build_report e results m).
  split; [exact Hmain|]. split; [exact Hrep|]. split; [reflexivity|].
  split.
  - cbn [rp_average_wpm rp_files build_report]. f_equal.
    unfold average_wpm, num_div_len in Hm.
    destruct results as [|r0 rest] eqn:Hr.
    + apply Forall2_nil_inv_r in Hres. contradiction.
    + rewrite <- Hr in *. clear Hr.
      destruct (length results) as [|k] eqn:Hlen; [discriminate|].
      injection Hm as <-.
      destruct (py_sum (neumaier_sum e) (map fr_wpm results));
        [|reflexivity].
      cbn [to_double]. rewrite zero_div_count. reflexivity.
  - cbn [rp_files build_report]. clear -Hres.
    induction Hres as [|name r names results [d [t [w [Hs ->]]]] _ IH];
      constructor; [|exact IH].
    exists d, t, w. split; [exact Hs|]. split; [reflexivity|].
    split; [|reflexivity].
    cbn [fr_word_count file_result]. unfold sample in Hs.
    destruct (audio_length_ms e _); [|discriminate].
    destruct (int_div_float _ _); [|discriminate].
    destruct (service e (Upload _)); [|discriminate].
    destruct (service e (transcribe_request _)); [|discriminate].
    destruct (calculate_wpm _ _) eqn:Hw; [|discriminate].
    injection Hs as <- <- <-. exact Hw.
Qed.

End ReportAverage.

Lemma report_average_wpm_witness :
  exists s' r,
    Analyzer.main (Scenario.analyzer_env (Some "key")) Scenario.start
    = (inl tt, s')
    /\ report_of s' "/app" = Some r
    /\ rp_average_wpm r = of_Q 3.8
    /\ py_round (weighted_wpm [(5%Z, of_Q 60); (5%Z, of_Q 120)]) 1
       = of_Q 3.3.
Proof.
  destruct (report_average_wpm (Scenario.analyzer_env (Some "key"))
              Scenario.start two_clips_results)
    as [s' [r [Hmain [Hrep [Hfiles [Havg _]]]]]].
  - reflexivity.
  - reflexivity.
  - discriminate.
  - repeat constructor; eexists _, _, _; split; vm_compute; reflexivity.
  - split.
    + right. split; [vm_compute; reflexivity|].
      unfold Scenario.start, Scenario.fs_app. cbn [dirs st_fs].
      now apply elem_of_singleton.
    + unfold Scenario.start, Scenario.fs_app. cbn [dirs st_fs].
      intros Hin. apply elem_of_singleton in Hin. discriminate Hin.
  - exists s', r. rewrite Havg, Hfiles.
    split; [exact Hmain|]. split; [exact Hrep|].
    split; vm_compute; reflexivity.
Defined.

(** C2, as stated, fails: for three recordings of 4.5 seconds with one,
    one and four words the report says 26.6, the mean of the recorded
    13.3, 13.3 and 53.3, while the mean of the rates as computed, 13.33..,
    13.33.. and 53.33.., rounds to 26.7.  This is so whichever way [sum]
    adds: plainly, or with its compensation. *)
Lemma three_clips_average_differs :
  fst (three_clips_run false) = inl tt
  /\ three_clips_average false = Some (of_Q 26.6)
  /\ spec_average_wpm false three_clips_rates = inl (of_Q 26.7)
  /\ fst (three_clips_run true) = inl tt
  /\ three_clips_average true = Some (of_Q 26.6)
  /\ spec_average_wpm true three_clips_rates = inl (of_Q 26.7)
  /\ of_Q 26.6 <> of_Q 26.7.
Proof.
  repeat split; try (vm_compute; reflexivity).
  vm_compute. discriminate.
Qed.

(** * Further properties of the two scripts *)

(** ** Words and whitespace *)

Section Words.

Lemma all_space_app (a b : text) :
  all_space (a ++ b) = all_space a && all_space b.
Proof. apply forallb_app. Qed.

Lemma all_space_rev (a : text) : all_space (rev a) = all_space a.
Proof.
  induction a as [|x a IH]; [reflexivity|].
  simpl. rewrite all_space_app, IH. simpl.
  rewrite andb_true_r. apply andb_comm.
Qed.

Lemma existsb_rev {A} (f : A -> bool) (l : list A) :
  existsb f (rev l) = existsb f l.
Proof.
  induction l as [|x l IH]; simpl; [reflexivity|].
  rewrite existsb_app, IH. simpl. rewrite orb_false_r. apply orb_comm.
Qed.

Lemma lstrip_decomp (s : text) :
  exists w, all_space w = true /\ s = w ++ lstrip s.
Proof.
  induction s as [|c s [w [Hw E]]]; simpl.
  - exists []. split; reflexivity.
  - destruct (is_space c) eqn:Hc.
    + exists (c :: w). simpl. rewrite Hc, Hw. split; [reflexivity|].
      now rewrite <- E.
    + exists []. split; reflexivity.
Qed.

Lemma rstrip_decomp (s : text) :
  exists w, all_space w = true /\ s = rstrip s ++ w.
Proof.
  unfold rstrip. destruct (lstrip_decomp (rev s)) as [w [Hw E]].
  exists (rev w). split; [now rewrite all_space_rev|].
  rewrite <- rev_app_distr, <- E. symmetry. apply rev_involutive.
Qed.

Lemma split_ws_all_space (cur : list N) (w : text) :
  all_space w = true ->
  split_ws cur w = split_ws cur [].
Proof.
  revert cur. induction w as [|c w IH]; intros cur H; simpl in *.
  - reflexivity.
  - apply andb_true_iff in H as [Hc Hw]. rewrite Hc.
    rewrite (IH [] Hw). simpl. now rewrite app_nil_r.
Qed.

Lemma split_ws_app_space (cur : list N) (s w : text) :
  all_space w = true -> split_ws cur (s ++ w) = split_ws cur s.
Proof.
  intros Hw. revert cur. induction s as [|c s IH]; intros cur.
  - now apply split_ws_all_space.
  - simpl. destruct (is_space c); [now rewrite IH | apply IH].
Qed.

Lemma split_ws_space_app (w s : text) :
  all_space w = true -> split_ws [] (w ++ s) = split_ws [] s.
Proof.
  induction w as [|c w IH]; intros H; [reflexivity|].
  simpl in *.
  apply andb_true_iff in H as [Hc Hw]. rewrite Hc. simpl. now apply IH.
Qed.

Lemma py_split_strip (s : text) : py_split (py_strip s) = py_split s.
Proof.
  unfold py_split, py_strip.
  destruct (lstrip_decomp s) as [w1 [H1 E1]].
  destruct (rstrip_decomp (lstrip s)) as [w2 [H2 E2]].
  rewrite E1 at 2. rewrite split_ws_space_app by exact H1.
  rewrite E2 at 2. now rewrite split_ws_app_space.
Qed.

Lemma split_ws_words (cur : list N) (s : text) :
  existsb is_space cur = false ->
  Forall (fun w => w <> [] /\ has_space w = false) (split_ws cur s).
Proof.
  assert (Hflush : forall cur, existsb is_space cur = false ->
            Forall (fun w : text => w <> [] /\ has_space w = false)
              (match cur with
               | [] => []
               | _ => [rev cur]
               end)).
  { intros [|c l] H; constructor; [|constructor]. split.
    - intros E. apply (f_equal (@length N)) in E. rewrite length_rev in E.
      discriminate E.
    - unfold has_space. now rewrite existsb_rev. }
  revert cur. induction s as [|c s IH]; intros cur Hcur; simpl.
  - now apply Hflush.
  - destruct (is_space c) eqn:Hc.
    + apply Forall_app. split; [now apply Hflush | now apply IH].
    + apply IH. simpl. now rewrite Hc.
Qed.

Lemma lstrip_no_leading (s : text) : starts_with_space (lstrip s) = false.
Proof.
  induction s as [|c s IH]; simpl; [reflexivity|].
  destruct (is_space c) eqn:Hc; [exact IH | simpl; exact Hc].
Qed.

Lemma rstrip_no_trailing (s : text) : ends_with_space (rstrip s) = false.
Proof.
  unfold ends_with_space, rstrip. rewrite rev_involutive.
  apply lstrip_no_leading.
Qed.

Lemma rstrip_keeps_start (t : text) :
  starts_with_space t = false -> starts_with_space (rstrip t) = false.
Proof.
  intros H. destruct (rstrip_decomp t) as [w [_ E]].
  destruct (rstrip t) as [|c r]; [reflexivity|].
  rewrite E in H. exact H.
Qed.

Lemma lstrip_fixed (t : text) : starts_with_space t = false -> lstrip t = t.
Proof. destruct t as [|c r]; simpl; [reflexivity|]. now intros ->. Qed.

Lemma rstrip_fixed (t : text) : ends_with_space t = false -> rstrip t = t.
Proof.
  intros H. unfold rstrip. rewrite lstrip_fixed by exact H.
  apply rev_involutive.
Qed.

(** What [strip] leaves: no whitespace at either end, nothing more to
    strip, and the same words. *)
Lemma py_strip_spec (s : text) :
  starts_with_space (py_strip s) = false
  /\ ends_with_space (py_strip s) = false
  /\ py_strip (py_strip s) = py_strip s
  /\ py_split (py_strip s) = py_split s.
Proof.
  assert (H1 : starts_with_space (py_strip s) = false)
    by (apply rstrip_keeps_start, lstrip_no_leading).
  assert (H2 : ends_with_space (py_strip s) = false)
    by apply rstrip_no_trailing.
  repeat split; try assumption.
  - unfold py_strip at 1. rewrite (lstrip_fixed _ H1). now apply rstrip_fixed.
  - apply py_split_strip.
Qed.

(** The words of a text are not empty and hold no whitespace. *)
Lemma py_split_words (s : text) :
  Forall (fun w => w <> [] /\ has_space w = false) (py_split s)
  /\ (all_space s = true -> py_split s = []).
Proof.
  split.
  - now apply split_ws_words.
  - intros H. unfold py_split. now rewrite split_ws_all_space.
Qed.

Lemma split_ws_join (cur : list N) (a w b : text) :
  w <> [] -> all_space w = true ->
  split_ws cur (a ++ w ++ b) = split_ws cur a ++ split_ws [] b.
Proof.
  intros Hne Hw. revert cur. induction a as [|c a IH]; intros cur.
  - destruct w as [|x w]; [contradiction|].
    simpl in *.
    apply andb_true_iff in Hw as [Hx Hw]. rewrite Hx.
    now rewrite split_ws_space_app.
  - simpl. destruct (is_space c).
    + rewrite IH. now rewrite <- app_assoc.
    + apply IH.
Qed.

End Words.

(** ** The two remote calls *)

Section TextCalls.

(** X5. [count_words]: a text of whitespace only has no words; stripping
    a text does not change its count; no word is empty or holds
    whitespace; and two texts joined by whitespace have the words of
    both.  Whitespace is what [str.isspace] says of a character, the
    no-break space and the line separator among them. *)
Theorem count_words_spec (s : text) :
  (all_space s = true -> Analyzer.count_words s = 0)
  /\ Analyzer.count_words (py_strip s) = Analyzer.count_words s
  /\ Forall (fun w => w <> [] /\ has_space w = false) (py_split s)
  /\ (forall w t, w <> [] -> all_space w = true ->
        Analyzer.count_words (s ++ w ++ t)
        = Analyzer.count_words s + Analyzer.count_words t)
  /\ is_space 160 = true /\ is_space 8232 = true /\ is_space 32 = true
  /\ is_space 8203 = false.
Proof.
  unfold Analyzer.count_words.
  split; [|split; [|split; [|split]]].
  - intros H. now rewrite (proj2 (py_split_words s) H).
  - now rewrite py_split_strip.
  - apply py_split_words.
  - intros w t Hne Hw. unfold py_split.
    rewrite (split_ws_join [] s w t Hne Hw), length_app. lia.
  - repeat split.
Qed.

(** X4. [generate_text_chunk] sends exactly one request, the prompt of
    its arguments to the model gemini-2.0-flash.  When the service answers,
    it returns the answer stripped: no whitespace at either end, and the
    same number of words as the raw answer.  When the service fails, the
    failure is not caught. *)
Theorem generate_text_chunk_result (e : Generator.Env) (target : Z)
    (style : string) (i n : Z) (topic_hint : string) (s : St) :
  let request := chunk_request target style i n topic_hint in
  let s' := mkSt (st_fs s) (st_out s) (st_trace s ++ [Remote request]) in
  match Generator.service e request with
  | Some raw =>
      Generator.generate_text_chunk e target style i n topic_hint s
      = (inl (py_strip raw), s')
      /\ starts_with_space (py_strip raw) = false
      /\ ends_with_space (py_strip raw) = false
      /\ Generator.word_count (py_strip raw) = Generator.word_count raw
  | None =>
      Generator.generate_text_chunk e target style i n topic_hint s
      = (inr (Uncaught APIError), s')
  end.
Proof.
  intros request s'. unfold Generator.generate_text_chunk, bind, remote_call.
  fold (chunk_request target style i n topic_hint). fold request.
  destruct (Generator.service e request) as [raw|]; [|reflexivity].
  destruct (py_strip_spec raw) as [H1 [H2 [_ H4]]].
  repeat split; try assumption.
  unfold Generator.word_count. now rewrite H4.
Qed.

(** X6. [transcribe_audio] uploads the recording, then asks for the
    transcription of what the upload returned.  A failed upload ends it
    before any transcription is asked for; a failed transcription is not
    caught; otherwise it returns the answer stripped, with the word count
    of the raw answer. *)
Theorem transcribe_audio_calls (e : Analyzer.Env) (dir name : string) (s : St) :
  let path := join dir name in
  let out1 := st_out s ++ [[Lit "  Uploading "; Lit name; Lit "..."]] in
  match Analyzer.service e (Upload path) with
  | None =>
      Analyzer.transcribe_audio e dir name s
      = (inr (Uncaught APIError),
         mkSt (st_fs s) out1 (st_trace s ++ [Remote (Upload path)]))
  | Some uri =>
      let s2 := mkSt (st_fs s) (out1 ++ [[Lit "  Transcribing..."]])
                  (st_trace s ++ [Remote (Upload path);
                                  Remote (transcribe_request uri)]) in
      match Analyzer.service e (transcribe_request uri) with
      | None => Analyzer.transcribe_audio e dir name s
                = (inr (Uncaught APIError), s2)
      | Some raw =>
          Analyzer.transcribe_audio e dir name s = (inl (py_strip raw), s2)
          /\ Analyzer.count_words (py_strip raw) = Analyzer.count_words raw
      end
  end.
Proof.
  intros path out1. unfold Analyzer.transcribe_audio, bind, print, remote_call.
  cbn [st_fs st_out st_trace]. fold path. subst out1.
  destruct (Analyzer.service e (Upload path)) as [uri|]; [|reflexivity].
  cbn [st_fs st_out st_trace]. fold (transcribe_request uri).
  rewrite <- !app_assoc. cbn [app].
  destruct (Analyzer.service e (transcribe_request uri)) as [raw|];
    [|reflexivity].
  split; [reflexivity|].
  unfold Analyzer.count_words. now rewrite py_split_strip.
Qed.

End TextCalls.

(** ** What the analyzer's run touches *)

Section AnalyzerRuns.

Import Analyzer.

(** One recording: the requests made for it, and how the pass ends. *)
Lemma process_file_run (e : Env) (dir name : string) (s : St) :
  let r := process_file e dir name s in
  st_fs (snd r) = st_fs s
  /\ st_trace (snd r) = st_trace s ++ map Remote (attempted e dir name)
  /\ match sample e dir name with
     | Some (d, t, w) => fst r = inl (file_result name d t w)
     | None => exists x, fst r = inr (Uncaught x)
     end.
Proof.
  unfold process_file, get_audio_duration_seconds, transcribe_audio,
    attempted, sample, transcribe_request, bind, print, ret, raise, lift,
    remote_call.
  cbn [st_fs st_out st_trace].
  destruct (audio_length_ms e (join dir name)).
  2: { cbn. rewrite app_nil_r. repeat split. now eexists. }
  destruct (int_div_float _ _).
  2: { cbn. rewrite app_nil_r. repeat split. now eexists. }
  cbn [st_fs st_out st_trace ret].
  destruct (service e (Upload (join dir name))).
  2: { cbn. repeat split. now eexists. }
  cbn [st_fs st_out st_trace].
  destruct (service e _).
  2: { cbn. rewrite <- app_assoc. repeat split. now eexists. }
  cbn [st_fs st_out st_trace].
  destruct (calculate_wpm _ _); cbn; rewrite <- app_assoc; repeat split.
  now eexists.
Qed.

Lemma process_file_fs (e : Env) (dir name : string) (s : St) :
  st_fs (snd (process_file e dir name s)) = st_fs s.
Proof. apply process_file_run. Qed.

Lemma process_files_fs (e : Env) (dir : string) (names : list string)
    (acc : list FileResult) (s : St) :
  st_fs (snd (process_files e dir names acc s)) = st_fs s.
Proof.
  revert acc s. induction names as [|name rest IH]; intros acc s; simpl.
  - reflexivity.
  - unfold bind. pose proof (process_file_fs e dir name s) as H.
    destruct (process_file e dir name s) as [[r | stop] s1]; simpl in *.
    + now rewrite IH.
    + exact H.
Qed.

Lemma mkdir_exist_ok_frame (d n : string) (s : St) :
  files (st_fs (snd (mkdir_exist_ok d n s))) = files (st_fs s)
  /\ dirs (st_fs s) ⊆ dirs (st_fs (snd (mkdir_exist_ok d n s))).
Proof.
  unfold mkdir_exist_ok, bind, get_fs, ret, raise, put_fs, emit.
  cbn [st_fs st_out st_trace].
  destruct (is_dir (st_fs s) (join d n)); [split; reflexivity|].
  destruct (is_file (st_fs s) d n); [split; reflexivity|].
  destruct (is_dir (st_fs s) d).
  - cbn. split; [reflexivity | set_solver].
  - destruct (is_file_path (st_fs s) d); split; reflexivity.
Qed.

(** Writing a file either fails and changes nothing, or changes that file
    and nothing else. *)
Lemma write_file_frame (d n : string) (c : content) (s : St) :
  let r := write_file d n c s in
  dirs (st_fs (snd r)) = dirs (st_fs s)
  /\ (fst r <> inl tt -> files (st_fs (snd r)) = files (st_fs s))
  /\ (forall k, k <> (d, n) ->
        files (st_fs (snd r)) !! k = files (st_fs s) !! k)
  /\ (forall k, is_Some (files (st_fs s) !! k) ->
        is_Some (files (st_fs (snd r)) !! k)).
Proof.
  unfold write_file, bind, get_fs, ret, raise, put_fs, emit.
  cbn [st_fs st_out st_trace].
  destruct (is_dir (st_fs s) (join d n)); [cbn; auto|].
  destruct (is_dir (st_fs s) d).
  - cbn. repeat split.
    + intros H. now contradiction H.
    + intros k Hk. now apply lookup_insert_ne.
    + intros k Hk. destruct (decide (k = (d, n))) as [-> | Hne].
      * rewrite lookup_insert_eq. now eexists.
      * now rewrite lookup_insert_ne.
  - destruct (is_file_path (st_fs s) d); cbn; auto.
Qed.

End AnalyzerRuns.

Section AnalyzerOutcomes.

Import Analyzer.

(** X7. With the key set, a run of the analyzer that finds no
    [wpm-measure] directory, or no [*.mp3] in it, prints one error line
    and exits with status 1: nothing is uploaded, nothing written. *)
Theorem analyzer_missing_input (e : Env) (s : St) :
  str_falsy (api_key e) = false ->
  measure_dir_exists e = false \/ glob_mp3 e = [] ->
  let r := run_script (main e) s in
  fst r = 1 /\ st_fs (snd r) = st_fs s /\ st_trace (snd r) = st_trace s
  /\ length (st_out (snd r)) = S (length (st_out s)).
Proof.
  intros Hkey Hin. unfold run_script, main. rewrite Hkey.
  destruct (measure_dir_exists e).
  - destruct Hin as [Hd | Hg]; [discriminate|]. rewrite Hg. cbn.
    rewrite length_app. cbn. repeat split. lia.
  - cbn. rewrite length_app. cbn. repeat split. lia.
Qed.

Lemma analyzer_main_frame (e : Env) (s : St) (r : unit + Stop) (s' : St) :
  main e s = (r, s') ->
  (forall k, k <> (join (script_dir e) "user-context", "wpm-analysis.json") ->
     files (st_fs s') !! k = files (st_fs s) !! k)
  /\ (r <> inl tt -> files (st_fs s') = files (st_fs s))
  /\ dirs (st_fs s) ⊆ dirs (st_fs s')
  /\ (forall k, is_Some (files (st_fs s) !! k) ->
        is_Some (files (st_fs s') !! k)).
Proof.
  unfold main.
  destruct (str_falsy (api_key e));
    [cbn; intros H; injection H as <- <-; cbn; auto|].
  destruct (measure_dir_exists e);
    [|cbn; intros H; injection H as <- <-; cbn; auto].
  destruct (glob_mp3 e) as [|n0 names];
    [cbn; intros H; injection H as <- <-; cbn; auto|].
  cbn [negb].
  unfold bind at 1. unfold ret at 1.
  unfold bind at 1. unfold ret at 1.
  unfold bind at 1. unfold ret at 1.
  unfold bind at 1. unfold print at 1.
  unfold bind at 1.
  match goal with
  | |- context [process_files e ?dir ?ns [] ?st] =>
      pose proof (process_files_fs e dir ns [] st) as Hpf;
      destruct (process_files e dir ns [] st) as [[results | stop] s1]
  end; cbn [fst snd st_fs] in Hpf;
    [|intros H; injection H as <- <-; rewrite Hpf; auto].
  unfold bind at 1.
  destruct (average_wpm e results) as [m | x]; unfold lift at 1;
    [unfold ret at 1
    |unfold raise at 1; intros H; injection H as <- <-; rewrite Hpf; auto].
  unfold bind at 1.
  pose proof (mkdir_exist_ok_frame (script_dir e) "user-context" s1)
    as [Hmf Hmd].
  destruct (mkdir_exist_ok (script_dir e) "user-context" s1)
    as [[[] | stop] s2]; cbn [fst snd] in Hmf, Hmd;
    rewrite Hpf in Hmf, Hmd;
    [|intros H; injection H as <- <-; rewrite Hmf; repeat split; auto].
  unfold bind at 1.
  pose proof (write_file_frame (join (script_dir e) "user-context")
                "wpm-analysis.json"
                (ReportJson (build_report e results m)) s2)
    as [Hwd [Hwn [Hwo Hwk]]].
  destruct (write_file _ _ _ s2) as [[[] | stop] s3]; cbn [fst snd] in *.
  - unfold bind, print. cbn [fst snd st_fs st_out st_trace].
    intros H. injection H as <- <-. cbn [st_fs].
    rewrite Hwd. repeat split.
    + intros k Hk. rewrite (Hwo k Hk). now rewrite Hmf.
    + intros H. now contradiction H.
    + exact Hmd.
    + intros k Hk. apply Hwk. now rewrite Hmf.
  - intros H. injection H as <- <-.
    rewrite Hwd. rewrite Hwn by discriminate. rewrite Hmf.
    repeat split; auto.
Qed.

(** X8. Whatever happens in a run of the analyzer, the only file it can
    change is [user-context/wpm-analysis.json]; a run that does not end
    normally changes no file at all; and no run removes a file or a
    directory. *)
Theorem analyzer_writes_only_its_report (e : Env) (s : St) :
  let r := main e s in
  let report := (join (script_dir e) "user-context", "wpm-analysis.json") in
  (forall k, k <> report -> files (st_fs (snd r)) !! k = files (st_fs s) !! k)
  /\ (fst r <> inl tt -> files (st_fs (snd r)) = files (st_fs s))
  /\ dirs (st_fs s) ⊆ dirs (st_fs (snd r))
  /\ (forall k, is_Some (files (st_fs s) !! k) ->
        is_Some (files (st_fs (snd r)) !! k)).
Proof.
  intros r report. subst r report.
  destruct (main e s) as [r s'] eqn:H.
  exact (analyzer_main_frame e s r s' H).
Qed.

End AnalyzerOutcomes.

(** ** Failures in the analyzer's loop *)

Section AnalyzerFailures.

Import Analyzer.

Lemma process_files_stops (e : Env) (dir : string) (pre : list string)
    (name : string) (post : list string) (acc : list FileResult) (s : St) :
  (forall p, p ∈ pre -> is_Some (sample e dir p)) ->
  sample e dir name = None ->
  exists x s',
    process_files e dir (pre ++ name :: post) acc s = (inr (Uncaught x), s')
    /\ st_fs s' = st_fs s
    /\ st_trace s'
       = st_trace s
         ++ map Remote (concat (map (attempted e dir) (pre ++ [name]))).
Proof.
  revert acc s. induction pre as [|p rest IH]; intros acc s Hpre Hfail; simpl.
  - pose proof (process_file_run e dir name s) as [Hfs [Htr Hres]].
    rewrite Hfail in Hres. destruct Hres as [x Hx]. unfold bind.
    destruct (process_file e dir name s) as [r1 s1].
    cbn [fst snd] in *. subst r1. exists x, s1.
    rewrite app_nil_r. auto.
  - pose proof (process_file_run e dir p s) as [Hfs [Htr Hres]].
    destruct (Hpre p) as [[[d t] w] Hs]; [now left|]. rewrite Hs in Hres.
    unfold bind. destruct (process_file e dir p s) as [r1 s1].
    cbn [fst snd] in *. subst r1.
    destruct (IH (acc ++ [file_result p d t w]) s1)
      as [x [s2 [Hall [Hfs2 Htr2]]]].
    { intros q Hq. apply Hpre. now right. }
    { exact Hfail. }
    exists x, s2. rewrite Hall. repeat split.
    + congruence.
    + rewrite Htr2, Htr, <- app_assoc. f_equal. simpl.
      symmetry. apply map_app.
Qed.

(** X17. When a recording cannot be measured, because it does not
    decode or the service fails on its upload or its transcription, after
    the recordings before it were measured, the analyzer dies of the
    uncaught error with exit status 1 and the file system is as it was: no
    report, not even of the recordings already measured.  The requests
    sent are those for the recordings up to the failing one, in order, and
    none for the ones after it; a recording that does not decode is not
    uploaded. *)
Theorem analyzer_stops_at_first_failure (e : Env) (s : St)
    (pre : list string) (name : string) (post : list string) :
  str_falsy (api_key e) = false ->
  measure_dir_exists e = true ->
  let dir := join (script_dir e) "wpm-measure" in
  glob_mp3 e = pre ++ name :: post ->
  (forall p, p ∈ pre -> is_Some (sample e dir p)) ->
  sample e dir name = None ->
  let r := run_script (main e) s in
  fst r = 1
  /\ st_fs (snd r) = st_fs s
  /\ st_trace (snd r)
     = st_trace s
       ++ map Remote (concat (map (attempted e dir) (pre ++ [name])))
  /\ (audio_length_ms e (join dir name) = None ->
      attempted e dir name = []).
Proof.
  intros Hkey Hdir dir Hglob Hpre Hfail r.
  assert (Hr : r = run_script (main e) s) by reflexivity. clearbody r.
  unfold run_script, main in Hr. rewrite Hkey, Hdir, Hglob in Hr.
  fold dir in Hr. cbn [negb] in Hr.
  unfold bind at 1 in Hr. unfold ret at 1 in Hr. cbn beta iota in Hr.
  unfold bind at 1 in Hr. unfold ret at 1 in Hr. cbn beta iota in Hr.
  unfold bind at 1 in Hr.
  destruct (pre ++ name :: post) as [|n0 names] eqn:Hnames.
  { destruct pre; discriminate. }
  unfold ret at 1 in Hr. cbn beta iota in Hr.
  unfold bind at 1 in Hr. unfold print at 1 in Hr.
  cbn beta iota delta [st_fs st_out st_trace] in Hr.
  unfold bind at 1 in Hr. rewrite <- Hnames in Hr.
  match type of Hr with
  | context [process_files e dir _ [] ?S] =>
      destruct (process_files_stops e dir pre name post [] S Hpre Hfail)
        as [x [s1 [Hrun [Hfs1 Htr1]]]]
  end.
  rewrite Hrun in Hr. subst r. cbn [fst snd st_fs st_trace] in *.
  repeat split; auto.
  intros Hdec. unfold attempted. now rewrite Hdec.
Qed.

End AnalyzerFailures.

(** ** Edges of the generator *)

Section GeneratorEdges.

Import Generator.

(** X9. [--wpm 0] and an empty [--style] are ignored: each gives the
    run the same invocation gives without the option. *)
Theorem falsy_overrides_ignored (e : Env) (a : Args) (s : St) :
  (wpm a = Some 0 ->
   main e (Parsed a) s = main e (Parsed (without_wpm a)) s)
  /\ (style a = Some "" ->
      main e (Parsed a) s = main e (Parsed (without_style a)) s).
Proof.
  split; intros H; destruct a; simpl in H; subst; reflexivity.
Qed.

(** X10. Without [config.json] the generator prints one error line and
    exits with status 1, whatever its arguments and whether or not the key
    is set: no request is made and nothing is written. *)
Theorem missing_config_stops_generator (e : Env) (a : Args) (s : St) :
  config_file e = None ->
  run_script (main e (Parsed a)) s =
    (1, mkSt (st_fs s)
             (st_out s ++ [[Lit "Error: Config file not found: ";
                            Lit (join (script_dir e) "config.json")]])
             (st_trace s)).
Proof.
  intros H. unfold run_script. now rewrite (main_no_config e a s H).
Qed.

Lemma effective_wpm_zero (a : Args) (c : Config) :
  effective_wpm a c = 0
  <-> cfg_wpm c = Some 0 /\ (wpm a = None \/ wpm a = Some 0).
Proof.
  unfold effective_wpm. destruct (wpm a) as [w|].
  - destruct (Z.eqb_spec w 0) as [-> | Hw].
    + destruct (cfg_wpm c) as [x|]; simpl; split.
      * intros ->. auto.
      * intros [E _]. now injection E.
      * discriminate.
      * intros [E _]. discriminate.
    + split; [contradiction|]. intros [_ [E | E]]; [discriminate|].
      injection E as ->. contradiction.
  - destruct (cfg_wpm c) as [x|]; simpl; split.
    + intros ->. auto.
    + intros [E _]. now injection E.
    + discriminate.
    + intros [E _]. discriminate.
Qed.

Lemma made_session_files (e : Env) (out : string) (s : St) :
  files (st_fs (made_session e out s)) = files (st_fs s).
Proof. unfold made_session. now destruct (is_dir _ _). Qed.

(** X11. With a rate of zero, which only a [wpm] of 0 in [config.json]
    can give, the persister writes every text file and then dies of
    [ZeroDivisionError] while building the metadata: the texts are on
    disk, [metadata.json] is as it was. *)
Theorem save_output_zero_rate (e : Env) (out : string)
    (texts : list TextData) (style : string) (T : float) (s : St) :
  session_can_be_made (st_fs s) e out ->
  session_names_free (st_fs s) e out texts ->
  let sd := session_dir_of e out in
  let r := save_output e out texts style T 0 s in
  (forall a c, effective_wpm a c = 0
     <-> cfg_wpm c = Some 0 /\ (wpm a = None \/ wpm a = Some 0))
  /\ fst r = inr (Uncaught ZeroDivisionError)
  /\ written (st_trace (snd r))
     = written (st_trace s) ++ map (pair sd) (map fst (text_writes texts))
  /\ files (st_fs (snd r)) !! (sd, "metadata.json")
     = files (st_fs s) !! (sd, "metadata.json")
  /\ (forall n, n ∈ map fst (text_writes texts) ->
        exists t, t ∈ texts
                  /\ files (st_fs (snd r)) !! (sd, n) = Some (Text (td_text t))).
Proof.
  intros Hcan Hfree sd r. subst r.
  rewrite (save_output_run e out texts style T 0 s Hcan Hfree).
  cbn [Z.eqb fst snd]. unfold texts_saved. cbn [st_fs st_trace files].
  fold sd. rewrite made_session_files.
  split; [exact effective_wpm_zero|]. repeat split.
  - now rewrite written_app, written_wrote, written_made_session.
  - apply write_all_other. intros w Hw E. injection E as E.
    apply (text_writes_not_metadata texts). rewrite <- E.
    apply (list_elem_of_fmap_2 fst). exact Hw.
  - intros n Hn.
    destruct (write_all_written sd (text_writes texts) (files (st_fs s)) n Hn)
      as [c [Hc Hl]].
    destruct (text_writes_content texts n c Hc) as [t [Ht ->]].
    exists t. split; assumption.
Qed.

Lemma map_snd_enumerate {A B} (f : A -> B) (k : Z) (xs : list A) :
  map (fun it : Z * A => f (snd it)) (enumerate k xs) = map f xs.
Proof.
  revert k. induction xs as [|x xs IH]; intros k; simpl; [reflexivity|].
  now rewrite IH.
Qed.

(** X12. The metadata agrees with the files: its chunks name the text
    files the run writes, in the same order, carry each text's target and
    the word count of its text, and [total_words] is the sum of the chunks'
    word counts. *)
Theorem metadata_matches_files (generated_at : string)
    (texts : list TextData) (style : string) (T : float) (wpm : Z) :
  let m := build_metadata generated_at texts style T wpm in
  map cm_file (md_chunks m) = map fst (text_writes texts)
  /\ map cm_target_word_count (md_chunks m) = map td_target_words texts
  /\ map cm_actual_word_count (md_chunks m)
     = map (fun t => word_count (td_text t)) texts
  /\ md_total_words m = py_sum_int (map cm_actual_word_count (md_chunks m)).
Proof.
  intros m. subst m. unfold build_metadata. cbn [md_chunks md_total_words].
  assert (Hact : map cm_actual_word_count
                   (map (fun it : Z * TextData =>
                      let (i, t) := it in
                      mkChunkMeta (meta_filename (length texts) i)
                        (td_target_words t) (word_count (td_text t))
                        (py_round (int_truediv (word_count (td_text t)) wpm)
                                  2))
                      (enumerate 1 texts))
                 = map (fun t => word_count (td_text t)) texts).
  { rewrite map_map. rewrite <- (map_snd_enumerate _ 1 texts).
    apply map_ext. now intros [i t]. }
  repeat split.
  - unfold text_writes. rewrite !map_map.
    destruct texts as [|t [|t' rest]]; [reflexivity | reflexivity |].
    apply map_ext. intros [i x]. reflexivity.
  - rewrite map_map. rewrite <- (map_snd_enumerate td_target_words 1 texts).
    apply map_ext. now intros [i t].
  - exact Hact.
  - now rewrite Hact.
Qed.

End GeneratorEdges.

(** ** The style table *)

Section StyleTable.

Import Generator.

Lemma style_prompts_distinct (s1 s2 : string) :
  s1 ∈ Spec.style_keys -> s2 ∈ Spec.style_keys ->
  get_style_prompt s1 = get_style_prompt s2 -> s1 = s2.
Proof.
  intros H1 H2 E.
  assert (Hall : forallb (fun k1 =>
                   forallb (fun k2 =>
                     implb (String.eqb (get_style_prompt k1)
                                       (get_style_prompt k2))
                           (String.eqb k1 k2))
                     Spec.style_keys) Spec.style_keys = true)
    by (vm_compute; reflexivity).
  rewrite forallb_forall in Hall.
  apply list_elem_of_In in H1, H2.
  specialize (Hall s1 H1). rewrite forallb_forall in Hall.
  specialize (Hall s2 H2).
  apply String.eqb_eq in E. rewrite E in Hall. simpl in Hall.
  now apply String.eqb_eq.
Qed.

(** X13. The resolver gives the default fragment exactly for
    [conversational] and for the styles that are not among the seven keys:
    the fragments of the seven keys are pairwise different, so no other
    key is answered as if it were unknown. *)
Theorem get_style_prompt_default_iff (style : string) :
  get_style_prompt style = get_style_prompt "conversational"
  <-> style = "conversational" \/ style ∉ Spec.style_keys.
Proof.
  split.
  - intros E. destruct (decide (style ∈ Spec.style_keys)) as [Hin | Hout].
    + left. apply style_prompts_distinct; [exact Hin | | exact E].
      unfold Spec.style_keys. now left.
    + now right.
  - intros [-> | Hout]; [reflexivity|].
    rewrite get_style_prompt_conversational. unfold get_style_prompt.
    now rewrite (style_prompts_unknown style Hout).
Qed.

End StyleTable.

(** ** Runs of the generator *)

Section GeneratorRuns.

Import Generator.

Lemma print_names_ok (names : list string) (s : St) :
  exists s', print_names names s = (inl tt, s')
    /\ st_fs s' = st_fs s /\ st_trace s' = st_trace s.
Proof.
  revert s. induction names as [|n rest IH]; intros s; simpl.
  - exists s. auto.
  - unfold bind at 1. unfold print at 1. cbn beta iota.
    destruct (IH (mkSt (st_fs s) (st_out s ++ [[Lit "  - "; Lit n]])
                       (st_trace s))) as [s' [H [Hf Ht]]].
    exists s'. split; [exact H|]. cbn in Hf, Ht. auto.
Qed.

(** One [print] of a run followed in the hypothesis [H]. *)
Ltac step_print_in H :=
  unfold bind at 1 in H; unfold print at 1 in H;
  cbn beta iota delta [st_fs st_out st_trace] in H.

(** A word count of the plan that cannot be computed ends the run where
    it is printed, with nothing sent and nothing written. *)
Lemma plan_stops (e : Env) (a : Args) (c : Config) (n : Z) (cd : float)
    (s : St) (x : Exn) :
  let w := effective_wpm a c in
  calculate_word_count cd w = inr x
  \/ ((exists per_chunk, calculate_word_count cd w = inl per_chunk)
      /\ calculate_word_count (duration a) w = inr x) ->
  exists s',
    plan_and_generate e a c n cd s = (inr (Uncaught x), s')
    /\ st_fs s' = st_fs s /\ st_trace s' = st_trace s.
Proof.
  intros w H.
  remember (plan_and_generate e a c n cd s) as m eqn:Hm.
  unfold plan_and_generate in Hm. cbv zeta in Hm. fold w in Hm.
  do 8 step_print_in Hm.
  unfold bind at 1 in Hm.
  destruct H as [H | [[pc Hpc] H]].
  - rewrite H in Hm. unfold lift at 1, raise at 1 in Hm.
    eexists. split; [exact Hm|]. split; reflexivity.
  - rewrite Hpc in Hm. unfold lift at 1, ret at 1 in Hm.
    cbn beta iota in Hm. step_print_in Hm.
    unfold bind at 1 in Hm. rewrite H in Hm.
    unfold lift at 1, raise at 1 in Hm.
    eexists. split; [exact Hm|]. split; reflexivity.
Qed.

(** [main] from the plan on, when the plan can be printed: the run is the
    generation loop, the persister and the summary, each ending the run
    if it fails. *)
Lemma plan_steps (e : Env) (a : Args) (c : Config) (n : Z) (cd : float)
    (s : St) (per_chunk in_all : Z) :
  let w := effective_wpm a c in
  let st := effective_style a c in
  calculate_word_count cd w = inl per_chunk ->
  calculate_word_count (duration a) w = inl in_all ->
  exists s2, st_fs s2 = st_fs s /\ st_trace s2 = st_trace s /\
    forall r3 s3,
      generate_all e st cd w n (topic a) (range_1 n) [] s2 = (r3, s3) ->
      match r3 with
      | inr stop => plan_and_generate e a c n cd s = (inr stop, s3)
      | inl texts =>
          forall r4 s4,
            save_output e (output_dir_of e c) texts st (duration a) w s3
            = (r4, s4) ->
            match r4 with
            | inr stop => plan_and_generate e a c n cd s = (inr stop, s4)
            | inl sd => exists s5,
                          plan_and_generate e a c n cd s = (inl tt, s5)
                          /\ st_fs s5 = st_fs s4 /\ st_trace s5 = st_trace s4
            end
      end.
Proof.
  intros w st Hpc Hall.
  remember (plan_and_generate e a c n cd s) as m eqn:Hm.
  unfold plan_and_generate in Hm. cbv zeta in Hm. fold w st in Hm.
  do 8 step_print_in Hm.
  unfold bind at 1 in Hm. rewrite Hpc in Hm.
  unfold lift at 1, ret at 1 in Hm. cbn beta iota in Hm.
  step_print_in Hm.
  unfold bind at 1 in Hm. rewrite Hall in Hm.
  unfold lift at 1, ret at 1 in Hm. cbn beta iota in Hm.
  step_print_in Hm.
  unfold bind at 1 in Hm.
  destruct (topic a =? "")%string;
    [unfold ret at 1 in Hm | unfold print at 1 in Hm];
    cbn beta iota delta [st_fs st_out st_trace] in Hm.
  all: do 2 step_print_in Hm.
  all: unfold bind at 1 in Hm.
  all: match type of Hm with
       | context [generate_all _ _ _ _ _ _ _ _ ?S] => exists S
       end; split; [reflexivity | split; [reflexivity|]].
  all: intros r3 s3 H3; rewrite H3 in Hm;
    destruct r3 as [texts | stop]; [|exact Hm].
  all: intros r4 s4 H4; unfold bind at 1 in Hm;
    fold (output_dir_of e c) in Hm; rewrite H4 in Hm;
    destruct r4 as [sd | stop]; [|exact Hm].
  all: do 9 step_print_in Hm.
  all: unfold bind at 1 in Hm; unfold get_fs at 1 in Hm;
    cbn beta iota delta [st_fs st_out st_trace] in Hm.
  all: match type of Hm with
       | _ = print_names ?ns ?S =>
           destruct (print_names_ok ns S) as [s5 [H5 [Hf Ht]]]
       end; exists s5; rewrite Hm; split; [exact H5|];
    cbn [st_fs st_trace] in Hf, Ht; auto.
Qed.

(** [main] up to the plan, for a run with its configuration, its key, a
    chunk count and a chunk duration. *)
Lemma main_to_plan (e : Env) (a : Args) (c : Config) (n : Z) (cd : float)
    (s : St) :
  config_file e = Some c ->
  str_falsy (api_key e) = false ->
  num_chunks_of a = inl n ->
  float_div_int (duration a) n = inl cd ->
  main e (Parsed a) s = plan_and_generate e a c n cd (after_style_check c a s).
Proof.
  intros Hc Hk Hn Hcd. rewrite (main_to_key e a c s Hc). cbv zeta.
  now rewrite Hn, Hcd, Hk.
Qed.

Lemma range_1_pos (n : Z) (pre : list Z) (i : Z) (post : list Z) :
  range_1 n = pre ++ i :: post -> 1 <= n.
Proof.
  intros H. apply (f_equal (@length Z)) in H.
  rewrite length_range_1, length_app in H. simpl in H. lia.
Qed.

(** X14. When the plan can be made and printed, and the service answers
    the requests of the first chunks and fails on the next one, the run dies
    of the uncaught error with exit status 1.  The requests sent are those
    of the chunks up to the failing one, in order, and none after it; the
    file system is as it was: no session directory is made and the texts
    already generated are lost. *)
Theorem generator_stops_at_failed_request (e : Env) (a : Args) (c : Config)
    (s : St) (n : Z) (cd : float) (target in_all : Z)
    (pre : list Z) (i : Z) (post : list Z) :
  config_file e = Some c ->
  str_falsy (api_key e) = false ->
  num_chunks_of a = inl n ->
  float_div_int (duration a) n = inl cd ->
  calculate_word_count cd (effective_wpm a c) = inl target ->
  calculate_word_count (duration a) (effective_wpm a c) = inl in_all ->
  let st := effective_style a c in
  let request := fun j => chunk_request target st j n (topic a) in
  range_1 n = pre ++ i :: post ->
  (forall j, j ∈ pre -> is_Some (service e (request j))) ->
  service e (request i) = None ->
  let r := run_script (main e (Parsed a)) s in
  fst r = 1
  /\ st_fs (snd r) = st_fs s
  /\ st_trace (snd r)
     = st_trace s ++ map (fun j => Remote (request j)) (pre ++ [i]).
Proof.
  intros Hc Hk Hn Hcd Htarget Htotal st request Hrange Hpre Hfail r. subst r.
  unfold run_script. rewrite (main_to_plan e a c n cd s Hc Hk Hn Hcd).
  destruct (plan_steps e a c n cd (after_style_check c a s) target in_all
              Htarget Htotal) as [s2 [Hfs2 [Htr2 Hsteps]]].
  fold st in Hsteps.
  destruct (generate_all_stops e st cd (effective_wpm a c) n (topic a)
              pre i post [] s2 target Htarget Hpre Hfail)
    as [s3 [Hall [Hfs3 Htr3]]].
  rewrite <- Hrange in Hall.
  specialize (Hsteps _ _ Hall). cbn beta iota in Hsteps.
  rewrite Hsteps. cbn [fst snd st_fs st_trace].
  rewrite after_style_check_fs in Hfs2.
  rewrite after_style_check_trace in Htr2.
  repeat split.
  - congruence.
  - now rewrite Htr3, Htr2.
Qed.

Lemma session_saved_ext (e : Env) (out : string) (texts : list TextData)
    (st : string) (T : float) (w : Z) (s s' : St) :
  st_fs s = st_fs s' -> st_trace s = st_trace s' ->
  st_fs (session_saved e out texts st T w s)
  = st_fs (session_saved e out texts st T w s')
  /\ st_trace (session_saved e out texts st T w s)
     = st_trace (session_saved e out texts st T w s').
Proof.
  intros Hf Ht. unfold session_saved, texts_saved, made_session.
  rewrite Hf. destruct (is_dir (st_fs s') (session_dir_of e out));
    cbn [st_fs st_out st_trace dirs files]; rewrite ?Hf, ?Ht; auto.
Qed.

(** X15. A run with a configuration and the key, a plan that can be made
    and printed, a rate other than zero, a service that answers the request
    of every chunk and a session directory that can be made ends normally.
    The texts are the stripped answers to the requests of chunks 1 to n,
    each with the plan's target and its own word count; every request is
    sent before anything is written, in the order of the chunks; and what
    is on disk afterwards is what the persister leaves for these texts. *)
Theorem generator_run (e : Env) (a : Args) (c : Config) (s : St)
    (n : Z) (cd : float) (target in_all : Z) :
  config_file e = Some c ->
  str_falsy (api_key e) = false ->
  num_chunks_of a = inl n ->
  float_div_int (duration a) n = inl cd ->
  let w := effective_wpm a c in
  let st := effective_style a c in
  calculate_word_count cd w = inl target ->
  calculate_word_count (duration a) w = inl in_all ->
  let out := output_dir_of e c in
  let request := fun i => chunk_request target st i n (topic a) in
  w <> 0 ->
  (forall i, i ∈ range_1 n -> is_Some (service e (request i))) ->
  session_can_be_made (st_fs s) e out ->
  (forall texts, length texts = Z.to_nat n ->
     session_names_free (st_fs s) e out texts) ->
  exists texts s',
    main e (Parsed a) s = (inl tt, s')
    /\ Forall2 (fun i t => chunk_of e target st n (topic a) i = Some t)
               (range_1 n) texts
    /\ let saved :=
         session_saved e out texts st (duration a) w
           (after_requests s (map request (range_1 n))) in
       st_fs s' = st_fs saved /\ st_trace s' = st_trace saved.
Proof.
  intros Hc Hk Hn Hcd w st Htarget Htotal out request Hw Hans Hcan Hfree.
  rewrite (main_to_plan e a c n cd s Hc Hk Hn Hcd).
  destruct (plan_steps e a c n cd (after_style_check c a s) target in_all
              Htarget Htotal) as [s2 [Hfs2 [Htr2 Hsteps]]].
  fold w st in Hsteps.
  rewrite after_style_check_fs in Hfs2.
  rewrite after_style_check_trace in Htr2.
  destruct (generate_all_answered e st cd w n (topic a)
              (range_1 n) [] s2 target Htarget Hans)
    as [texts [s3 [Hall [Hts [Hfs3 Htr3]]]]].
  specialize (Hsteps _ _ Hall). cbn beta iota in Hsteps.
  assert (Hlen : length texts = Z.to_nat n).
  { rewrite <- (Forall2_length _ _ _ Hts). apply length_range_1. }
  assert (Hsave : save_output e out texts st (duration a) w s3
                  = (inl (session_dir_of e out),
                     session_saved e out texts st (duration a) w s3)).
  { rewrite save_output_run.
    - apply Z.eqb_neq in Hw. now rewrite Hw.
    - now rewrite Hfs3, Hfs2.
    - rewrite Hfs3, Hfs2. now apply Hfree. }
  specialize (Hsteps _ _ Hsave). cbn beta iota in Hsteps.
  destruct Hsteps as [s5 [Hmain [Hfs5 Htr5]]].
  exists texts, s5. split; [exact Hmain|]. split; [exact Hts|].
  cbv zeta.
  destruct (session_saved_ext e out texts st (duration a) w s3
              (after_requests s (map request (range_1 n)))) as [Ef Et].
  - unfold after_requests. cbn [st_fs]. congruence.
  - unfold after_requests. cbn [st_trace]. rewrite Htr3, Htr2.
    now rewrite map_map.
  - split; congruence.
Qed.








(** X18. A plan whose word counts are beyond the doubles ends the run
    while it is printed: when the product of a duration and the rate is
    an infinity, [int] raises [OverflowError], and when it is no number,
    [ValueError]; the run dies of it with exit status 1 after the key was
    checked, with no request sent and nothing written. *)
Theorem plan_overflow_stops_generator (e : Env) (a : Args) (c : Config)
    (s : St) (n : Z) (cd : float) (x : Exn) :
  config_file e = Some c ->
  str_falsy (api_key e) = false ->
  num_chunks_of a = inl n ->
  float_div_int (duration a) n = inl cd ->
  let w := effective_wpm a c in
  calculate_word_count cd w = inr x
  \/ ((exists per_chunk, calculate_word_count cd w = inl per_chunk)
      /\ calculate_word_count (duration a) w = inr x) ->
  (exists s',
     main e (Parsed a) s = (inr (Uncaught x), s')
     /\ st_fs s' = st_fs s /\ st_trace s' = st_trace s)
  /\ fst (run_script (main e (Parsed a)) s) = 1
  /\ (forall T wpm f sg,
        float_of_int wpm = inl f -> fmul T f = S754_infinity sg ->
        calculate_word_count T wpm = inr OverflowError)
  /\ (forall T wpm f,
        float_of_int wpm = inl f -> fmul T f = S754_nan ->
        calculate_word_count T wpm = inr ValueError).
Proof.
  intros Hc Hk Hn Hcd w Hx.
  destruct (plan_stops e a c n cd (after_style_check c a s) x Hx)
    as [s' [Hrun [Hfs Htr]]].
  rewrite after_style_check_fs in Hfs.
  rewrite after_style_check_trace in Htr.
  pose proof (main_to_plan e a c n cd s Hc Hk Hn Hcd) as Hmain.
  rewrite Hrun in Hmain.
  split; [exists s'; auto|].
  split; [unfold run_script; now rewrite Hmain|].
  split.
  - intros T wpm f sg Hf Hinf. unfold calculate_word_count, float_mul_int.
    rewrite Hf. cbn [and_then]. now rewrite Hinf.
  - intros T wpm f Hf Hnan. unfold calculate_word_count, float_mul_int.
    rewrite Hf. cbn [and_then]. now rewrite Hnan.
Qed.

End GeneratorRuns.

(** ** The further properties on concrete runs *)

Lemma analyzer_missing_input_witness :
  fst (run_script (Analyzer.main no_recordings_env) Scenario.start) = 1.
Proof.
  refine (proj1 (analyzer_missing_input no_recordings_env Scenario.start
                   _ _)).
  - reflexivity.
  - right. reflexivity.
Defined.

Lemma falsy_overrides_ignored_witness :
  Generator.main (Scenario.generator_env (Some "key"))
    (Generator.Parsed args_wpm_zero) Scenario.start
  = Generator.main (Scenario.generator_env (Some "key"))
      (Generator.Parsed (without_wpm args_wpm_zero)) Scenario.start.
Proof.
  refine (proj1 (falsy_overrides_ignored (Scenario.generator_env (Some "key"))
                   args_wpm_zero Scenario.start) _).
  reflexivity.
Defined.

Lemma missing_config_stops_generator_witness :
  fst (run_script (Generator.main no_config_env
                     (Generator.Parsed (Scenario.args_chunks 2)))
         Scenario.start) = 1.
Proof.
  refine (f_equal fst (missing_config_stops_generator no_config_env
                         (Scenario.args_chunks 2) Scenario.start _)).
  reflexivity.
Defined.

Lemma save_output_zero_rate_witness :
  fst (Generator.save_output (Scenario.generator_env (Some "key"))
         "/app/output" first_take "conversational" (of_Q 1) 0 Scenario.start)
  = inr (Uncaught ZeroDivisionError).
Proof.
  refine (proj1 (proj2 (save_output_zero_rate
                          (Scenario.generator_env (Some "key")) "/app/output"
                          first_take "conversational" (of_Q 1)
                          Scenario.start _ _))).
  - right. split; vm_compute; reflexivity.
  - intros n Hn Hin. apply session_file_names_long in Hn.
    unfold Scenario.start, Scenario.fs_app in Hin.
    cbn [dirs st_fs] in Hin. apply elem_of_singleton in Hin.
    pose proof (join_longer
                  (session_dir_of (Scenario.generator_env (Some "key"))
                     "/app/output") n Hn) as Hl.
    rewrite Hin in Hl. vm_compute in Hl. lia.
Defined.

Lemma generator_stops_at_failed_request_witness :
  fst (run_script (Generator.main silent_env
                     (Generator.Parsed (Scenario.args_chunks 2)))
         Scenario.start) = 1
  /\ st_fs (snd (run_script (Generator.main silent_env
                               (Generator.Parsed (Scenario.args_chunks 2)))
                   Scenario.start))
     = Scenario.fs_app.
Proof.
  destruct (generator_stops_at_failed_request silent_env
              (Scenario.args_chunks 2) Scenario.config Scenario.start
              2 (of_Q 5) 750 1500 [] 1 [2]) as [Hexit [Hfs _]].
  - reflexivity.
  - reflexivity.
  - reflexivity.
  - vm_compute. reflexivity.
  - vm_compute. reflexivity.
  - vm_compute. reflexivity.
  - reflexivity.
  - intros j Hj. apply elem_of_nil in Hj. destruct Hj.
  - reflexivity.
  - split; [exact Hexit | exact Hfs].
Defined.

Lemma generator_run_witness :
  exists s',
    Generator.main (Scenario.generator_env (Some "key"))
      (Generator.Parsed (Scenario.args_chunks 2)) Scenario.start
    = (inl tt, s').
Proof.
  destruct (generator_run (Scenario.generator_env (Some "key"))
              (Scenario.args_chunks 2) Scenario.config Scenario.start
              2 (of_Q 5) 750 1500)
    as [texts [s' [Hmain _]]].
  - reflexivity.
  - reflexivity.
  - reflexivity.
  - vm_compute. reflexivity.
  - vm_compute. reflexivity.
  - vm_compute. reflexivity.
  - discriminate.
  - intros i _. eexists. reflexivity.
  - right. split; vm_compute; reflexivity.
  - intros texts _ n Hn Hin. apply session_file_names_long in Hn.
    unfold Scenario.start, Scenario.fs_app in Hin.
    cbn [dirs st_fs] in Hin. apply elem_of_singleton in Hin.
    pose proof (join_longer
                  (session_dir_of (Scenario.generator_env (Some "key"))
                     (output_dir_of (Scenario.generator_env (Some "key"))
                        Scenario.config)) n Hn) as Hl.
    rewrite Hin in Hl. vm_compute in Hl. lia.
  - exists s'. exact Hmain.
Defined.

Lemma analyzer_stops_at_first_failure_witness :
  fst (run_script (Analyzer.main corrupt_clip_env) Scenario.start) = 1
  /\ st_fs (snd (run_script (Analyzer.main corrupt_clip_env) Scenario.start))
     = Scenario.fs_app.
Proof.
  destruct (analyzer_stops_at_first_failure corrupt_clip_env Scenario.start
              ["a.mp3"] "b.mp3" []) as [Hexit [Hfs _]].
  - reflexivity.
  - reflexivity.
  - reflexivity.
  - intros p Hp. apply list_elem_of_singleton in Hp. subst p.
    eexists. vm_compute. reflexivity.
  - vm_compute. reflexivity.
  - split; [exact Hexit | exact Hfs].
Defined.

Lemma plan_overflow_stops_generator_witness :
  fst (Generator.main (Scenario.generator_env (Some "key"))
         (Generator.Parsed args_huge_duration) Scenario.start)
  = inr (Uncaught OverflowError)
  /\ st_fs (snd (Generator.main (Scenario.generator_env (Some "key"))
                   (Generator.Parsed args_huge_duration) Scenario.start))
     = Scenario.fs_app.
Proof.
  destruct (plan_overflow_stops_generator
              (Scenario.generator_env (Some "key")) args_huge_duration
              Scenario.config Scenario.start 2
              (fdiv (of_Q (inject_Z (10 ^ 308))) (to_float 2))
              OverflowError) as [[s' [Hrun [Hfs _]]] _].
  - reflexivity.
  - reflexivity.
  - reflexivity.
  - vm_compute. reflexivity.
  - left. vm_compute. reflexivity.
  - rewrite Hrun. split; [reflexivity | exact Hfs].
Defined.
